(** * Aegilon: MEV detection and protection

  A shallow embedding of the detection and decision core of the Aegilon
  protocol:

  - [MEVDetector]          (contracts/MEVDetector.sol), the inline
    first-match detection path [detectMEV] with its gas-price ring buffer
    and per-feed price store;
  - [MEVProtector]         (contracts/MEVProtector.sol), the stored oracle
    price and [checkPriceAnomaly];
  - [MEVProtectorAdvanced] (contracts/MEVProtectorAdvanced.sol), the
    decision engine [protectSwap];
  - [MevDetection]         (subgraph/src/mev-detection.ts), the additive
    analytics scorer [calculateRiskScore].

  Solidity [uint256] values are integers in [0, 2^256 - 1]; arithmetic is
  the checked arithmetic of Solidity 0.8 (overflow, underflow and division
  by zero abort the call with a panic), and a call that aborts leaves the
  state as it was: a function returns either [Err e] or [Ok] of the new
  state. *)

From Stdlib Require Import ZArith QArith Lia.
From stdpp Require Import gmap strings list fin_maps.

Local Open Scope Z_scope.

(** ** Checked 256-bit arithmetic and the result of a call *)

Module Evm.

Definition MAX_UINT256 : Z := 2 ^ 256 - 1.

#[global] Arguments MAX_UINT256 : simpl never.

Definition is_uint256 (x : Z) : Prop := 0 <= x <= MAX_UINT256.

(** What a call aborts with: [Panic 0x11] arithmetic overflow or
    underflow, [Panic 0x12] division by zero, [Panic 0x32] array index out
    of bounds; [Revert reason] a failed [require]; [OracleFailure] the
    oracle library rejecting the data package of the transaction;
    [CalleeFailure] an external token or value transfer that reverted. *)
Inductive error : Type :=
| Panic (code : Z)
| Revert (reason : string)
| OracleFailure
| CalleeFailure.

Definition ARITHMETIC : Z := 17.        (* 0x11 *)
Definition DIVISION_BY_ZERO : Z := 18.  (* 0x12 *)
Definition OUT_OF_BOUNDS : Z := 50.     (* 0x32 *)

Inductive result (A : Type) : Type :=
| Ok (a : A)
| Err (e : error).

Arguments Ok {A} a.
Arguments Err {A} e.

Definition bind {A B : Type} (r : result A) (k : A -> result B) : result B :=
  match r with
  | Ok a => k a
  | Err e => Err e
  end.

Definition checked_add (a b : Z) : result Z :=
  if a + b <=? MAX_UINT256 then Ok (a + b) else Err (Panic ARITHMETIC).

Definition checked_sub (a b : Z) : result Z :=
  if b <=? a then Ok (a - b) else Err (Panic ARITHMETIC).

Definition checked_mul (a b : Z) : result Z :=
  if a * b <=? MAX_UINT256 then Ok (a * b) else Err (Panic ARITHMETIC).

Definition checked_div (a b : Z) : result Z :=
  if b =? 0 then Err (Panic DIVISION_BY_ZERO) else Ok (a / b).

Definition checked_mod (a b : Z) : result Z :=
  if b =? 0 then Err (Panic DIVISION_BY_ZERO) else Ok (a mod b).

Definition require (cond : bool) (reason : string) : result unit :=
  if cond then Ok tt else Err (Revert reason).

(** [array[i]] as a read. *)
Definition array_get (a : list Z) (i : Z) : result Z :=
  match a !! Z.to_nat i with
  | Some v => Ok v
  | None => Err (Panic OUT_OF_BOUNDS)
  end.

(** [array[i] = v]. *)
Definition array_set (a : list Z) (i : Z) (v : Z) : result (list Z) :=
  if (Z.to_nat i <? length a)%nat then Ok (<[Z.to_nat i := v]> a)
  else Err (Panic OUT_OF_BOUNDS).

(** [for (uint i = start; ...; i++) body], [n] iterations. *)
Fixpoint for_loop {A : Type} (n : nat) (i : Z)
         (body : Z -> A -> result A) (a : A) : result A :=
  match n with
  | O => Ok a
  | S n' => bind (body i a) (for_loop n' (i + 1) body)
  end.

(** A [mapping(... => uint256)]: a key never written reads as 0. *)
Definition mget `{Countable K} (m : gmap K Z) (k : K) : Z :=
  default 0 (m !! k).

Definition is_ok {A : Type} (r : result A) : bool :=
  match r with Ok _ => true | Err _ => false end.

End Evm.

Export Evm.

#[global] Instance result_ret : MRet result := @Ok.
#[global] Instance result_bind : MBind result :=
  fun A B k r => Evm.bind r k.

(** ** contracts/MEVDetector.sol *)

Module MEVDetector.

Inductive ThreatType : Type := SANDWICH | FRONTRUN | ARBITRAGE | UNKNOWN.

Definition GAS_HISTORY_SIZE : Z := 100.

Record State : Type := mkState {
  owner : Z;
  riskThreshold : Z;
  minPriceDelta : Z;
  frontRunGasMultiplier : Z;
  lastPrices : gmap Z Z;
  lastUpdateTimestamp : gmap Z Z;
  gasHistory : list Z;
  gasHistoryIndex : Z
}.

Inductive Event : Type :=
| MEVThreatDetected (user feedId : Z) (threatType : ThreatType)
                    (riskScore timestamp : Z)
| PriceAnomalyDetected (feedId expectedPrice actualPrice delta : Z).

(** The transaction a call runs in: the caller, the block time, and the
    value [getOracleNumericValueFromTxMsg] extracts for a feed from the
    signed data package ([None] when the library rejects the package). *)
Record Env : Type := mkEnv {
  msg_sender : Z;
  block_timestamp : Z;
  oracle : Z -> option Z
}.

Record Verdict : Type := mkVerdict {
  isThreat : bool;
  threatType : ThreatType;
  riskScore : Z
}.

Definition constructor (deployer : Z) : State :=
  {| owner := deployer;
     riskThreshold := 500;
     minPriceDelta := 100;
     frontRunGasMultiplier := 120;
     lastPrices := ∅;
     lastUpdateTimestamp := ∅;
     gasHistory := replicate 100 0;
     gasHistoryIndex := 0 |}.

Definition set_price (st : State) (feedId price time : Z) : State :=
  {| owner := owner st;
     riskThreshold := riskThreshold st;
     minPriceDelta := minPriceDelta st;
     frontRunGasMultiplier := frontRunGasMultiplier st;
     lastPrices := <[feedId := price]> (lastPrices st);
     lastUpdateTimestamp := <[feedId := time]> (lastUpdateTimestamp st);
     gasHistory := gasHistory st;
     gasHistoryIndex := gasHistoryIndex st |}.

Definition set_gas (st : State) (history : list Z) (index : Z) : State :=
  {| owner := owner st;
     riskThreshold := riskThreshold st;
     minPriceDelta := minPriceDelta st;
     frontRunGasMultiplier := frontRunGasMultiplier st;
     lastPrices := lastPrices st;
     lastUpdateTimestamp := lastUpdateTimestamp st;
     gasHistory := history;
     gasHistoryIndex := index |}.

Definition getOracleNumericValueFromTxMsg (env : Env) (feedId : Z) : result Z :=
  match oracle env feedId with
  | Some v => Ok v
  | None => Err OracleFailure
  end.

Definition onlyOwner (st : State) (env : Env) : result unit :=
  require (msg_sender env =? owner st) "Ownable: caller is not the owner".

Definition _detectFrontRunning (st : State) (txGasPrice avgGasPrice : Z)
  : result bool :=
  m ← checked_mul avgGasPrice (frontRunGasMultiplier st) ;
  t ← checked_div m 100 ;
  Ok (txGasPrice >? t).

Definition _detectArbitragePattern (st : State) (env : Env)
           (feedId currentPrice : Z) : result bool :=
  let lastPrice := mget (lastPrices st) feedId in
  let lastUpdate := mget (lastUpdateTimestamp st) feedId in
  if (lastPrice =? 0) || (lastUpdate =? 0) then Ok false
  else
    age ← checked_sub (block_timestamp env) lastUpdate ;
    if age <=? 30 then
      priceChange ← (if currentPrice >? lastPrice
                      then checked_sub currentPrice lastPrice
                      else checked_sub lastPrice currentPrice) ;
      m ← checked_mul priceChange 10000 ;
      changePercentage ← checked_div m lastPrice ;
      Ok (changePercentage >? minPriceDelta st)
    else Ok false.

Definition _updateGasHistory (st : State) (gasPrice : Z) : result State :=
  h ← array_set (gasHistory st) (gasHistoryIndex st) gasPrice ;
  n ← checked_add (gasHistoryIndex st) 1 ;
  i ← checked_mod n GAS_HISTORY_SIZE ;
  Ok (set_gas st h i).

Definition average_step (history : list Z) (i : Z) (acc : Z * Z)
  : result (Z * Z) :=
  let '(sum, count) := acc in
  g ← array_get history i ;
  if g >? 0 then
    g' ← array_get history i ;
    sum' ← checked_add sum g' ;
    count' ← checked_add count 1 ;
    Ok (sum', count')
  else Ok (sum, count).

Definition _getAverageGasPrice (st : State) : result Z :=
  '(sum, count) ← for_loop 100 0 (average_step (gasHistory st)) (0, 0) ;
  if count >? 0 then checked_div sum count else Ok 0.

Definition getAverageGasPrice (st : State) : result Z :=
  _getAverageGasPrice st.

Definition getCurrentPrice (env : Env) (feedId : Z) : result Z :=
  getOracleNumericValueFromTxMsg env feedId.

Definition getPriceHistory (st : State) (feedId : Z) : Z * Z :=
  (mget (lastPrices st) feedId, mget (lastUpdateTimestamp st) feedId).

Definition detectMEV (st : State) (env : Env)
           (feedId expectedPrice txGasPrice : Z)
  : result (State * list Event * Verdict) :=
  onlyOwner st env ;;
  currentPrice ← getOracleNumericValueFromTxMsg env feedId ;
  let st1 := set_price st feedId currentPrice (block_timestamp env) in
  delta ← (if currentPrice >? expectedPrice
            then checked_sub currentPrice expectedPrice
            else checked_sub expectedPrice currentPrice) ;
  m ← checked_mul delta 10000 ;
  slippagePercentage ← checked_div m expectedPrice ;
  st2 ← _updateGasHistory st1 txGasPrice ;
  if slippagePercentage >? riskThreshold st2 then
    Ok (st2,
        [MEVThreatDetected (msg_sender env) feedId SANDWICH
                           slippagePercentage (block_timestamp env);
         PriceAnomalyDetected feedId expectedPrice currentPrice delta],
        mkVerdict true SANDWICH slippagePercentage)
  else
    avgGasPrice ← _getAverageGasPrice st2 ;
    frontRun ← (if avgGasPrice >? 0
                 then _detectFrontRunning st2 txGasPrice avgGasPrice
                 else Ok false) ;
    if (frontRun : bool) then
      d ← checked_sub txGasPrice avgGasPrice ;
      n ← checked_mul d 10000 ;
      score ← checked_div n avgGasPrice ;
      Ok (st2,
          [MEVThreatDetected (msg_sender env) feedId FRONTRUN
                             score (block_timestamp env)],
          mkVerdict true FRONTRUN score)
    else
      arbitrage ← _detectArbitragePattern st2 env feedId currentPrice ;
      if (arbitrage : bool) then
        Ok (st2,
            [MEVThreatDetected (msg_sender env) feedId ARBITRAGE
                               300 (block_timestamp env)],
            mkVerdict true ARBITRAGE 300)
      else Ok (st2, [], mkVerdict false UNKNOWN 0).

(** The storage a deployed detector can be in: the history array keeps the
    100 slots the constructor pushed, the cursor stays inside it, and every
    stored word is a [uint256]. *)
Record wf (st : State) : Prop := mkWf {
  wf_length : length (gasHistory st) = 100%nat;
  wf_index : 0 <= gasHistoryIndex st < 100;
  wf_slots : Forall is_uint256 (gasHistory st);
  wf_threshold : is_uint256 (riskThreshold st);
  wf_delta : is_uint256 (minPriceDelta st);
  wf_multiplier : is_uint256 (frontRunGasMultiplier st)
}.

End MEVDetector.


(** ** contracts/MEVProtector.sol: the stored oracle price *)

Module MEVProtector.

Record State : Type := mkState {
  authorizedIndexer : Z;
  priceDeviationThreshold : Z;
  lastOraclePrices : gmap string Z;
  lastOracleUpdate : gmap string Z
}.

Record Env : Type := mkEnv {
  msg_sender : Z;
  block_timestamp : Z
}.

Definition onlyIndexer (st : State) (env : Env) : result unit :=
  require (msg_sender env =? authorizedIndexer st) "Only authorized indexer".

Definition updateOraclePrice (st : State) (env : Env)
           (symbol : string) (price : Z) : result State :=
  onlyIndexer st env ;;
  Ok {| authorizedIndexer := authorizedIndexer st;
        priceDeviationThreshold := priceDeviationThreshold st;
        lastOraclePrices := <[symbol := price]> (lastOraclePrices st);
        lastOracleUpdate :=
          <[symbol := block_timestamp env]> (lastOracleUpdate st) |}.

Definition checkPriceAnomaly (st : State) (env : Env)
           (symbol : string) (currentPrice : Z) : result bool :=
  let oraclePrice := mget (lastOraclePrices st) symbol in
  require (oraclePrice >? 0) "No oracle price available" ;;
  age ← checked_sub (block_timestamp env) (mget (lastOracleUpdate st) symbol) ;
  require (age <? 300) "Oracle price too old" ;;
  deviation ← (if currentPrice >? oraclePrice then
                 d ← checked_sub currentPrice oraclePrice ;
                 m ← checked_mul d 10000 ;
                 checked_div m oraclePrice
               else
                 d ← checked_sub oraclePrice currentPrice ;
                 m ← checked_mul d 10000 ;
                 checked_div m oraclePrice) ;
  Ok (deviation >? priceDeviationThreshold st).

End MEVProtector.

(** ** contracts/MEVProtectorAdvanced.sol: the decision engine *)

Module MEVProtectorAdvanced.

Inductive ProtectionStrategy : Type := REVERT | ADJUST | DELAY | PRIVATE_RELAY.

Record ProtectionConfig : Type := mkConfig {
  isActive : bool;
  strategy : ProtectionStrategy;
  maxSlippage : Z;
  gasLimit : Z;
  whitelistMode : bool
}.

Record SwapParams : Type := mkSwapParams {
  tokenIn : Z;
  tokenOut : Z;
  amountIn : Z;
  minAmountOut : Z;
  pricefeedId : Z;
  deadline : Z;
  recipient : Z
}.

Record ProtectionStats : Type := mkStats {
  totalProtectedSwaps : Z;
  threatsDetected : Z;
  threatsBlocked : Z;
  totalValueProtected : Z;
  feesCollected : Z
}.

Inductive Event : Type :=
| ProtectionActivated (user tokenIn tokenOut amountIn : Z)
                      (strategy : ProtectionStrategy)
| ThreatMitigated (user feedId : Z) (threatType : MEVDetector.ThreatType)
                  (riskScore : Z) (strategy : ProtectionStrategy)
| SwapProtected (user tokenIn tokenOut amountIn amountOut protectionFee : Z)
| ConfigurationUpdated (user : Z) (strategy : ProtectionStrategy)
                       (maxSlippage : Z)
| DetectorEvent (e : MEVDetector.Event).

(** A call the protector makes to a contract outside this repository: the
    two ERC20 calls on [tokenIn], and the value transfer to the treasury. *)
Inductive ExternalCall : Type :=
| TransferFrom (token from to amount : Z)
| Transfer (token to amount : Z)
| SendValue (to amount : Z).

Record State : Type := mkState {
  this : Z;
  treasury : Z;
  protectionFee : Z;
  maxProtectionFee : Z;
  userConfigs : gmap Z ProtectionConfig;
  userStats : gmap Z ProtectionStats;
  whitelistedTokens : gmap Z bool;
  priceDelays : gmap Z Z;
  globalStats : ProtectionStats
}.

(** The protector, the detector it calls, and what the chain has recorded
    of the calls so far: the events emitted and the external calls made,
    oldest first. *)
Record World : Type := mkWorld {
  protector : State;
  detector : MEVDetector.State;
  events : list Event;
  calls : list ExternalCall
}.

(** The transaction [protectSwap] runs in. [callee_ok c] tells whether
    the external call [c] goes through ([false]: the callee reverts, and
    so does the whole call). *)
Record Env : Type := mkEnv {
  msg_sender : Z;
  msg_value : Z;
  block_timestamp : Z;
  tx_gasprice : Z;
  oracle : Z -> option Z;
  callee_ok : ExternalCall -> bool
}.

Definition zero_stats : ProtectionStats := mkStats 0 0 0 0 0.
Definition zero_config : ProtectionConfig := mkConfig false REVERT 0 0 false.

Definition config_of (st : State) (user : Z) : ProtectionConfig :=
  default zero_config (userConfigs st !! user).
Definition stats_of (st : State) (user : Z) : ProtectionStats :=
  default zero_stats (userStats st !! user).
Definition whitelisted (st : State) (token : Z) : bool :=
  default false (whitelistedTokens st !! token).

Definition constructor (self deployer _detector _treasury : Z) : World :=
  {| protector :=
       {| this := self; treasury := _treasury;
          protectionFee := 100; maxProtectionFee := 500;
          userConfigs := ∅; userStats := ∅; whitelistedTokens := ∅;
          priceDelays := ∅; globalStats := zero_stats |};
     detector := MEVDetector.constructor deployer;
     events := [];
     calls := [] |}.

Definition with_protector (w : World) (p : State) : World :=
  {| protector := p; detector := detector w;
     events := events w; calls := calls w |}.

Definition with_detector (w : World) (d : MEVDetector.State) : World :=
  {| protector := protector w; detector := d;
     events := events w; calls := calls w |}.

Definition emit (w : World) (es : list Event) : World :=
  {| protector := protector w; detector := detector w;
     events := events w ++ es; calls := calls w |}.

(** An external call: recorded when it goes through, and aborting the
    whole call when the callee reverts. The value the ERC20 calls return
    is not looked at by the contract. *)
Definition external_call (w : World) (env : Env) (c : ExternalCall)
  : result World :=
  if callee_ok env c
  then Ok {| protector := protector w; detector := detector w;
             events := events w; calls := calls w ++ [c] |}
  else Err CalleeFailure.

Definition with_stats (st : State) (user : Z)
           (g u : ProtectionStats) : State :=
  {| this := this st; treasury := treasury st;
     protectionFee := protectionFee st;
     maxProtectionFee := maxProtectionFee st;
     userConfigs := userConfigs st;
     userStats := <[user := u]> (userStats st);
     whitelistedTokens := whitelistedTokens st;
     priceDelays := priceDelays st;
     globalStats := g |}.

Definition with_config (st : State) (user : Z) (c : ProtectionConfig) : State :=
  {| this := this st; treasury := treasury st;
     protectionFee := protectionFee st;
     maxProtectionFee := maxProtectionFee st;
     userConfigs := <[user := c]> (userConfigs st);
     userStats := userStats st;
     whitelistedTokens := whitelistedTokens st;
     priceDelays := priceDelays st;
     globalStats := globalStats st |}.

Definition with_whitelist (st : State) (token : Z) (b : bool) : State :=
  {| this := this st; treasury := treasury st;
     protectionFee := protectionFee st;
     maxProtectionFee := maxProtectionFee st;
     userConfigs := userConfigs st;
     userStats := userStats st;
     whitelistedTokens := <[token := b]> (whitelistedTokens st);
     priceDelays := priceDelays st;
     globalStats := globalStats st |}.

Definition with_delay (st : State) (feedId : Z) (t : Z) : State :=
  {| this := this st; treasury := treasury st;
     protectionFee := protectionFee st;
     maxProtectionFee := maxProtectionFee st;
     userConfigs := userConfigs st;
     userStats := userStats st;
     whitelistedTokens := whitelistedTokens st;
     priceDelays := <[feedId := t]> (priceDelays st);
     globalStats := globalStats st |}.

(** [globalStats.f++; userStats[msg.sender].f++] for each counter [f]. *)
Definition count_swap (s : ProtectionStats) : result ProtectionStats :=
  n ← checked_add (totalProtectedSwaps s) 1 ;
  Ok (mkStats n (threatsDetected s) (threatsBlocked s)
              (totalValueProtected s) (feesCollected s)).

Definition count_detected (s : ProtectionStats) : result ProtectionStats :=
  n ← checked_add (threatsDetected s) 1 ;
  Ok (mkStats (totalProtectedSwaps s) n (threatsBlocked s)
              (totalValueProtected s) (feesCollected s)).

Definition count_blocked (s : ProtectionStats) : result ProtectionStats :=
  n ← checked_add (threatsBlocked s) 1 ;
  Ok (mkStats (totalProtectedSwaps s) (threatsDetected s) n
              (totalValueProtected s) (feesCollected s)).

Definition add_value (s : ProtectionStats) (v : Z) : result ProtectionStats :=
  n ← checked_add (totalValueProtected s) v ;
  Ok (mkStats (totalProtectedSwaps s) (threatsDetected s) (threatsBlocked s)
              n (feesCollected s)).

Definition add_fees (s : ProtectionStats) (v : Z) : result ProtectionStats :=
  n ← checked_add (feesCollected s) v ;
  Ok (mkStats (totalProtectedSwaps s) (threatsDetected s) (threatsBlocked s)
              (totalValueProtected s) n).

(** One statement on the global record, then the same on the caller's. *)
Definition update_both (w : World) (user : Z)
           (f : ProtectionStats -> result ProtectionStats) : result World :=
  g ← f (globalStats (protector w)) ;
  u ← f (stats_of (protector w) user) ;
  Ok (with_protector w (with_stats (protector w) user g u)).

Definition update_global (w : World)
           (f : ProtectionStats -> result ProtectionStats) : result World :=
  g ← f (globalStats (protector w)) ;
  Ok (with_protector w
        {| this := this (protector w); treasury := treasury (protector w);
           protectionFee := protectionFee (protector w);
           maxProtectionFee := maxProtectionFee (protector w);
           userConfigs := userConfigs (protector w);
           userStats := userStats (protector w);
           whitelistedTokens := whitelistedTokens (protector w);
           priceDelays := priceDelays (protector w);
           globalStats := g |}).

Definition update_user (w : World) (user : Z)
           (f : ProtectionStats -> result ProtectionStats) : result World :=
  u ← f (stats_of (protector w) user) ;
  Ok (with_protector w
        (with_stats (protector w) user (globalStats (protector w)) u)).

Definition configureProtection (w : World) (env : Env)
           (strategy : ProtectionStrategy) (maxSlippage gasLimit : Z)
           (whitelistMode : bool) : result World :=
  require (maxSlippage <=? 1000) "Slippage too high" ;;
  require (gasLimit >=? 100000) "Gas limit too low" ;;
  Ok (emit (with_protector w
              (with_config (protector w) (msg_sender env)
                 (mkConfig true strategy maxSlippage gasLimit whitelistMode)))
           [ConfigurationUpdated (msg_sender env) strategy maxSlippage]).

Definition addWhitelistedToken (w : World) (token : Z) : World :=
  with_protector w (with_whitelist (protector w) token true).

(** The environment of the calls the protector makes to the detector:
    the caller is the protector itself. *)
Definition detector_env (w : World) (env : Env) : MEVDetector.Env :=
  MEVDetector.mkEnv (this (protector w)) (block_timestamp env) (oracle env).

Definition _calculateExpectedPrice (w : World) (env : Env)
           (params : SwapParams) : result Z :=
  MEVDetector.getCurrentPrice (detector_env w env) (pricefeedId params).

Definition _calculateDelay (threatType : MEVDetector.ThreatType)
           (riskScore : Z) : result Z :=
  match threatType with
  | MEVDetector.SANDWICH => q ← checked_div riskScore 100 ; checked_add 30 q
  | MEVDetector.FRONTRUN => q ← checked_div riskScore 200 ; checked_add 15 q
  | MEVDetector.ARBITRAGE => q ← checked_div riskScore 500 ; checked_add 5 q
  | MEVDetector.UNKNOWN => Ok 10
  end.

Definition _estimateUSDValue (token amount : Z) : Z := amount.

Definition _applyProtectionStrategy (w : World) (env : Env)
           (strategy : ProtectionStrategy) (params : SwapParams)
           (threatType : MEVDetector.ThreatType) (riskScore : Z)
  : result (World * bool) :=
  match strategy with
  | REVERT => Ok (w, true)
  | ADJUST => Ok (w, false)
  | DELAY =>
      delayTime ← _calculateDelay threatType riskScore ;
      t ← checked_add (block_timestamp env) delayTime ;
      Ok (with_protector w
            (with_delay (protector w) (pricefeedId params) t), true)
  | PRIVATE_RELAY => Ok (w, false)
  end.

(** The [return] statement [_executeSwap] left through. *)
Inductive SwapExit : Type :=
| RefundBelowMinimum      (* amountOut < params.minAmountOut *)
| RefundAboveMaxSlippage  (* slippage > config.maxSlippage *)
| Swapped.

Record SwapResult : Type := mkSwapResult {
  exit : SwapExit;
  success : bool;
  amountOut : Z
}.

(** The slippage [_executeSwap] computes from the expected and the
    realized output. *)
Definition swap_slippage (expectedOut amountOut : Z) : result Z :=
  if expectedOut >? amountOut then
    d ← checked_sub expectedOut amountOut ;
    m ← checked_mul d 10000 ;
    checked_div m expectedOut
  else Ok 0.

Definition _executeSwap (w : World) (env : Env) (params : SwapParams)
           (config : ProtectionConfig) : result (World * SwapResult) :=
  w1 ← external_call w env
         (TransferFrom (tokenIn params) (msg_sender env)
                       (this (protector w)) (amountIn params)) ;
  currentPrice ← MEVDetector.getCurrentPrice (detector_env w1 env)
                                             (pricefeedId params) ;
  m ← checked_mul (amountIn params) currentPrice ;
  amountOut ← checked_div m (10 ^ 18) ;
  if amountOut <? minAmountOut params then
    w2 ← external_call w1 env
           (Transfer (tokenIn params) (msg_sender env) (amountIn params)) ;
    Ok (w2, mkSwapResult RefundBelowMinimum false 0)
  else
    m' ← checked_mul (amountIn params) currentPrice ;
    expectedOut ← checked_div m' (10 ^ 18) ;
    slippage ← swap_slippage expectedOut amountOut ;
    if slippage >? maxSlippage config then
      w2 ← external_call w1 env
             (Transfer (tokenIn params) (msg_sender env) (amountIn params)) ;
      Ok (w2, mkSwapResult RefundAboveMaxSlippage false 0)
    else
      Ok (w1, mkSwapResult Swapped true amountOut).

Definition _collectProtectionFee (w : World) (env : Env) (amountIn : Z)
  : result (World * Z) :=
  m ← checked_mul amountIn (protectionFee (protector w)) ;
  feeAmount ← checked_div m 10000 ;
  w1 ← (if msg_value env >=? feeAmount
        then external_call w env (SendValue (treasury (protector w)) feeAmount)
        else Ok w) ;
  Ok (w1, feeAmount).

(** [protectSwap]. The [nonReentrant] guard has nothing to do here:
    external callees are not given the chance to call back. *)
Definition protectSwap (w : World) (env : Env) (params : SwapParams)
  : result (World * (bool * Z)) :=
  let sender := msg_sender env in
  require (deadline params >=? block_timestamp env) "Swap expired" ;;
  require (amountIn params >? 0) "Invalid amount" ;;
  let config := config_of (protector w) sender in
  require (isActive config) "Protection not configured" ;;
  (if whitelistMode config then
     require (whitelisted (protector w) (tokenIn params))
             "Token not whitelisted" ;;
     require (whitelisted (protector w) (tokenOut params))
             "Token not whitelisted"
   else Ok tt) ;;
  expectedPrice ← _calculateExpectedPrice w env params ;
  let currentGasPrice := tx_gasprice env in
  '(d, devents, verdict) ←
     MEVDetector.detectMEV (detector w) (detector_env w env)
       (pricefeedId params) expectedPrice currentGasPrice ;
  let w0 := emit (with_detector w d) (map DetectorEvent devents) in
  w1 ← update_both w0 sender count_swap ;
  '(w2, blocked) ←
     (if MEVDetector.isThreat verdict then
        w' ← update_both w1 sender count_detected ;
        _applyProtectionStrategy w' env (strategy config) params
          (MEVDetector.threatType verdict) (MEVDetector.riskScore verdict)
      else Ok (w1, false)) ;
  if (blocked : bool) then
    w3 ← update_both w2 sender count_blocked ;
    Ok (emit w3 [ThreatMitigated sender (pricefeedId params)
                   (MEVDetector.threatType verdict)
                   (MEVDetector.riskScore verdict) (strategy config)],
        (false, 0))
  else
    '(w3, r) ← _executeSwap w2 env params config ;
    w6 ← (if success r then
            '(w4, feeAmount) ← _collectProtectionFee w3 env (amountIn params) ;
            w4a ← update_global w4
                    (fun s => add_value s
                       (_estimateUSDValue (tokenIn params) (amountIn params))) ;
            w4b ← update_global w4a (fun s => add_fees s feeAmount) ;
            w4c ← update_user w4b sender
                    (fun s => add_value s
                       (_estimateUSDValue (tokenIn params) (amountIn params))) ;
            w5 ← update_user w4c sender (fun s => add_fees s feeAmount) ;
            Ok (emit w5 [SwapProtected sender (tokenIn params)
                           (tokenOut params) (amountIn params)
                           (amountOut r) feeAmount])
          else Ok w3) ;
    Ok (emit w6 [ProtectionActivated sender (tokenIn params)
                   (tokenOut params) (amountIn params) (strategy config)],
        (success r, amountOut r)).

End MEVProtectorAdvanced.

(** ** subgraph/src/mev-detection.ts: the additive analytics scorer

  [BigInt] is an unbounded integer ([div] truncates towards zero),
  [BigDecimal] an exact decimal: the gas ratio is a rational here. The
  [f64] score only ever holds sums of the integer weights below, hence an
  integer. *)

Module MevDetection.

Record Transaction : Type := mkTransaction {
  hash : Z;
  from : Z;
  to : option Z;
  value : Z;
  gasPrice : Z;
  timestamp : Z;
  blockNumber : Z
}.

Definition GAS_SPIKE_THRESHOLD : Z := 120.
Definition SANDWICH_TIME_WINDOW : Z := 5.
Definition ARBITRAGE_PROFIT_THRESHOLD : Z := 50.
Definition FRONT_RUN_GAS_MULTIPLIER : Z := 115.
Definition MAX_RECENT_TRANSACTIONS : nat := 50.

(** [recentTx.to && transaction.to && recentTx.to!.equals(transaction.to!)] *)
Definition same_target (recentTx transaction : Transaction) : bool :=
  match to recentTx, to transaction with
  | Some a, Some b => a =? b
  | _, _ => false
  end.

(** The loops below run over the module-level [recentTransactions]
    array, passed here as [recentTransactions]. *)
Fixpoint detectSandwich (recentTransactions : list Transaction)
         (transaction : Transaction) (blockTimestamp : Z) : bool :=
  match recentTransactions with
  | [] => false
  | recentTx :: rest =>
      if same_target recentTx transaction
         && (blockTimestamp - timestamp recentTx <=? SANDWICH_TIME_WINDOW)
      then
        if gasPrice recentTx >? gasPrice transaction then true
        else detectSandwich rest transaction blockTimestamp
      else detectSandwich rest transaction blockTimestamp
  end.

Fixpoint same_target_seen (recentTransactions : list Transaction)
         (transaction : Transaction) : bool :=
  match recentTransactions with
  | [] => false
  | recentTx :: rest =>
      if same_target recentTx transaction then true
      else same_target_seen rest transaction
  end.

Definition detectFrontRun (recentTransactions : list Transaction)
           (transaction : Transaction) (avgGasPrice : Z) : bool :=
  let gasThreshold := (avgGasPrice * FRONT_RUN_GAS_MULTIPLIER) ÷ 100 in
  if gasPrice transaction >? gasThreshold then
    same_target_seen recentTransactions transaction
  else false.

Definition detectArbitrage (transaction : Transaction) (blockTimestamp : Z)
  : bool :=
  let threshold := 1000000000000000000 in
  if (value transaction >? threshold) && (gasPrice transaction >? 0)
  then true else false.

Definition Qgt (a b : Q) : bool := negb (Qle_bool a b).

Definition gasRatio (transaction : Transaction) (avgGasPrice : Z) : Q :=
  (inject_Z (gasPrice transaction) / inject_Z avgGasPrice)%Q.

Definition calculateRiskScore (recentTransactions : list Transaction)
           (transaction : Transaction) (avgGasPrice blockTimestamp : Z) : Z :=
  let score := 0 in
  (* Gas price analysis (0-30 points) *)
  let score :=
    if avgGasPrice >? 0 then
      let gasRatio := gasRatio transaction avgGasPrice in
      if Qgt gasRatio (2 # 1) then score + 30
      else if Qgt gasRatio (3 # 2) then score + 20
      else if Qgt gasRatio (6 # 5) then score + 10
      else score
    else score in
  (* Value analysis (0-25 points) *)
  let highValueThreshold := 10000000000000000000 in
  let score :=
    if value transaction >? highValueThreshold then score + 25
    else if value transaction >? 1000000000000000000 then score + 15
    else score in
  (* Pattern detection (0-45 points) *)
  let score :=
    if detectSandwich recentTransactions transaction blockTimestamp
    then score + 25 else score in
  let score :=
    if detectFrontRun recentTransactions transaction avgGasPrice
    then score + 20 else score in
  let score :=
    if detectArbitrage transaction blockTimestamp
    then score + 15 else score in
  Z.min score 100.

Definition severity (riskScore : Z) : string :=
  if riskScore >? 75 then "CRITICAL"
  else if riskScore >? 50 then "HIGH"
  else if riskScore >? 25 then "MEDIUM"
  else "LOW".

Definition addToRecentTransactions (recentTransactions : list Transaction)
           (transaction : Transaction) : list Transaction :=
  let pushed := recentTransactions ++ [transaction] in
  if (MAX_RECENT_TRANSACTIONS <? length pushed)%nat then tail pushed
  else pushed.

Definition with_gasPrice (t : Transaction) (g : Z) : Transaction :=
  mkTransaction (hash t) (from t) (to t) (value t) g
                (timestamp t) (blockNumber t).

Definition with_value (t : Transaction) (v : Z) : Transaction :=
  mkTransaction (hash t) (from t) (to t) v (gasPrice t)
                (timestamp t) (blockNumber t).

End MevDetection.

(** ** Quantities the properties are stated with *)

Module GasHistory.

(** The populated slots of the history: those that hold a non-zero
    sample. *)
Definition populated (history : list Z) : list Z :=
  filter (fun g => 0 < g) history.

Definition Zsum (l : list Z) : Z := foldr Z.add 0 l.

(** The mean the contract returns: integer division of the sum by the
    number of populated slots, and 0 when there is none. *)
Definition mean (l : list Z) : Z :=
  match l with
  | [] => 0
  | _ => Zsum l / Z.of_nat (length l)
  end.

End GasHistory.

(** The call did not abort on a division by zero. *)
Definition no_div0 {A : Type} (r : result A) : Prop :=
  r <> Err (Panic DIVISION_BY_ZERO).

(** The call aborted on a failed [require], that is with an error the
    contract itself names. *)
Definition named_error {A : Type} (r : result A) : Prop :=
  exists reason, r = Err (Revert reason).

Module Detection.
Import MEVDetector.

(** [detectMEV] returned a threat of type SANDWICH. *)
Definition sandwich_fired (r : result (State * list Event * Verdict)) : Prop :=
  exists st' ev score, r = Ok (st', ev, mkVerdict true SANDWICH score).

End Detection.

Module Scoring.
Import MevDetection.

(** The points of the gas-ratio factor, of the value factor and of a
    detector that fired. *)
Definition gas_points (transaction : Transaction) (avgGasPrice : Z) : Z :=
  if avgGasPrice >? 0 then
    if Qgt (gasRatio transaction avgGasPrice) (2 # 1) then 30
    else if Qgt (gasRatio transaction avgGasPrice) (3 # 2) then 20
    else if Qgt (gasRatio transaction avgGasPrice) (6 # 5) then 10
    else 0
  else 0.

Definition value_points (transaction : Transaction) : Z :=
  if value transaction >? 10000000000000000000 then 25
  else if value transaction >? 1000000000000000000 then 15
  else 0.

Definition points (fired : bool) (weight : Z) : Z :=
  if fired then weight else 0.

(** The outcomes of the three detectors [calculateRiskScore] runs. *)
Definition detectors (recentTransactions : list Transaction)
           (transaction : Transaction) (avgGasPrice blockTimestamp : Z)
  : bool * bool * bool :=
  (detectSandwich recentTransactions transaction blockTimestamp,
   detectFrontRun recentTransactions transaction avgGasPrice,
   detectArbitrage transaction blockTimestamp).

End Scoring.

Module Protection.
Import MEVProtectorAdvanced.

(** The guards [protectSwap] evaluates before it runs the detector. *)
Definition guards_pass (w : World) (env : Env) (params : SwapParams) : Prop :=
  let config := config_of (protector w) (msg_sender env) in
  block_timestamp env <= deadline params
  /\ 0 < amountIn params
  /\ isActive config = true
  /\ (whitelistMode config = true ->
      whitelisted (protector w) (tokenIn params) = true
      /\ whitelisted (protector w) (tokenOut params) = true).


(** The output [_executeSwap] computes. *)
Definition swap_output (params : SwapParams) (currentPrice : Z) : Z :=
  amountIn params * currentPrice / 10 ^ 18.

End Protection.

(** ** Concrete states and transactions *)

Module Examples.

Definition ETH : Z := 4543560.           (* the feed id "ETH" *)
Definition admin : Z := 1.
Definition gwei : Z := 1000000000.
Definition ether : Z := 1000000000000000000.

(** A freshly deployed detector, owned by [admin]. *)
Definition fresh : MEVDetector.State := MEVDetector.constructor admin.

(** The owner calling at time [now] with the oracle reporting [price]. *)
Definition owner_call (now price : Z) : MEVDetector.Env :=
  MEVDetector.mkEnv admin now (fun _ => Some price).

(** The detector after one evaluation at time 1000: ETH observed at 2000,
    one gas sample of 20 gwei. *)
Definition observed : MEVDetector.State :=
  MEVDetector.set_gas
    (MEVDetector.set_price fresh ETH (2000 * ether) 1000)
    (<[0%nat := 20 * gwei]> (replicate 100 0)) 1.

(** The basic protector with ETH stored at 2000 at time 1000. *)
Definition priced : MEVProtector.State :=
  MEVProtector.mkState 2 200 {["ETH" := 2000 * ether]} {["ETH" := 1000]}.

(** The analytics cache holding one transaction to contract 5, at 11 wei
    of gas price, at time 100; and a transaction to the same contract. *)
Definition cached : MevDetection.Transaction :=
  MevDetection.mkTransaction 1 2 (Some 5) 0 11 100 1.

Definition incoming (gasPrice : Z) : MevDetection.Transaction :=
  MevDetection.mkTransaction 3 4 (Some 5) 0 gasPrice 100 1.

(** The advanced protector deployed at address 77, which owns its
    detector; the detector has seen one gas price of 10 gwei; the user at
    address 5 has configured the REVERT strategy. *)
Definition trader : Z := 5.

Definition guarded : MEVProtectorAdvanced.World :=
  let w := MEVProtectorAdvanced.constructor 77 admin 88 99 in
  let d := MEVDetector.set_gas (MEVDetector.constructor 77)
             (<[0%nat := 10 * gwei]> (replicate 100 0)) 1 in
  MEVProtectorAdvanced.with_protector
    (MEVProtectorAdvanced.with_detector w d)
    (MEVProtectorAdvanced.with_config (MEVProtectorAdvanced.protector w) trader
       (MEVProtectorAdvanced.mkConfig true MEVProtectorAdvanced.REVERT
                                      500 300000 false)).

(** The trader swapping one token 11 for token 12 at a gas price of 50
    gwei, sending 0.01 ether along for the fee. *)
Definition rushed : MEVProtectorAdvanced.Env :=
  MEVProtectorAdvanced.mkEnv trader (ether / 100) 1001 (50 * gwei)
    (fun _ => Some (2000 * ether)) (fun _ => true).

Definition swap : MEVProtectorAdvanced.SwapParams :=
  MEVProtectorAdvanced.mkSwapParams 11 12 ether 0 ETH 2000 trader.

End Examples.

(** * Further parts of the protocol

  The embedding continues with the code around the four modules above:

  - [DetectorConfig]   the setters of the detector and runs of its recorder;
  - [ProtectorAdmin]   the owner's functions and the getters of
    [MEVProtectorAdvanced], with [SwapEffects] and [Lifecycle] to state
    what a swap leaves behind and what every reachable state satisfies;
  - [AegilonToken]     (contracts/AegilonToken.sol) staking, rewards and
    protection levels, with the level as the subgraph computes it
    ([TokenSubgraph]) and the staking book against the ledger ([Staking]);
  - [ThreatRegistry]   (contracts/MEVProtector.sol) activation, threats
    and reports, with [RegistryLifecycle];
  - [MevAnalysis]      (subgraph/src/mev-detection.ts) the gas statistics,
    the cache of recent transactions and the alerts. *)

(** ** contracts/MEVDetector.sol: configuration, and runs of the recorder *)

Module DetectorConfig.
Import MEVDetector.

Inductive ConfigEvent : Type :=
| ConfigurationUpdated (parameter : string) (oldValue newValue : Z).

Definition with_parameters (st : State) (threshold delta multiplier : Z) : State :=
  {| owner := owner st;
     riskThreshold := threshold;
     minPriceDelta := delta;
     frontRunGasMultiplier := multiplier;
     lastPrices := lastPrices st;
     lastUpdateTimestamp := lastUpdateTimestamp st;
     gasHistory := gasHistory st;
     gasHistoryIndex := gasHistoryIndex st |}.

Definition setRiskThreshold (st : State) (env : Env) (newThreshold : Z)
  : result (State * list ConfigEvent) :=
  onlyOwner st env ;;
  let oldThreshold := riskThreshold st in
  Ok (with_parameters st newThreshold (minPriceDelta st) (frontRunGasMultiplier st),
      [ConfigurationUpdated "riskThreshold" oldThreshold newThreshold]).

Definition setMinPriceDelta (st : State) (env : Env) (newDelta : Z)
  : result (State * list ConfigEvent) :=
  onlyOwner st env ;;
  let oldDelta := minPriceDelta st in
  Ok (with_parameters st (riskThreshold st) newDelta (frontRunGasMultiplier st),
      [ConfigurationUpdated "minPriceDelta" oldDelta newDelta]).

Definition setFrontRunGasMultiplier (st : State) (env : Env) (newMultiplier : Z)
  : result (State * list ConfigEvent) :=
  onlyOwner st env ;;
  let oldMultiplier := frontRunGasMultiplier st in
  Ok (with_parameters st (riskThreshold st) (minPriceDelta st) newMultiplier,
      [ConfigurationUpdated "frontRunGasMultiplier" oldMultiplier newMultiplier]).

(** [_updateGasHistory] run on each sample of a list, in order: what the
    successive calls of [detectMEV] do to the history. *)
Fixpoint record_all (st : State) (samples : list Z) : result State :=
  match samples with
  | [] => Ok st
  | g :: rest => st' ← _updateGasHistory st g ; record_all st' rest
  end.

(** What a caller of [detectMEV] observes: the events and the verdict. *)
Definition observable (r : result (State * list Event * Verdict))
  : result (list Event * Verdict) :=
  '(_, ev, v) ← r ; Ok (ev, v).

End DetectorConfig.

(** ** contracts/MEVProtectorAdvanced.sol: administration *)

Module ProtectorAdmin.
Import MEVProtectorAdvanced.

Inductive AdminEvent : Type :=
| EmergencyStop (user : Z) (reason : string).

(** [onlyOwner], with the owner [Ownable] stores as [contract_owner]. *)
Definition onlyOwner (contract_owner : Z) (env : Env) : result unit :=
  require (msg_sender env =? contract_owner) "Ownable: caller is not the owner".

Definition with_fee (st : State) (fee : Z) : State :=
  {| this := this st; treasury := treasury st;
     protectionFee := fee;
     maxProtectionFee := maxProtectionFee st;
     userConfigs := userConfigs st;
     userStats := userStats st;
     whitelistedTokens := whitelistedTokens st;
     priceDelays := priceDelays st;
     globalStats := globalStats st |}.

Definition with_treasury (st : State) (t : Z) : State :=
  {| this := this st; treasury := t;
     protectionFee := protectionFee st;
     maxProtectionFee := maxProtectionFee st;
     userConfigs := userConfigs st;
     userStats := userStats st;
     whitelistedTokens := whitelistedTokens st;
     priceDelays := priceDelays st;
     globalStats := globalStats st |}.

Definition setProtectionFee (contract_owner : Z) (w : World) (env : Env)
           (newFee : Z) : result World :=
  onlyOwner contract_owner env ;;
  require (newFee <=? maxProtectionFee (protector w)) "Fee too high" ;;
  Ok (with_protector w (with_fee (protector w) newFee)).

Definition setTreasury (contract_owner : Z) (w : World) (env : Env)
           (newTreasury : Z) : result World :=
  onlyOwner contract_owner env ;;
  require (negb (newTreasury =? 0)) "Invalid treasury" ;;
  Ok (with_protector w (with_treasury (protector w) newTreasury)).

Definition addWhitelistedToken (contract_owner : Z) (w : World) (env : Env)
           (token : Z) : result World :=
  onlyOwner contract_owner env ;;
  Ok (with_protector w (with_whitelist (protector w) token true)).

Definition removeWhitelistedToken (contract_owner : Z) (w : World) (env : Env)
           (token : Z) : result World :=
  onlyOwner contract_owner env ;;
  Ok (with_protector w (with_whitelist (protector w) token false)).

(** [userConfigs[user].isActive = false]: the other fields of the entry
    stay, and an entry never written stays all zero. *)
Definition emergencyStop (contract_owner : Z) (w : World) (env : Env)
           (user : Z) (reason : string) : result (World * list AdminEvent) :=
  onlyOwner contract_owner env ;;
  let c := config_of (protector w) user in
  Ok (with_protector w
        (with_config (protector w) user
           (mkConfig false (strategy c) (maxSlippage c) (gasLimit c)
                     (whitelistMode c))),
      [EmergencyStop user reason]).

(** [updateDetector]: from now on the protector calls the detector deployed
    at [newDetector], whose storage is [deployed newDetector]. *)
Definition updateDetector (contract_owner : Z) (w : World) (env : Env)
           (newDetector : Z) (deployed : Z -> MEVDetector.State)
  : result World :=
  onlyOwner contract_owner env ;;
  require (negb (newDetector =? 0)) "Invalid detector" ;;
  Ok (with_detector w (deployed newDetector)).

Definition emergencyWithdraw (contract_owner : Z) (w : World) (env : Env)
           (token amount : Z) : result World :=
  onlyOwner contract_owner env ;;
  if token =? 0
  then external_call w env (SendValue contract_owner amount)
  else external_call w env (Transfer token contract_owner amount).

Definition getUserConfig (w : World) (user : Z) : ProtectionConfig :=
  config_of (protector w) user.

Definition getUserStats (w : World) (user : Z) : ProtectionStats :=
  stats_of (protector w) user.

Definition getGlobalStats (w : World) : ProtectionStats :=
  globalStats (protector w).

Definition isTokenWhitelisted (w : World) (token : Z) : bool :=
  whitelisted (protector w) token.

Definition getPriceDelay (w : World) (feedId : Z) : Z :=
  mget (priceDelays (protector w)) feedId.

End ProtectorAdmin.

(** ** What a swap does to the books *)

Module SwapEffects.
Import MEVProtectorAdvanced.

(** The strategies under which a detected threat stops the swap. *)
Definition blocking (s : ProtectionStrategy) : bool :=
  match s with
  | REVERT | DELAY => true
  | ADJUST | PRIVATE_RELAY => false
  end.

(** The fee [_collectProtectionFee] computes. *)
Definition fee_of (w : World) (params : SwapParams) : Z :=
  amountIn params * protectionFee (protector w) / 10000.

(** A statistics record with its counters raised. *)
Definition bump (s : ProtectionStats) (swaps detected blocked value fees : Z)
  : ProtectionStats :=
  mkStats (totalProtectedSwaps s + swaps) (threatsDetected s + detected)
          (threatsBlocked s + blocked) (totalValueProtected s + value)
          (feesCollected s + fees).

(** Blocked threats are detected threats, and detected threats are
    protected swaps. *)
Definition counters_ordered (s : ProtectionStats) : Prop :=
  0 <= threatsBlocked s <= threatsDetected s
  /\ threatsDetected s <= totalProtectedSwaps s.

(** How a call of [protectSwap] that returns went. *)
Inductive Outcome : Type :=
| Blocked    (* the threat stopped the swap *)
| Refunded   (* the output was below [minAmountOut] *)
| Executed.

Definition outcome (config : ProtectionConfig) (verdict : MEVDetector.Verdict)
           (params : SwapParams) (price : Z) : Outcome :=
  if MEVDetector.isThreat verdict && blocking (strategy config) then Blocked
  else if Protection.swap_output params price <? minAmountOut params
       then Refunded
       else Executed.

Definition returned (o : Outcome) (params : SwapParams) (price : Z) : bool * Z :=
  match o with
  | Executed => (true, Protection.swap_output params price)
  | Blocked | Refunded => (false, 0)
  end.

Definition made_calls (w : World) (env : Env) (params : SwapParams)
           (o : Outcome) : list ExternalCall :=
  match o with
  | Blocked => []
  | Refunded =>
      [TransferFrom (tokenIn params) (msg_sender env) (this (protector w))
                    (amountIn params);
       Transfer (tokenIn params) (msg_sender env) (amountIn params)]
  | Executed =>
      TransferFrom (tokenIn params) (msg_sender env) (this (protector w))
                   (amountIn params)
      :: (if msg_value env >=? fee_of w params
          then [SendValue (treasury (protector w)) (fee_of w params)]
          else [])
  end.

Definition emitted (w : World) (env : Env) (params : SwapParams)
           (verdict : MEVDetector.Verdict) (price : Z) (o : Outcome)
  : list Event :=
  let sender := msg_sender env in
  let config := config_of (protector w) sender in
  let activated :=
    ProtectionActivated sender (tokenIn params) (tokenOut params)
                        (amountIn params) (strategy config) in
  match o with
  | Blocked =>
      [ThreatMitigated sender (pricefeedId params)
         (MEVDetector.threatType verdict) (MEVDetector.riskScore verdict)
         (strategy config)]
  | Refunded => [activated]
  | Executed =>
      [SwapProtected sender (tokenIn params) (tokenOut params)
         (amountIn params) (Protection.swap_output params price)
         (fee_of w params);
       activated]
  end.

Definition counted (s : ProtectionStats) (threat : bool) (o : Outcome)
           (amount fee : Z) : ProtectionStats :=
  bump s 1 (if threat then 1 else 0)
       (match o with Blocked => 1 | _ => 0 end)
       (match o with Executed => amount | _ => 0 end)
       (match o with Executed => fee | _ => 0 end).

(** The settings no swap touches. *)
Definition same_settings (st st' : State) : Prop :=
  this st' = this st
  /\ treasury st' = treasury st
  /\ protectionFee st' = protectionFee st
  /\ maxProtectionFee st' = maxProtectionFee st
  /\ userConfigs st' = userConfigs st
  /\ whitelistedTokens st' = whitelistedTokens st.

(** Two worlds that differ at most in the recorded delays. *)
Definition same_but_delays (w1 w2 : World) : Prop :=
  detector w1 = detector w2
  /\ events w1 = events w2
  /\ calls w1 = calls w2
  /\ same_settings (protector w1) (protector w2)
  /\ userStats (protector w1) = userStats (protector w2)
  /\ globalStats (protector w1) = globalStats (protector w2).

(** Results that are the same error, or values related by [R]. *)
Definition rel_result {A : Type} (R : A -> A -> Prop) (r1 r2 : result A) : Prop :=
  match r1, r2 with
  | Ok a, Ok b => R a b
  | Err e1, Err e2 => e1 = e2
  | _, _ => False
  end.

(** Two results of [protectSwap] or of one of its parts: the same error,
    or the same value in worlds that differ at most in the recorded
    delays. *)
Definition same_result {A : Type} (r1 r2 : result (World * A)) : Prop :=
  rel_result (fun a b => same_but_delays (fst a) (fst b) /\ snd a = snd b) r1 r2.

End SwapEffects.

(** ** The life of a deployed protector *)

Module Lifecycle.
Import MEVProtectorAdvanced ProtectorAdmin SwapEffects.

(** One call of a state-changing function that returned, with arguments
    that are unsigned words; the owner of the contract at the time of the
    call is whoever [Ownable] names. *)
Inductive step (w w' : World) : Prop :=
| step_configureProtection env strategy maxSlippage gasLimit whitelistMode :
    0 <= maxSlippage -> 0 <= gasLimit ->
    configureProtection w env strategy maxSlippage gasLimit whitelistMode = Ok w' ->
    step w w'
| step_protectSwap env params r :
    protectSwap w env params = Ok (w', r) -> step w w'
| step_setProtectionFee contract_owner env newFee :
    0 <= newFee ->
    setProtectionFee contract_owner w env newFee = Ok w' -> step w w'
| step_setTreasury contract_owner env newTreasury :
    setTreasury contract_owner w env newTreasury = Ok w' -> step w w'
| step_addWhitelistedToken contract_owner env token :
    ProtectorAdmin.addWhitelistedToken contract_owner w env token = Ok w' ->
    step w w'
| step_removeWhitelistedToken contract_owner env token :
    removeWhitelistedToken contract_owner w env token = Ok w' -> step w w'
| step_updateDetector contract_owner env newDetector deployed :
    updateDetector contract_owner w env newDetector deployed = Ok w' ->
    step w w'
| step_emergencyStop contract_owner env user reason ev :
    emergencyStop contract_owner w env user reason = Ok (w', ev) -> step w w'
| step_emergencyWithdraw contract_owner env token amount :
    emergencyWithdraw contract_owner w env token amount = Ok w' -> step w w'.

(** The worlds a deployed protector can be in. *)
Definition reachable (self deployer _detector _treasury : Z) (w : World) : Prop :=
  rtc step (constructor self deployer _detector _treasury) w.

(** What holds of the settings and the books of every such world. *)
Record invariant (w : World) : Prop := mkInvariant {
  fee_cap : maxProtectionFee (protector w) = 500;
  fee_capped : 0 <= protectionFee (protector w) <= 500;
  configs_valid :
    forall user,
      0 <= maxSlippage (config_of (protector w) user)
      /\ (isActive (config_of (protector w) user) = true ->
          maxSlippage (config_of (protector w) user) <= 1000
          /\ 100000 <= gasLimit (config_of (protector w) user));
  global_ordered : counters_ordered (globalStats (protector w));
  users_ordered :
    forall user, counters_ordered (stats_of (protector w) user)
}.

End Lifecycle.

(** ** More concrete worlds and transactions *)

Module Scenarios.
Import MEVProtectorAdvanced Examples.

(** The trader of [Examples] swapping at the going gas price of 10 gwei,
    with the fee sent along, and without it. *)
Definition calm : Env :=
  mkEnv trader (ether / 100) 1001 (10 * gwei)
        (fun _ => Some (2000 * ether)) (fun _ => true).

Definition unpaid : Env :=
  mkEnv trader 0 1001 (10 * gwei)
        (fun _ => Some (2000 * ether)) (fun _ => true).

(** The deployer, who owns the protector, calling. *)
Definition deployer_call : Env :=
  mkEnv admin 0 1001 (10 * gwei) (fun _ => Some (2000 * ether)) (fun _ => true).

(** The world of [Examples] with the trader on another strategy. *)
Definition with_strategy (s : ProtectionStrategy) : World :=
  with_protector guarded
    (with_config (protector guarded) trader (mkConfig true s 500 300000 false)).

(** The world right after deployment by [admin]: the detector still
    belongs to the deployer. *)
Definition deployed : World := constructor 77 admin 88 99.

(** A swap that asks for more than the price gives. *)
Definition greedy : SwapParams :=
  mkSwapParams 11 12 ether (3000 * ether) ETH 2000 trader.

End Scenarios.

(** ** contracts/AegilonToken.sol: staking, rewards, protection levels

  The token inherits its ledger from the ERC20 base contracts, which are
  not part of this repository: [balanceOf] is what the base answers at the
  time of the call, and [_transfer] and [_mint] are recorded as the ledger
  operations they are, the base deciding whether each goes through. *)

Module AegilonToken.

Inductive LedgerOp : Type :=
| Moved (from to amount : Z)    (* _transfer(from, to, amount) *)
| Minted (to amount : Z).       (* _mint(to, amount) *)

Inductive Event : Type :=
| TokensStaked (user amount : Z)
| TokensUnstaked (user amount : Z)
| RewardsClaimed (user amount : Z)
| MEVThreatReported (reporter reward : Z)
| ProtectionActivated (user stakedAmount : Z).

Record State : Type := mkState {
  self : Z;
  owner : Z;
  stakedBalance : gmap Z Z;
  stakingRewards : gmap Z Z;
  lastStakeTime : gmap Z Z;
  stakingAPR : Z;
  protectionBoostMultiplier : Z;
  mevProtectorContract : Z;
  ledger : list LedgerOp;
  events : list Event
}.

(** [paused]: the state of the [Pausable] base; [ledger_ok op]: whether
    the base lets the ledger operation through ([false]: it reverts, and
    so does the call). *)
Record Env : Type := mkEnv {
  msg_sender : Z;
  block_timestamp : Z;
  paused : bool;
  balanceOf : Z -> Z;
  ledger_ok : LedgerOp -> bool
}.

Definition ether : Z := 10 ^ 18.
Definition TOTAL_SUPPLY : Z := 10000000 * ether.
Definition LIQUIDITY_REWARDS : Z := 4000000 * ether.
Definition GOVERNANCE_TREASURY : Z := 3000000 * ether.
Definition TEAM_ALLOCATION : Z := 2000000 * ether.
Definition COMMUNITY_AIRDROP : Z := 1000000 * ether.

(** [365 days * 10000] *)
Definition YEAR_IN_BASIS_POINTS : Z := 365 * 86400 * 10000.

Definition with_staking (st : State) (staked rewards last : gmap Z Z) : State :=
  {| self := self st; owner := owner st;
     stakedBalance := staked; stakingRewards := rewards; lastStakeTime := last;
     stakingAPR := stakingAPR st;
     protectionBoostMultiplier := protectionBoostMultiplier st;
     mevProtectorContract := mevProtectorContract st;
     ledger := ledger st; events := events st |}.

Definition with_parameters (st : State) (apr boost _mevProtector : Z) : State :=
  {| self := self st; owner := owner st;
     stakedBalance := stakedBalance st; stakingRewards := stakingRewards st;
     lastStakeTime := lastStakeTime st;
     stakingAPR := apr;
     protectionBoostMultiplier := boost;
     mevProtectorContract := _mevProtector;
     ledger := ledger st; events := events st |}.

Definition emit (st : State) (es : list Event) : State :=
  {| self := self st; owner := owner st;
     stakedBalance := stakedBalance st; stakingRewards := stakingRewards st;
     lastStakeTime := lastStakeTime st;
     stakingAPR := stakingAPR st;
     protectionBoostMultiplier := protectionBoostMultiplier st;
     mevProtectorContract := mevProtectorContract st;
     ledger := ledger st; events := events st ++ es |}.

(** A ledger operation of the ERC20 base. *)
Definition ledger_call (st : State) (env : Env) (op : LedgerOp) : result State :=
  if ledger_ok env op
  then Ok {| self := self st; owner := owner st;
             stakedBalance := stakedBalance st;
             stakingRewards := stakingRewards st;
             lastStakeTime := lastStakeTime st;
             stakingAPR := stakingAPR st;
             protectionBoostMultiplier := protectionBoostMultiplier st;
             mevProtectorContract := mevProtectorContract st;
             ledger := ledger st ++ [op]; events := events st |}
  else Err CalleeFailure.

Definition constructor (this : Z) (env : Env)
           (_treasuryAddress _liquidityRewardsAddress : Z) : result State :=
  require (negb (_treasuryAddress =? 0)) "Invalid treasury address" ;;
  require (negb (_liquidityRewardsAddress =? 0)) "Invalid liquidity address" ;;
  let st := mkState this (msg_sender env) ∅ ∅ ∅ 500 150 0 [] [] in
  st1 ← ledger_call st env (Minted _treasuryAddress GOVERNANCE_TREASURY) ;
  st2 ← ledger_call st1 env (Minted _liquidityRewardsAddress LIQUIDITY_REWARDS) ;
  amount ← checked_add TEAM_ALLOCATION COMMUNITY_AIRDROP ;
  ledger_call st2 env (Minted (msg_sender env) amount).

Definition onlyOwner (st : State) (env : Env) : result unit :=
  require (msg_sender env =? owner st) "Ownable: caller is not the owner".

Definition onlyMEVProtector (st : State) (env : Env) : result unit :=
  require (msg_sender env =? mevProtectorContract st)
          "Only MEV Protector can call".

Definition whenNotPaused (env : Env) : result unit :=
  require (negb (paused env)) "Pausable: paused".

Definition calculateStakingRewards (st : State) (env : Env) (user : Z)
  : result Z :=
  if mget (stakedBalance st) user =? 0 then Ok 0
  else
    stakingDuration ← checked_sub (block_timestamp env)
                                  (mget (lastStakeTime st) user) ;
    m1 ← checked_mul (mget (stakedBalance st) user) (stakingAPR st) ;
    m2 ← checked_mul m1 stakingDuration ;
    baseReward ← checked_div m2 YEAR_IN_BASIS_POINTS ;
    if negb (mevProtectorContract st =? 0) then
      m3 ← checked_mul baseReward (protectionBoostMultiplier st) ;
      checked_div m3 100
    else Ok baseReward.

(** [stakingRewards[user] += pendingRewards] when there is something
    pending: the rewards mapping after the statement. *)
Definition accrue (st : State) (user pendingRewards : Z) : result (gmap Z Z) :=
  if pendingRewards >? 0 then
    r ← checked_add (mget (stakingRewards st) user) pendingRewards ;
    Ok (<[user := r]> (stakingRewards st))
  else Ok (stakingRewards st).

Definition stakeTokens (st : State) (env : Env) (amount : Z) : result State :=
  let sender := msg_sender env in
  whenNotPaused env ;;
  require (amount >? 0) "Amount must be greater than 0" ;;
  require (balanceOf env sender >=? amount) "Insufficient balance" ;;
  rewards ← (if mget (stakedBalance st) sender >? 0 then
               pendingRewards ← calculateStakingRewards st env sender ;
               accrue st sender pendingRewards
             else Ok (stakingRewards st)) ;
  st1 ← ledger_call st env (Moved sender (self st) amount) ;
  staked ← checked_add (mget (stakedBalance st) sender) amount ;
  Ok (emit (with_staking st1 (<[sender := staked]> (stakedBalance st)) rewards
                         (<[sender := block_timestamp env]> (lastStakeTime st)))
           [TokensStaked sender amount; ProtectionActivated sender staked]).

Definition unstakeTokens (st : State) (env : Env) (amount : Z) : result State :=
  let sender := msg_sender env in
  require (amount >? 0) "Amount must be greater than 0" ;;
  require (mget (stakedBalance st) sender >=? amount)
          "Insufficient staked balance" ;;
  pendingRewards ← calculateStakingRewards st env sender ;
  rewards ← accrue st sender pendingRewards ;
  staked ← checked_sub (mget (stakedBalance st) sender) amount ;
  let st1 := with_staking st (<[sender := staked]> (stakedBalance st)) rewards
                          (<[sender := block_timestamp env]> (lastStakeTime st)) in
  st2 ← ledger_call st1 env (Moved (self st) sender amount) ;
  Ok (emit st2 [TokensUnstaked sender amount]).

Definition claimRewards (st : State) (env : Env) : result State :=
  let sender := msg_sender env in
  pendingRewards ← calculateStakingRewards st env sender ;
  totalRewards ← checked_add (mget (stakingRewards st) sender) pendingRewards ;
  require (totalRewards >? 0) "No rewards to claim" ;;
  let st1 := with_staking st (stakedBalance st)
                          (<[sender := 0]> (stakingRewards st))
                          (<[sender := block_timestamp env]> (lastStakeTime st)) in
  st2 ← ledger_call st1 env (Minted sender totalRewards) ;
  Ok (emit st2 [RewardsClaimed sender totalRewards]).

Definition rewardThreatReporter (st : State) (env : Env)
           (reporter rewardAmount : Z) : result State :=
  onlyMEVProtector st env ;;
  st1 ← ledger_call st env (Minted reporter rewardAmount) ;
  Ok (emit st1 [MEVThreatReported reporter rewardAmount]).

Definition getProtectionLevel (st : State) (user : Z) : Z :=
  let staked := mget (stakedBalance st) user in
  if staked >=? 10000 * ether then 5
  else if staked >=? 5000 * ether then 4
  else if staked >=? 1000 * ether then 3
  else if staked >=? 100 * ether then 2
  else if staked >=? 10 * ether then 1
  else 0.

Definition setMEVProtectorContract (st : State) (env : Env)
           (_mevProtectorContract : Z) : result State :=
  onlyOwner st env ;;
  Ok (with_parameters st (stakingAPR st) (protectionBoostMultiplier st)
                      _mevProtectorContract).

Definition setStakingAPR (st : State) (env : Env) (_newAPR : Z) : result State :=
  onlyOwner st env ;;
  require (_newAPR <=? 2000) "APR cannot exceed 20%" ;;
  Ok (with_parameters st _newAPR (protectionBoostMultiplier st)
                      (mevProtectorContract st)).

Definition setProtectionBoostMultiplier (st : State) (env : Env)
           (_multiplier : Z) : result State :=
  onlyOwner st env ;;
  require ((_multiplier >=? 100) && (_multiplier <=? 300))
          "Multiplier must be between 1x and 3x" ;;
  Ok (with_parameters st (stakingAPR st) _multiplier (mevProtectorContract st)).

End AegilonToken.

(** ** The token event handlers of the subgraph: the indexer's copy of the level *)

Module TokenSubgraph.

Definition getProtectionLevel (stakedAmount : Z) : Z :=
  let tenK := 10000000000000000000000 in
  let fiveK := 5000000000000000000000 in
  let oneK := 1000000000000000000000 in
  let hundred := 100000000000000000000 in
  let ten := 10000000000000000000 in
  if stakedAmount >=? tenK then 5
  else if stakedAmount >=? fiveK then 4
  else if stakedAmount >=? oneK then 3
  else if stakedAmount >=? hundred then 2
  else if stakedAmount >=? ten then 1
  else 0.

End TokenSubgraph.

(** ** The staking book against the ledger *)

Module Staking.
Import AegilonToken.

(** What a ledger operation moves from [user] into the custody of the
    contract at [this], and from the contract back to [user]. *)
Definition gain_in (this user : Z) (op : LedgerOp) : Z :=
  match op with
  | Moved from to amount =>
      if (from =? user) && (to =? this) then amount else 0
  | Minted _ _ => 0
  end.

Definition gain_out (this user : Z) (op : LedgerOp) : Z :=
  match op with
  | Moved from to amount =>
      if (from =? this) && (to =? user) then amount else 0
  | Minted _ _ => 0
  end.

(** What [user] has moved into the contract's custody, and what the
    contract has moved back, over the whole ledger. *)
Definition moved_in (st : State) (user : Z) : Z :=
  foldr (fun op acc => gain_in (self st) user op + acc) 0 (ledger st).

Definition moved_out (st : State) (user : Z) : Z :=
  foldr (fun op acc => gain_out (self st) user op + acc) 0 (ledger st).

(** What [user] could claim at the time of [env]: the rewards booked plus
    the rewards pending. *)
Definition claimable (st : State) (env : Env) (user : Z) : result Z :=
  pendingRewards ← calculateStakingRewards st env user ;
  checked_add (mget (stakingRewards st) user) pendingRewards.

(** One call of a state-changing function that returned; the contract
    itself is not among the stakers. *)
Inductive step (st st' : State) : Prop :=
| step_stakeTokens env amount :
    msg_sender env <> self st ->
    stakeTokens st env amount = Ok st' -> step st st'
| step_unstakeTokens env amount :
    msg_sender env <> self st ->
    unstakeTokens st env amount = Ok st' -> step st st'
| step_claimRewards env :
    claimRewards st env = Ok st' -> step st st'
| step_rewardThreatReporter env reporter rewardAmount :
    rewardThreatReporter st env reporter rewardAmount = Ok st' -> step st st'
| step_setMEVProtectorContract env _mevProtectorContract :
    setMEVProtectorContract st env _mevProtectorContract = Ok st' -> step st st'
| step_setStakingAPR env _newAPR :
    setStakingAPR st env _newAPR = Ok st' -> step st st'
| step_setProtectionBoostMultiplier env _multiplier :
    setProtectionBoostMultiplier st env _multiplier = Ok st' -> step st st'.

(** The book agrees with the ledger. *)
Definition ledger_agrees (st : State) : Prop :=
  forall user,
    user <> self st ->
    mget (stakedBalance st) user = moved_in st user - moved_out st user.

End Staking.

(** ** contracts/MEVProtector.sol: activation, threats, reports

  The contract of [MEVProtector] above with the rest of its storage, and
  the token it calls. [keccak256] is a function of the transaction
  environment; the unused thresholds and counters of the contract
  ([volumeAnomalyThreshold], [transactionCount], ...) are left out. *)

Module ThreatRegistry.

Inductive ThreatType : Type :=
| SandwichAttack | Frontrunning | Backrunning | JITLiquidity | Arbitrage
| LiquidationMEV.

Definition ENUM_CONVERSION : Z := 33.  (* 0x21 *)

(** [ThreatType(threatType)] *)
Definition ThreatType_of (threatType : Z) : result ThreatType :=
  if threatType =? 0 then Ok SandwichAttack
  else if threatType =? 1 then Ok Frontrunning
  else if threatType =? 2 then Ok Backrunning
  else if threatType =? 3 then Ok JITLiquidity
  else if threatType =? 4 then Ok Arbitrage
  else if threatType =? 5 then Ok LiquidationMEV
  else Err (Panic ENUM_CONVERSION).

Record ThreatData : Type := mkThreatData {
  target : Z;
  attacker : Z;
  threatType : ThreatType;
  detectedAt : Z;
  estimatedLoss : Z;
  prevented : bool;
  reporter : Z
}.

Definition no_threat : ThreatData :=
  mkThreatData 0 0 SandwichAttack 0 0 false 0.

Inductive Event : Type :=
| ProtectionActivated (user level : Z)
| ProtectionDeactivated (user : Z)
| MEVThreatDetected (threatId target attacker threatType timestamp : Z)
| MEVThreatPrevented (threatId protectedUser savedAmount timestamp : Z)
| ThreatReported (reporter threatId reward : Z)
| OraclePriceUpdated (symbol : string) (price timestamp : Z).

Record State : Type := mkState {
  self : Z;
  owner : Z;
  prices : MEVProtector.State;
  isProtected : gmap Z bool;
  protectionLevel : gmap Z Z;
  detectedThreats : gmap Z bool;
  threats : gmap Z ThreatData;
  threatReports : gmap Z Z;
  successfulPrevented : gmap Z Z;
  threatReportReward : Z;
  protectionSuccessReward : Z
}.

(** The protector, the token it was deployed with, and the events the
    protector has emitted, oldest first. *)
Record World : Type := mkWorld {
  protector : State;
  token : AegilonToken.State;
  events : list Event
}.

Record Env : Type := mkEnv {
  msg_sender : Z;
  block_timestamp : Z;
  paused : bool;
  keccak256 : Z -> Z -> Z -> Z -> list Z -> Z;
  ledger_ok : AegilonToken.LedgerOp -> bool
}.

Definition flag (m : gmap Z bool) (k : Z) : bool := default false (m !! k).
Definition threat_of (st : State) (threatId : Z) : ThreatData :=
  default no_threat (threats st !! threatId).

Definition constructor (this deployer : Z) (_aegilonToken : AegilonToken.State)
  : result World :=
  require (negb (AegilonToken.self _aegilonToken =? 0)) "Invalid token address" ;;
  Ok {| protector :=
          {| self := this; owner := deployer;
             prices := MEVProtector.mkState 0 200 ∅ ∅;
             isProtected := ∅; protectionLevel := ∅; detectedThreats := ∅;
             threats := ∅; threatReports := ∅; successfulPrevented := ∅;
             threatReportReward := 10 * 10 ^ 18;
             protectionSuccessReward := 5 * 10 ^ 18 |};
        token := _aegilonToken;
        events := [] |}.

Definition with_protection (st : State) (user : Z) (on : bool) (level : Z)
  : State :=
  {| self := self st; owner := owner st; prices := prices st;
     isProtected := <[user := on]> (isProtected st);
     protectionLevel := <[user := level]> (protectionLevel st);
     detectedThreats := detectedThreats st; threats := threats st;
     threatReports := threatReports st;
     successfulPrevented := successfulPrevented st;
     threatReportReward := threatReportReward st;
     protectionSuccessReward := protectionSuccessReward st |}.

Definition with_threats (st : State) (detected : gmap Z bool)
           (stored : gmap Z ThreatData) (preventedCount : gmap Z Z) : State :=
  {| self := self st; owner := owner st; prices := prices st;
     isProtected := isProtected st; protectionLevel := protectionLevel st;
     detectedThreats := detected; threats := stored;
     threatReports := threatReports st;
     successfulPrevented := preventedCount;
     threatReportReward := threatReportReward st;
     protectionSuccessReward := protectionSuccessReward st |}.

Definition with_reports (st : State) (reports : gmap Z Z) : State :=
  {| self := self st; owner := owner st; prices := prices st;
     isProtected := isProtected st; protectionLevel := protectionLevel st;
     detectedThreats := detectedThreats st; threats := threats st;
     threatReports := reports;
     successfulPrevented := successfulPrevented st;
     threatReportReward := threatReportReward st;
     protectionSuccessReward := protectionSuccessReward st |}.

Definition with_prices (st : State) (p : MEVProtector.State) : State :=
  {| self := self st; owner := owner st; prices := p;
     isProtected := isProtected st; protectionLevel := protectionLevel st;
     detectedThreats := detectedThreats st; threats := threats st;
     threatReports := threatReports st;
     successfulPrevented := successfulPrevented st;
     threatReportReward := threatReportReward st;
     protectionSuccessReward := protectionSuccessReward st |}.

Definition with_reward (st : State) (reward : Z) : State :=
  {| self := self st; owner := owner st; prices := prices st;
     isProtected := isProtected st; protectionLevel := protectionLevel st;
     detectedThreats := detectedThreats st; threats := threats st;
     threatReports := threatReports st;
     successfulPrevented := successfulPrevented st;
     threatReportReward := reward;
     protectionSuccessReward := protectionSuccessReward st |}.

Definition with_protector (w : World) (st : State) : World :=
  {| protector := st; token := token w; events := events w |}.

Definition with_token (w : World) (t : AegilonToken.State) : World :=
  {| protector := protector w; token := t; events := events w |}.

Definition emit (w : World) (es : list Event) : World :=
  {| protector := protector w; token := token w; events := events w ++ es |}.

(** The environment of the calls the protector makes to the token: the
    caller is the protector itself. *)
Definition token_env (w : World) (env : Env) : AegilonToken.Env :=
  AegilonToken.mkEnv (self (protector w)) (block_timestamp env) false
                     (fun _ => 0) (ledger_ok env).

(** [aegilonToken.rewardThreatReporter(reporter, amount)] *)
Definition reward (w : World) (env : Env) (reporter amount : Z) : result World :=
  t ← AegilonToken.rewardThreatReporter (token w) (token_env w env)
                                        reporter amount ;
  Ok (with_token w t).

Definition onlyIndexer (w : World) (env : Env) : result unit :=
  require (msg_sender env =? MEVProtector.authorizedIndexer (prices (protector w)))
          "Only authorized indexer".

Definition onlyOwner (w : World) (env : Env) : result unit :=
  require (msg_sender env =? owner (protector w))
          "Ownable: caller is not the owner".

Definition activateProtection (w : World) (env : Env) : result World :=
  require (negb (paused env)) "Pausable: paused" ;;
  let userProtectionLevel :=
    AegilonToken.getProtectionLevel (token w) (msg_sender env) in
  require (userProtectionLevel >? 0)
          "Insufficient AEG tokens staked for protection" ;;
  Ok (emit (with_protector w
              (with_protection (protector w) (msg_sender env) true
                               userProtectionLevel))
           [ProtectionActivated (msg_sender env) userProtectionLevel]).

Definition deactivateProtection (w : World) (env : Env) : result World :=
  require (flag (isProtected (protector w)) (msg_sender env))
          "Protection not active" ;;
  Ok (emit (with_protector w
              (with_protection (protector w) (msg_sender env) false 0))
           [ProtectionDeactivated (msg_sender env)]).

Definition preventSandwichAttack (threat : ThreatData) (protectionLevel : Z)
  : bool := protectionLevel >=? 2.
Definition preventFrontrunning (threat : ThreatData) (protectionLevel : Z)
  : bool := protectionLevel >=? 1.
Definition preventJITLiquidity (threat : ThreatData) (protectionLevel : Z)
  : bool := protectionLevel >=? 3.
Definition executeGenericProtection (threat : ThreatData) (protectionLevel : Z)
  : bool := protectionLevel >=? 1.

Definition executeProtection (st : State) (threatId : Z) : result bool :=
  let threat := threat_of st threatId in
  require (detectedAt threat >? 0) "Threat not found" ;;
  require (flag (isProtected st) (target threat)) "Target not protected" ;;
  let userLevel := mget (protectionLevel st) (target threat) in
  Ok (match threatType threat with
      | SandwichAttack => preventSandwichAttack threat userLevel
      | Frontrunning => preventFrontrunning threat userLevel
      | JITLiquidity => preventJITLiquidity threat userLevel
      | Backrunning | Arbitrage | LiquidationMEV =>
          executeGenericProtection threat userLevel
      end).

Definition analyzeThreatSeverity (target attacker : Z) (threatType : ThreatType)
           (transactionData : list Z) : Z :=
  match threatType with
  | SandwichAttack => 1000 * 10 ^ 18
  | Frontrunning => 500 * 10 ^ 18
  | _ => 100 * 10 ^ 18
  end.

Definition detectMEVThreat (w : World) (env : Env)
           (target attacker threatType : Z) (transactionData : list Z)
  : result (World * Z) :=
  onlyIndexer w env ;;
  let threatId := keccak256 env target attacker threatType
                            (block_timestamp env) transactionData in
  require (negb (flag (detectedThreats (protector w)) threatId))
          "Threat already detected" ;;
  kind ← ThreatType_of threatType ;
  let estimatedLoss :=
    analyzeThreatSeverity target attacker kind transactionData in
  let data := mkThreatData target attacker kind (block_timestamp env)
                           estimatedLoss false (msg_sender env) in
  let st1 := with_threats (protector w)
               (<[threatId := true]> (detectedThreats (protector w)))
               (<[threatId := data]> (threats (protector w)))
               (successfulPrevented (protector w)) in
  let w1 := emit (with_protector w st1)
                 [MEVThreatDetected threatId target attacker threatType
                                    (block_timestamp env)] in
  if flag (isProtected st1) target then
    prevented ← executeProtection st1 threatId ;
    if (prevented : bool) then
      count ← checked_add (mget (successfulPrevented st1) target) 1 ;
      let st2 := with_threats st1 (detectedThreats st1)
                   (<[threatId := mkThreatData target attacker kind
                                    (block_timestamp env) estimatedLoss true
                                    (msg_sender env)]> (threats st1))
                   (<[target := count]> (successfulPrevented st1)) in
      w2 ← reward (with_protector w1 st2) env target
                  (protectionSuccessReward st2) ;
      Ok (emit w2 [MEVThreatPrevented threatId target estimatedLoss
                                      (block_timestamp env)],
          threatId)
    else Ok (w1, threatId)
  else Ok (w1, threatId).

Definition reportThreat (w : World) (env : Env) (threatId : Z) : result World :=
  let st := protector w in
  require (flag (detectedThreats st) threatId) "Threat not detected" ;;
  require (negb (reporter (threat_of st threatId) =? msg_sender env))
          "Cannot report own detection" ;;
  count ← checked_add (mget (threatReports st) (msg_sender env)) 1 ;
  let st1 := with_reports st (<[msg_sender env := count]> (threatReports st)) in
  w1 ← reward (with_protector w st1) env (msg_sender env)
              (threatReportReward st1) ;
  Ok (emit w1 [ThreatReported (msg_sender env) threatId
                              (threatReportReward st1)]).

(** [updateOraclePrice] and [checkPriceAnomaly] are those of
    [MEVProtector], run on the [prices] part of the storage. *)
Definition prices_env (env : Env) : MEVProtector.Env :=
  MEVProtector.mkEnv (msg_sender env) (block_timestamp env).

Definition updateOraclePrice (w : World) (env : Env) (symbol : string)
           (price : Z) : result World :=
  p ← MEVProtector.updateOraclePrice (prices (protector w)) (prices_env env)
                                     symbol price ;
  Ok (emit (with_protector w (with_prices (protector w) p))
           [OraclePriceUpdated symbol price (block_timestamp env)]).

Definition checkPriceAnomaly (w : World) (env : Env) (symbol : string)
           (currentPrice : Z) : result bool :=
  MEVProtector.checkPriceAnomaly (prices (protector w)) (prices_env env)
                                 symbol currentPrice.

Definition setAuthorizedIndexer (w : World) (env : Env) (_indexer : Z)
  : result World :=
  onlyOwner w env ;;
  let p := prices (protector w) in
  Ok (with_protector w
        (with_prices (protector w)
           (MEVProtector.mkState _indexer
              (MEVProtector.priceDeviationThreshold p)
              (MEVProtector.lastOraclePrices p)
              (MEVProtector.lastOracleUpdate p)))).

Definition setPriceDeviationThreshold (w : World) (env : Env) (_threshold : Z)
  : result World :=
  onlyOwner w env ;;
  require (_threshold <=? 1000) "Threshold cannot exceed 10%" ;;
  let p := prices (protector w) in
  Ok (with_protector w
        (with_prices (protector w)
           (MEVProtector.mkState (MEVProtector.authorizedIndexer p) _threshold
              (MEVProtector.lastOraclePrices p)
              (MEVProtector.lastOracleUpdate p)))).

Definition setThreatReportReward (w : World) (env : Env) (_reward : Z)
  : result World :=
  onlyOwner w env ;;
  Ok (with_protector w (with_reward (protector w) _reward)).

Definition getUserProtectionStatus (w : World) (user : Z) : bool * Z * Z * Z :=
  (flag (isProtected (protector w)) user,
   mget (protectionLevel (protector w)) user,
   mget (threatReports (protector w)) user,
   mget (successfulPrevented (protector w)) user).

Definition getThreatData (w : World) (threatId : Z) : ThreatData :=
  threat_of (protector w) threatId.

(** The level a threat of the given type needs to be prevented. *)
Definition required_level (kind : ThreatType) : Z :=
  match kind with
  | SandwichAttack => 2
  | JITLiquidity => 3
  | Frontrunning | Backrunning | Arbitrage | LiquidationMEV => 1
  end.

(** [n] reports of the same threat in a row. *)
Fixpoint report_times (n : nat) (w : World) (env : Env) (threatId : Z)
  : result World :=
  match n with
  | O => Ok w
  | S n' => w1 ← reportThreat w env threatId ; report_times n' w1 env threatId
  end.

End ThreatRegistry.

(** ** The life of a deployed basic protector *)

Module RegistryLifecycle.
Import ThreatRegistry.

(** One call that returned, or anything at all happening to the token. *)
Inductive step (w w' : World) : Prop :=
| step_activateProtection env :
    activateProtection w env = Ok w' -> step w w'
| step_deactivateProtection env :
    deactivateProtection w env = Ok w' -> step w w'
| step_detectMEVThreat env target attacker threatType transactionData id :
    detectMEVThreat w env target attacker threatType transactionData
    = Ok (w', id) -> step w w'
| step_reportThreat env threatId :
    reportThreat w env threatId = Ok w' -> step w w'
| step_updateOraclePrice env symbol price :
    updateOraclePrice w env symbol price = Ok w' -> step w w'
| step_setAuthorizedIndexer env _indexer :
    setAuthorizedIndexer w env _indexer = Ok w' -> step w w'
| step_setPriceDeviationThreshold env _threshold :
    setPriceDeviationThreshold w env _threshold = Ok w' -> step w w'
| step_setThreatReportReward env _reward :
    setThreatReportReward w env _reward = Ok w' -> step w w'
| step_token t :
    w' = with_token w t -> step w w'.

Record invariant (w : World) : Prop := mkInvariant {
  protected_levels :
    forall user,
      flag (isProtected (protector w)) user = true ->
      1 <= mget (protectionLevel (protector w)) user <= 5;
  unprotected_levels :
    forall user,
      flag (isProtected (protector w)) user = false ->
      mget (protectionLevel (protector w)) user = 0;
  threshold_capped :
    MEVProtector.priceDeviationThreshold (prices (protector w)) <= 1000
}.

End RegistryLifecycle.

(** ** Concrete token states and calls *)

Module TokenScenarios.
Import AegilonToken.

Definition deployer : Z := 1.
Definition holder : Z := 5.
Definition guard : Z := 60.      (* the address of the MEVProtector contract *)
Definition indexer : Z := 7.

(** A call by [sender] at time [now]; the caller holds a million tokens,
    and the ledger base lets everything through. *)
Definition token_call (sender now : Z) : Env :=
  mkEnv sender now false (fun _ => 1000000 * ether) (fun _ => true).

(** The token at address 70 right after deployment by [deployer]. *)
Definition launched : State :=
  mkState 70 deployer ∅ ∅ ∅ 500 150 0
          [Minted 88 GOVERNANCE_TREASURY; Minted 89 LIQUIDITY_REWARDS;
           Minted deployer (TEAM_ALLOCATION + COMMUNITY_AIRDROP)]
          [].

(** The holder has staked 200 tokens at time 1000, and the owner has named
    the protector contract. *)
Definition staked : State :=
  mkState 70 deployer {[holder := 200 * ether]} ∅ {[holder := 1000]} 500 150 guard
          (ledger launched ++ [Moved holder 70 (200 * ether)])
          [TokensStaked holder (200 * ether);
           ProtectionActivated holder (200 * ether)].

End TokenScenarios.

(** ** Concrete worlds of the basic protector *)

Module RegistryScenarios.
Import ThreatRegistry TokenScenarios.

(** A call by [sender] at time [now]; [keccak256] is stood in for by a sum
    that tells the threats of the scenarios apart. *)
Definition call (sender now : Z) : Env :=
  mkEnv sender now false
        (fun target attacker threatType timestamp _ =>
           target + 1000 * attacker + 1000000 * threatType + 100000000 * timestamp)
        (fun _ => true).

(** The protector at address [guard], with [indexer] authorized, next to
    the token in which [holder] has staked 200 tokens. *)
Definition watched : World :=
  mkWorld
    (mkState guard deployer (MEVProtector.mkState indexer 200 ∅ ∅)
             ∅ ∅ ∅ ∅ ∅ ∅ (10 * 10 ^ 18) (5 * 10 ^ 18))
    staked [].

(** The same after [holder] has activated protection, at level 2. *)
Definition covered : World :=
  mkWorld
    (mkState guard deployer (MEVProtector.mkState indexer 200 ∅ ∅)
             {[holder := true]} {[holder := 2]} ∅ ∅ ∅ ∅
             (10 * 10 ^ 18) (5 * 10 ^ 18))
    staked [ProtectionActivated holder 2].

(** The same after the indexer has stored a sandwich threat against
    [holder] under the id 5; it was prevented. *)
Definition flagged : World :=
  mkWorld
    (mkState guard deployer (MEVProtector.mkState indexer 200 ∅ ∅)
             {[holder := true]} {[holder := 2]} {[5 := true]}
             {[5 := mkThreatData holder 9 SandwichAttack 1500 (1000 * 10 ^ 18)
                                 true indexer]}
             ∅ {[holder := 1]} (10 * 10 ^ 18) (5 * 10 ^ 18))
    staked [ProtectionActivated holder 2].

End RegistryScenarios.

(** ** subgraph/src/mev-detection.ts: gas analytics, the cache, the alerts

  [i32] counters wrap around at 2^31; entities are records, the entity
  store a finite map from ids to records, the alerts saved a list, oldest
  first. An alert id, the transaction hash followed by "-" and the threat
  type, is the pair of the two. *)

Module MevAnalysis.
Import MevDetection.

(** [x as i32] after an addition. *)
Definition wrap32 (x : Z) : Z := (x + 2 ^ 31) mod 2 ^ 32 - 2 ^ 31.

Record GasPriceAnalytics : Type := mkGasPriceAnalytics {
  avgGasPrice : Z;
  medianGasPrice : Z;
  maxGasPrice : Z;
  minGasPrice : Z;
  gasSpike : bool;
  spikeThreshold : Z;
  anomalousTransactions : Z;
  startTimestamp : Z;
  endTimestamp : Z;
  analyticsBlockNumber : Z;
  transactionCount : Z
}.

(** The id of the one-minute interval of [timestamp]. *)
Definition blockId (timestamp : Z) : Z := timestamp ÷ 60.

(** [None]: the handler aborts on a [BigInt] division by zero, which
    takes a count that has wrapped around to 0. *)
Definition updateGasAnalytics (store : gmap Z GasPriceAnalytics)
           (gasPrice timestamp : Z)
  : option (gmap Z GasPriceAnalytics * GasPriceAnalytics) :=
  let id := blockId timestamp in
  analytics ←
    match store !! id with
    | None =>
        Some (mkGasPriceAnalytics gasPrice gasPrice gasPrice gasPrice false
                                  GAS_SPIKE_THRESHOLD 0 timestamp timestamp 0 1)
    | Some analytics =>
        let count := wrap32 (transactionCount analytics + 1) in
        let maxGas := if gasPrice >? maxGasPrice analytics
                      then gasPrice else maxGasPrice analytics in
        let minGas := if gasPrice <? minGasPrice analytics
                      then gasPrice else minGasPrice analytics in
        let totalGas := avgGasPrice analytics * wrap32 (count - 1) in
        if count =? 0 then None
        else
          let avg := (totalGas + gasPrice) ÷ count in
          let threshold := (avg * spikeThreshold analytics) ÷ 100 in
          let spike := gasPrice >? threshold in
          Some (mkGasPriceAnalytics avg (medianGasPrice analytics) maxGas minGas
                  (if spike then true else gasSpike analytics)
                  (spikeThreshold analytics)
                  (if spike then wrap32 (anomalousTransactions analytics + 1)
                   else anomalousTransactions analytics)
                  (startTimestamp analytics) timestamp
                  (analyticsBlockNumber analytics) count)
    end ;
  Some (<[id := analytics]> store, analytics).

(** The transaction entity: the fields the detectors read, and the fields
    the analysis writes or reads back. *)
Record Entity : Type := mkEntity {
  fields : Transaction;
  isMEV : bool;
  riskScore : Z;
  isPotentialSandwich : bool;
  isPotentialFrontRun : bool;
  isArbitrage : bool
}.

Record MEVAlert : Type := mkMEVAlert {
  alertId : Z * string;
  threatType : string;
  alertSeverity : string;
  targetAddress : Z;
  attackerAddress : Z;
  potentialLoss : Z;
  alertGasPrice : Z;
  alertRiskScore : Z;
  detected : bool;
  prevented : bool;
  alertBlockNumber : Z;
  alertTimestamp : Z;
  transactionHash : Z;
  gasCost : Z
}.

Definition createMEVAlert (transaction : Transaction) (threatType : string)
           (riskScore blockTimestamp : Z) : MEVAlert :=
  let avgGas := 20000000000 in
  mkMEVAlert (hash transaction, threatType) threatType (severity riskScore)
             (match to transaction with Some a => a | None => 0 end)
             (from transaction) 0 (gasPrice transaction) riskScore true false
             (blockNumber transaction) blockTimestamp (hash transaction)
             (if gasPrice transaction >? avgGas
              then gasPrice transaction - avgGas else 0).

(** What the analysis leaves behind: the cache, the transaction entity as
    saved, and the alerts saved, oldest first. *)
Record Analysis : Type := mkAnalysis {
  cache : list Transaction;
  saved : Entity;
  alerts : list MEVAlert
}.

Definition analyzeMEVPatterns (recentTransactions : list Transaction)
           (transaction : Entity) (avgGasPrice blockTimestamp : Z) : Analysis :=
  let tx := fields transaction in
  let riskScore :=
    calculateRiskScore recentTransactions tx avgGasPrice blockTimestamp in
  let saved := mkEntity tx (riskScore >? 50) riskScore
                        (isPotentialSandwich transaction)
                        (isPotentialFrontRun transaction)
                        (isArbitrage transaction) in
  let recentTransactions := addToRecentTransactions recentTransactions tx in
  let alerts :=
    if riskScore >? 50 then
      (if detectSandwich recentTransactions tx blockTimestamp
       then [createMEVAlert tx "SANDWICH" riskScore blockTimestamp] else [])
      ++ (if detectFrontRun recentTransactions tx avgGasPrice
          then [createMEVAlert tx "FRONTRUN" riskScore blockTimestamp] else [])
      ++ (if detectArbitrage tx blockTimestamp
          then [createMEVAlert tx "ARBITRAGE" riskScore blockTimestamp] else [])
      ++ (if negb (isPotentialSandwich saved) && negb (isPotentialFrontRun saved)
             && negb (isArbitrage saved)
          then [createMEVAlert tx "POTENTIAL_MEV" riskScore blockTimestamp]
          else [])
    else [] in
  mkAnalysis recentTransactions saved alerts.

Definition processMEVTransaction (store : gmap Z GasPriceAnalytics)
           (recentTransactions : list Transaction) (transaction : Entity)
           (blockTimestamp : Z)
  : option (gmap Z GasPriceAnalytics * Analysis) :=
  '(store, gasAnalytics) ←
    updateGasAnalytics store (gasPrice (fields transaction)) blockTimestamp ;
  Some (store,
        analyzeMEVPatterns recentTransactions transaction
                           (avgGasPrice gasAnalytics) blockTimestamp).

(** The statistics of an interval hang together. *)
Record consistent (a : GasPriceAnalytics) : Prop := mkConsistent {
  count_positive : 1 <= transactionCount a < 2 ^ 31;
  min_below_avg : 0 <= minGasPrice a <= avgGasPrice a;
  avg_below_max : avgGasPrice a <= maxGasPrice a;
  anomalies_counted : 0 <= anomalousTransactions a < transactionCount a;
  spike_flagged : gasSpike a = true <-> 0 < anomalousTransactions a
}.

(** The cache after the transactions [txs] were added one by one. *)
Definition add_all (recentTransactions txs : list Transaction)
  : list Transaction :=
  foldl addToRecentTransactions recentTransactions txs.

End MevAnalysis.

(** ** Concrete transactions of the analytics *)

Module AnalyticsScenarios.
Import MevDetection MevAnalysis Examples.

(** A transfer of 11 ether to contract 5 at a gas price of 50 gwei, as the
    handlers create it: no pattern flag set. *)
Definition whale : Entity :=
  mkEntity (mkTransaction 9 4 (Some 5) (11 * ether) (50 * gwei) 100 1)
           false 0 false false false.

End AnalyticsScenarios.

(** ** Reasoning about calls *)

Section CallFacts.

Context {A B : Type}.

Lemma bind_Ok_inv (r : result A) (k : A -> result B) (b : B) :
  r ≫= k = Ok b -> exists a, r = Ok a /\ k a = Ok b.
Proof. destruct r as [a|e]; intros H; [eauto | discriminate H]. Qed.

Lemma bind_Err_inv (r : result A) (k : A -> result B) (e : error) :
  r ≫= k = Err e -> r = Err e \/ exists a, r = Ok a /\ k a = Err e.
Proof. destruct r as [a|e']; intros H; [right; eauto | left; cbv in H; congruence]. Qed.

End CallFacts.

(** Split a hypothesis [c ≫= k = Ok b] into the result of [c] and the rest
    of the call. *)
Tactic Notation "bind_inv" hyp(H) "as" ident(a) ident(Ha) :=
  apply bind_Ok_inv in H; destruct H as (a & Ha & H).

(** Run the call up to the next statement whose result is not known. *)
Ltac run := cbn [mbind result_bind Evm.bind].
Tactic Notation "run" "in" hyp(H) := cbn [mbind result_bind Evm.bind] in H.

Lemma checked_add_Ok a b : a + b <= MAX_UINT256 -> checked_add a b = Ok (a + b).
Proof. intros H. unfold checked_add. apply Z.leb_le in H. rewrite H. reflexivity. Qed.

Lemma checked_add_Err a b :
  MAX_UINT256 < a + b -> checked_add a b = Err (Panic ARITHMETIC).
Proof. intros H. unfold checked_add. apply Z.leb_gt in H. rewrite H. reflexivity. Qed.

Lemma checked_sub_Ok a b : b <= a -> checked_sub a b = Ok (a - b).
Proof. intros H. unfold checked_sub. apply Z.leb_le in H. rewrite H. reflexivity. Qed.

Lemma checked_mul_Ok a b : a * b <= MAX_UINT256 -> checked_mul a b = Ok (a * b).
Proof. intros H. unfold checked_mul. apply Z.leb_le in H. rewrite H. reflexivity. Qed.

Lemma checked_div_Ok a b : b <> 0 -> checked_div a b = Ok (a / b).
Proof. intros H. unfold checked_div. apply Z.eqb_neq in H. rewrite H. reflexivity. Qed.

Lemma checked_mul_inv a b c : checked_mul a b = Ok c -> c = a * b /\ a * b <= MAX_UINT256.
Proof.
  unfold checked_mul. destruct (a * b <=? MAX_UINT256) eqn:E; [|discriminate].
  intros [= <-]. apply Z.leb_le in E. auto.
Qed.

Lemma checked_div_inv a b c : checked_div a b = Ok c -> c = a / b /\ b <> 0.
Proof.
  unfold checked_div. destruct (b =? 0) eqn:E; [discriminate|].
  intros [= <-]. apply Z.eqb_neq in E. auto.
Qed.

Lemma checked_sub_inv a b c : checked_sub a b = Ok c -> c = a - b /\ b <= a.
Proof.
  unfold checked_sub. destruct (b <=? a) eqn:E; [|discriminate].
  intros [= <-]. apply Z.leb_le in E. auto.
Qed.

Lemma checked_add_inv a b c : checked_add a b = Ok c -> c = a + b /\ a + b <= MAX_UINT256.
Proof.
  unfold checked_add. destruct (a + b <=? MAX_UINT256) eqn:E; [|discriminate].
  intros [= <-]. apply Z.leb_le in E. auto.
Qed.

(** [|a - b|] the way the contracts compute it. *)
Lemma abs_diff_inv a b c :
  (if a >? b then checked_sub a b else checked_sub b a) = Ok c ->
  c = Z.abs (a - b).
Proof.
  destruct (a >? b) eqn:E; intros H; apply checked_sub_inv in H; lia.
Qed.

Lemma abs_diff_Ok a b :
  (if a >? b then checked_sub a b else checked_sub b a) = Ok (Z.abs (a - b)).
Proof.
  destruct (a >? b) eqn:E.
  - rewrite checked_sub_Ok by lia. f_equal. lia.
  - rewrite checked_sub_Ok by lia. f_equal. lia.
Qed.

Lemma MAX_UINT256_pos : 100 < MAX_UINT256.
Proof. reflexivity. Qed.

Lemma MAX_UINT256_large : 2 ^ 128 < MAX_UINT256.
Proof. reflexivity. Qed.

(** ** The gas-price history (MEVDetector) *)

Section GasHistoryFacts.
Import MEVDetector GasHistory.

Lemma Zsum_populated_nonneg history : 0 <= Zsum (populated history).
Proof.
  induction history as [|g history IH]; simpl; [lia|].
  unfold populated in *. rewrite filter_cons.
  destruct (decide (0 < g)); simpl; lia.
Qed.

Lemma populated_all_zero history :
  Forall (fun g => g = 0) history -> populated history = [].
Proof.
  unfold populated. induction 1 as [|g l Hg _ IH]; [reflexivity|].
  rewrite filter_cons. destruct (decide (0 < g)); [lia | exact IH].
Qed.

(** A first sample written into a history that holds none is the only
    populated slot (or none, when the sample is itself 0). *)
Lemma populated_first_sample history (i : nat) g :
  Forall (fun g => g = 0) history ->
  (i < length history)%nat ->
  populated (<[i := g]> history) = if decide (0 < g) then [g] else [].
Proof.
  intros Hzero. revert i.
  induction Hzero as [|z l Hz Hl IH]; intros i Hi; [simpl in Hi; lia|].
  destruct i as [|i]; simpl.
  - unfold populated. rewrite filter_cons.
    fold (populated l). rewrite (populated_all_zero l Hl).
    destruct (decide (0 < g)); reflexivity.
  - unfold populated. rewrite filter_cons.
    fold (populated (<[i := g]> l)).
    destruct (decide (0 < z)); [lia|].
    apply IH. simpl in Hi. lia.
Qed.

Lemma average_step_eq history i g sum count :
  history !! Z.to_nat i = Some g ->
  average_step history i (sum, count) =
  if g >? 0
  then sum' ← checked_add sum g ; count' ← checked_add count 1 ;
       Ok (sum', count')
  else Ok (sum, count).
Proof.
  intros Hg. unfold average_step, array_get. rewrite Hg. reflexivity.
Qed.

#[local] Arguments average_step : simpl never.

(** The loop of [_getAverageGasPrice], started at slot [i] with the sums
    [sum] and [count]: it adds the populated slots from [i] on, and panics
    exactly when the running sum leaves the 256-bit range. *)
Lemma average_loop history :
  forall rest i sum count,
    0 <= i ->
    drop (Z.to_nat i) history = rest ->
    0 <= sum <= MAX_UINT256 ->
    0 <= count ->
    count + Z.of_nat (length rest) <= MAX_UINT256 ->
    for_loop (length rest) i (average_step history) (sum, count) =
    if sum + Zsum (populated rest) <=? MAX_UINT256
    then Ok (sum + Zsum (populated rest),
             count + Z.of_nat (length (populated rest)))
    else Err (Panic ARITHMETIC).
Proof.
  induction rest as [|g rest IH]; intros i sum count Hi Hdrop Hsum Hc Hn.
  - simpl. replace (sum + 0 <=? MAX_UINT256) with true
      by (symmetry; apply Z.leb_le; lia).
    do 2 f_equal; lia.
  - assert (Hg : history !! Z.to_nat i = Some g).
    { rewrite <- (Nat.add_0_r (Z.to_nat i)), <- lookup_drop, Hdrop.
      reflexivity. }
    assert (Hrest : drop (Z.to_nat (i + 1)) history = rest).
    { replace (Z.to_nat (i + 1)) with (S (Z.to_nat i)) by lia.
      replace (S (Z.to_nat i)) with (Z.to_nat i + 1)%nat by lia.
      rewrite <- drop_drop, Hdrop. reflexivity. }
    simpl length in *. simpl for_loop.
    rewrite (average_step_eq _ _ _ _ _ Hg).
    unfold populated. rewrite filter_cons. fold (populated rest).
    pose proof (Zsum_populated_nonneg rest) as Hnn.
    destruct (g >? 0) eqn:Epos.
    + destruct (decide (0 < g)) as [_|Hno]; [|lia].
      simpl Zsum. simpl length.
      destruct (Z_le_gt_dec (sum + g) MAX_UINT256) as [Hfit|Hover].
      * rewrite (checked_add_Ok sum g) by lia.
        rewrite (checked_add_Ok count 1) by lia. simpl.
        rewrite (IH (i + 1) (sum + g) (count + 1)) by (assumption || lia).
        replace (sum + g + Zsum (populated rest))
          with (sum + (g + Zsum (populated rest))) by lia.
        destruct (sum + (g + Zsum (populated rest)) <=? MAX_UINT256);
          [|reflexivity].
        do 2 f_equal; lia.
      * rewrite (checked_add_Err sum g) by lia. simpl.
        replace (sum + (g + Zsum (populated rest)) <=? MAX_UINT256)
          with false by (symmetry; apply Z.leb_gt; lia).
        reflexivity.
    + destruct (decide (0 < g)) as [Hyes|_]; [lia|].
      simpl. rewrite (IH (i + 1) sum count) by (assumption || lia). reflexivity.
Qed.

(** What [_getAverageGasPrice] returns on a 100-slot history, in every
    case. *)
Lemma getAverageGasPrice_eq st :
  length (gasHistory st) = 100%nat ->
  _getAverageGasPrice st =
  if Zsum (populated (gasHistory st)) <=? MAX_UINT256
  then Ok (mean (populated (gasHistory st)))
  else Err (Panic ARITHMETIC).
Proof.
  intros Hlen. unfold _getAverageGasPrice.
  change 100%nat with (Z.to_nat 100) in Hlen.
  replace (for_loop 100) with (@for_loop (Z * Z) (length (gasHistory st)))
    by (rewrite Hlen; reflexivity).
  rewrite (average_loop (gasHistory st) (gasHistory st) 0 0 0);
    [|lia|reflexivity|pose proof MAX_UINT256_pos; lia|lia
     |rewrite Hlen; pose proof MAX_UINT256_pos; lia].
  rewrite !Z.add_0_l.
  destruct (Zsum (populated (gasHistory st)) <=? MAX_UINT256); [|reflexivity].
  simpl. unfold mean.
  destruct (populated (gasHistory st)) as [|g l] eqn:E; [reflexivity|].
  assert (Hpos : 0 < Z.of_nat (length (g :: l))) by (simpl length; lia).
  rewrite Z.gtb_ltb. apply Z.ltb_lt in Hpos as ->.
  apply checked_div_Ok. simpl length; lia.
Qed.

End GasHistoryFacts.

(** ** The inline detection path (MEVDetector) *)

Section DetectorFacts.
Import MEVDetector GasHistory.

Lemma mget_insert_eq (m : gmap Z Z) (k v : Z) : mget (<[k := v]> m) k = v.
Proof. unfold mget. rewrite lookup_insert_eq. reflexivity. Qed.

Lemma onlyOwner_Ok st env : msg_sender env = owner st -> onlyOwner st env = Ok tt.
Proof.
  intros H. unfold onlyOwner, require. apply Z.eqb_eq in H. rewrite H.
  reflexivity.
Qed.

Lemma onlyOwner_inv st env u : onlyOwner st env = Ok u -> msg_sender env = owner st.
Proof.
  unfold onlyOwner, require.
  destruct (msg_sender env =? owner st) eqn:E; [|discriminate].
  intros _. apply Z.eqb_eq. exact E.
Qed.

Lemma oracle_inv env feedId v :
  getOracleNumericValueFromTxMsg env feedId = Ok v -> oracle env feedId = Some v.
Proof.
  unfold getOracleNumericValueFromTxMsg.
  destruct (oracle env feedId); [intros [= ->]; reflexivity | discriminate].
Qed.

Lemma oracle_Ok env feedId v :
  oracle env feedId = Some v -> getOracleNumericValueFromTxMsg env feedId = Ok v.
Proof. unfold getOracleNumericValueFromTxMsg. intros ->. reflexivity. Qed.

(** [_updateGasHistory] writes the sample at the cursor and advances the
    cursor modulo 100. *)
Lemma updateGasHistory_inv st gasPrice st' :
  _updateGasHistory st gasPrice = Ok st' ->
  st' = set_gas st (<[Z.to_nat (gasHistoryIndex st) := gasPrice]> (gasHistory st))
                ((gasHistoryIndex st + 1) mod 100)
  /\ (Z.to_nat (gasHistoryIndex st) < length (gasHistory st))%nat.
Proof.
  unfold _updateGasHistory. intros H.
  bind_inv H as h Hh. bind_inv H as n Hn. bind_inv H as i Hi.
  injection H as <-.
  unfold array_set in Hh.
  destruct (Z.to_nat (gasHistoryIndex st) <? length (gasHistory st))%nat eqn:E;
    [|discriminate].
  injection Hh as <-.
  apply checked_add_inv in Hn as [-> _].
  unfold checked_mod, GAS_HISTORY_SIZE in Hi. simpl in Hi.
  injection Hi as <-.
  split; [reflexivity|]. apply Nat.ltb_lt. exact E.
Qed.

Lemma updateGasHistory_Ok st gasPrice :
  length (gasHistory st) = 100%nat ->
  0 <= gasHistoryIndex st < 100 ->
  _updateGasHistory st gasPrice =
  Ok (set_gas st (<[Z.to_nat (gasHistoryIndex st) := gasPrice]> (gasHistory st))
              ((gasHistoryIndex st + 1) mod 100)).
Proof.
  intros Hlen Hidx. unfold _updateGasHistory, array_set.
  replace (Z.to_nat (gasHistoryIndex st) <? length (gasHistory st))%nat
    with true by (symmetry; apply Nat.ltb_lt; lia).
  simpl. rewrite checked_add_Ok by (pose proof MAX_UINT256_pos; lia).
  reflexivity.
Qed.

(** Read right after the feed's entry was written with the current price
    and the current time, the arbitrage detector compares the price with
    itself. *)
Lemma detectArbitragePattern_after_write st env feedId currentPrice :
  0 <= minPriceDelta st ->
  mget (lastPrices st) feedId = currentPrice ->
  mget (lastUpdateTimestamp st) feedId = block_timestamp env ->
  _detectArbitragePattern st env feedId currentPrice = Ok false.
Proof.
  intros Hdelta Hp Ht. unfold _detectArbitragePattern. cbv zeta.
  rewrite Hp, Ht.
  destruct ((currentPrice =? 0) || (block_timestamp env =? 0)) eqn:E;
    [reflexivity|].
  apply orb_false_elim in E as [Ep _]. apply Z.eqb_neq in Ep.
  rewrite (checked_sub_Ok (block_timestamp env) (block_timestamp env)) by lia.
  run.
  replace (block_timestamp env - block_timestamp env <=? 30) with true
    by (symmetry; apply Z.leb_le; lia).
  rewrite abs_diff_Ok. run.
  replace (currentPrice - currentPrice) with 0 by lia.
  change (Z.abs 0) with 0.
  rewrite checked_mul_Ok by (pose proof MAX_UINT256_pos; lia). run.
  rewrite checked_div_Ok by exact Ep. run.
  f_equal. rewrite Z.gtb_ltb. apply Z.ltb_ge. exact Hdelta.
Qed.

(** Everything a call of [detectMEV] that returns went through. *)
Lemma detectMEV_Ok_inv st env feedId expectedPrice txGasPrice st' ev v :
  detectMEV st env feedId expectedPrice txGasPrice = Ok (st', ev, v) ->
  exists currentPrice,
    msg_sender env = owner st
    /\ oracle env feedId = Some currentPrice
    /\ expectedPrice <> 0
    /\ Z.abs (currentPrice - expectedPrice) * 10000 <= MAX_UINT256
    /\ _updateGasHistory
         (set_price st feedId currentPrice (block_timestamp env)) txGasPrice
       = Ok st'
    /\ let slippage := Z.abs (currentPrice - expectedPrice) * 10000 / expectedPrice in
       (slippage > riskThreshold st
        /\ v = mkVerdict true SANDWICH slippage)
       \/ (slippage <= riskThreshold st
           /\ exists avgGasPrice,
               _getAverageGasPrice st' = Ok avgGasPrice
               /\ ((0 < avgGasPrice
                    /\ _detectFrontRunning st' txGasPrice avgGasPrice = Ok true
                    /\ exists score, v = mkVerdict true FRONTRUN score)
                   \/ ((avgGasPrice <= 0
                        \/ _detectFrontRunning st' txGasPrice avgGasPrice = Ok false)
                       /\ exists arbitrage,
                           _detectArbitragePattern st' env feedId currentPrice
                           = Ok arbitrage
                           /\ v = if arbitrage
                                  then mkVerdict true ARBITRAGE 300
                                  else mkVerdict false UNKNOWN 0))).
Proof.
  unfold detectMEV. intros H.
  bind_inv H as u Hown. apply onlyOwner_inv in Hown.
  bind_inv H as currentPrice Horacle. apply oracle_inv in Horacle.
  bind_inv H as delta Hdelta. apply abs_diff_inv in Hdelta. subst delta.
  bind_inv H as m Hfit. apply checked_mul_inv in Hfit as [-> Hfit].
  bind_inv H as slippage Hnz. apply checked_div_inv in Hnz as [-> Hnz].
  bind_inv H as st2 Hgas.
  assert (Hthr : riskThreshold st2 = riskThreshold st).
  { apply updateGasHistory_inv in Hgas as [-> _]. reflexivity. }
  rewrite Hthr in H.
  exists currentPrice.
  destruct (_ >? riskThreshold st) eqn:Esand in H.
  - injection H as <- <- <-.
    repeat (split; [assumption|]). cbv zeta.
    left. split; [lia | reflexivity].
  - bind_inv H as avg Havg. bind_inv H as frontRun Hfront.
    destruct frontRun.
    + bind_inv H as d Hd. bind_inv H as n Hn. bind_inv H as score Hscore.
      injection H as <- <- <-.
      repeat (split; [assumption|]). cbv zeta.
      right. split; [lia|]. exists avg. split; [assumption|]. left.
      destruct (avg >? 0) eqn:Eavg; [|discriminate].
      split; [lia|]. split; [assumption|]. eauto.
    + bind_inv H as arbitrage Harb.
      assert (Hst : st2 = st' /\ ev = ev /\
                    v = if arbitrage then mkVerdict true ARBITRAGE 300
                        else mkVerdict false UNKNOWN 0).
      { destruct arbitrage; injection H as <- <- <-; auto. }
      destruct Hst as (<- & _ & ->).
      repeat (split; [assumption|]). cbv zeta.
      right. split; [lia|]. exists avg. split; [assumption|]. right.
      split; [|eauto].
      destruct (avg >? 0) eqn:Eavg; [right; assumption | left; lia].
Qed.

(** The first statement of [detectMEV] that can abort on the slippage
    computation, run forward: with the caller the owner, an oracle value
    and a product that fits 256 bits, the call reaches the sandwich test
    with the history updated. *)
Lemma detectMEV_sandwich_Ok st env feedId expectedPrice txGasPrice currentPrice :
  wf st ->
  msg_sender env = owner st ->
  oracle env feedId = Some currentPrice ->
  0 < expectedPrice ->
  Z.abs (currentPrice - expectedPrice) * 10000 <= MAX_UINT256 ->
  Z.abs (currentPrice - expectedPrice) * 10000 / expectedPrice > riskThreshold st ->
  exists st' ev,
    detectMEV st env feedId expectedPrice txGasPrice =
    Ok (st', ev,
        mkVerdict true SANDWICH
          (Z.abs (currentPrice - expectedPrice) * 10000 / expectedPrice)).
Proof.
  intros Hwf Hown Horacle Hpos Hfit Hfire. unfold detectMEV.
  rewrite (onlyOwner_Ok _ _ Hown). run.
  rewrite (oracle_Ok _ _ _ Horacle). run.
  rewrite abs_diff_Ok. run.
  rewrite checked_mul_Ok by exact Hfit. run.
  rewrite checked_div_Ok by lia. run.
  rewrite updateGasHistory_Ok by (destruct Hwf; assumption). run.
  cbn [riskThreshold set_gas set_price].
  rewrite Z.gtb_ltb.
  replace (riskThreshold st <? _) with true by (symmetry; apply Z.ltb_lt; lia).
  eauto.
Qed.

(** The first thing [detectMEV] does with the stored observation of the
    feed is to overwrite it: whatever was stored, the call runs the
    same. *)
Lemma detectMEV_overwrites_first st env feedId expectedPrice txGasPrice price time :
  detectMEV (set_price st feedId price time) env feedId expectedPrice txGasPrice
  = detectMEV st env feedId expectedPrice txGasPrice.
Proof.
  unfold detectMEV.
  assert (Hset : forall p t,
             set_price (set_price st feedId price time) feedId p t
             = set_price st feedId p t).
  { intros p t. unfold set_price. cbn [owner riskThreshold minPriceDelta
      frontRunGasMultiplier lastPrices lastUpdateTimestamp gasHistory
      gasHistoryIndex].
    rewrite !insert_insert_eq. reflexivity. }
  unfold onlyOwner. cbn [owner set_price].
  destruct (require _ _); [|reflexivity]. run.
  destruct (getOracleNumericValueFromTxMsg env feedId); [|reflexivity]. run.
  rewrite Hset. reflexivity.
Qed.

(** No call of [detectMEV] returns an arbitrage threat. *)
Lemma detectMEV_never_ARBITRAGE st env feedId expectedPrice txGasPrice st' ev v :
  0 <= minPriceDelta st ->
  detectMEV st env feedId expectedPrice txGasPrice = Ok (st', ev, v) ->
  threatType v <> ARBITRAGE.
Proof.
  intros Hdelta H. apply detectMEV_Ok_inv in H.
  destruct H as (currentPrice & _ & _ & _ & _ & Hgas & Hcases).
  apply updateGasHistory_inv in Hgas as [Hst' _].
  destruct Hcases as [[_ ->] | (_ & avg & _ & [(_ & _ & score & ->) | (_ & arb & Harb & ->)])];
    try discriminate.
  rewrite detectArbitragePattern_after_write in Harb.
  - injection Harb as <-. discriminate.
  - subst st'. exact Hdelta.
  - subst st'. cbn [lastPrices set_gas set_price]. apply mget_insert_eq.
  - subst st'. cbn [lastUpdateTimestamp set_gas set_price]. apply mget_insert_eq.
Qed.

End DetectorFacts.

(** ** Where a call can divide by zero *)

Section DivisionFacts.
Import MEVDetector.

Lemma no_div0_bind {A B : Type} (r : result A) (k : A -> result B) :
  no_div0 r -> (forall a, r = Ok a -> no_div0 (k a)) -> no_div0 (r ≫= k).
Proof.
  unfold no_div0. intros Hr Hk H. apply bind_Err_inv in H as [H | (a & Ha & H)].
  - exact (Hr H).
  - exact (Hk a Ha H).
Qed.

Lemma no_div0_Ok {A : Type} (a : A) : no_div0 (Ok a).
Proof. discriminate. Qed.

Lemma no_div0_add a b : no_div0 (checked_add a b).
Proof. unfold no_div0, checked_add. destruct (_ <=? _); discriminate. Qed.

Lemma no_div0_sub a b : no_div0 (checked_sub a b).
Proof. unfold no_div0, checked_sub. destruct (_ <=? _); discriminate. Qed.

Lemma no_div0_mul a b : no_div0 (checked_mul a b).
Proof. unfold no_div0, checked_mul. destruct (_ <=? _); discriminate. Qed.

Lemma no_div0_div a b : b <> 0 -> no_div0 (checked_div a b).
Proof. intros H. rewrite checked_div_Ok by exact H. discriminate. Qed.

Lemma no_div0_require c msg : no_div0 (require c msg).
Proof. unfold no_div0, require. destruct c; discriminate. Qed.

Lemma no_div0_array_get a i : no_div0 (array_get a i).
Proof. unfold no_div0, array_get. destruct (_ !! _); discriminate. Qed.

Lemma no_div0_array_set a i v : no_div0 (array_set a i v).
Proof. unfold no_div0, array_set. destruct (_ <? _)%nat; discriminate. Qed.

Lemma no_div0_abs_diff a b :
  no_div0 (if a >? b then checked_sub a b else checked_sub b a).
Proof. destruct (a >? b); apply no_div0_sub. Qed.

Lemma no_div0_for_loop {A : Type} (body : Z -> A -> result A) :
  (forall i a, no_div0 (body i a)) ->
  forall n i a, no_div0 (for_loop n i body a).
Proof.
  intros Hbody. induction n as [|n IH]; intros i a; simpl.
  - apply no_div0_Ok.
  - apply (no_div0_bind (body i a)); [apply Hbody | intros; apply IH].
Qed.

Create HintDb no_div0.

Hint Resolve no_div0_Ok no_div0_add no_div0_sub no_div0_mul no_div0_require
     no_div0_array_get no_div0_array_set no_div0_abs_diff : no_div0.

Ltac no_div0_step :=
  apply no_div0_bind; [solve [auto with no_div0] | intros ? ?].

Lemma no_div0_average_step history i acc : no_div0 (average_step history i acc).
Proof.
  destruct acc as [sum count]. unfold average_step.
  apply no_div0_bind; [auto with no_div0 | intros g _].
  destruct (g >? 0); [|apply no_div0_Ok].
  repeat no_div0_step. apply no_div0_Ok.
Qed.

Lemma no_div0_getAverageGasPrice st : no_div0 (_getAverageGasPrice st).
Proof.
  unfold _getAverageGasPrice.
  apply no_div0_bind.
  - apply no_div0_for_loop. apply no_div0_average_step.
  - intros [sum count] _. destruct (count >? 0) eqn:E; [|apply no_div0_Ok].
    apply no_div0_div. lia.
Qed.

Lemma no_div0_updateGasHistory st g : no_div0 (_updateGasHistory st g).
Proof.
  unfold _updateGasHistory. repeat no_div0_step.
  apply no_div0_bind; [|intros; apply no_div0_Ok].
  unfold no_div0, checked_mod, GAS_HISTORY_SIZE. discriminate.
Qed.

Lemma no_div0_detectFrontRunning st g avg : no_div0 (_detectFrontRunning st g avg).
Proof.
  unfold _detectFrontRunning. no_div0_step.
  apply no_div0_bind; [apply no_div0_div; lia | intros; apply no_div0_Ok].
Qed.

Lemma no_div0_detectArbitragePattern st env feedId price :
  no_div0 (_detectArbitragePattern st env feedId price).
Proof.
  unfold _detectArbitragePattern. cbv zeta.
  destruct ((_ =? 0) || _) eqn:E; [apply no_div0_Ok|].
  apply orb_false_elim in E as [E _]. apply Z.eqb_neq in E.
  no_div0_step. destruct (_ <=? 30); [|apply no_div0_Ok].
  repeat no_div0_step.
  apply no_div0_bind; [apply no_div0_div; exact E | intros; apply no_div0_Ok].
Qed.

(** With a non-zero expected price, no division of [detectMEV] is by
    zero. *)
Lemma no_div0_detectMEV st env feedId expectedPrice txGasPrice :
  expectedPrice <> 0 ->
  no_div0 (detectMEV st env feedId expectedPrice txGasPrice).
Proof.
  intros Hnz. unfold detectMEV.
  apply no_div0_bind; [apply no_div0_require | intros _ _].
  apply no_div0_bind;
    [unfold no_div0, getOracleNumericValueFromTxMsg;
     destruct (oracle env feedId); discriminate | intros currentPrice _].
  repeat no_div0_step.
  apply no_div0_bind; [apply no_div0_div; exact Hnz | intros slippage _].
  apply no_div0_bind; [apply no_div0_updateGasHistory | intros st2 _].
  destruct (slippage >? riskThreshold st2); [apply no_div0_Ok|].
  apply no_div0_bind; [apply no_div0_getAverageGasPrice | intros avg _].
  destruct (avg >? 0) eqn:Eavg.
  - apply no_div0_bind; [apply no_div0_detectFrontRunning | intros [|] _].
    + repeat no_div0_step.
      apply no_div0_bind; [apply no_div0_div; lia | intros; apply no_div0_Ok].
    + apply no_div0_bind; [apply no_div0_detectArbitragePattern | intros [|] _];
        apply no_div0_Ok.
  - run.
    apply no_div0_bind; [apply no_div0_detectArbitragePattern | intros [|] _];
      apply no_div0_Ok.
Qed.

(** Checked arithmetic never aborts with a [require] message. *)
Lemma arith_no_revert_bind {A B : Type} reason (r : result A) (k : A -> result B) :
  r <> Err (Revert reason) -> (forall a, k a <> Err (Revert reason)) ->
  r ≫= k <> Err (Revert reason).
Proof.
  intros Hr Hk H. apply bind_Err_inv in H as [H | (a & _ & H)].
  - exact (Hr H).
  - exact (Hk a H).
Qed.

Lemma checked_sub_no_revert reason a b : checked_sub a b <> Err (Revert reason).
Proof. unfold checked_sub. destruct (_ <=? _); discriminate. Qed.

Lemma checked_mul_no_revert reason a b : checked_mul a b <> Err (Revert reason).
Proof. unfold checked_mul. destruct (_ <=? _); discriminate. Qed.

Lemma checked_div_no_revert reason a b : checked_div a b <> Err (Revert reason).
Proof. unfold checked_div. destruct (_ =? _); discriminate. Qed.

(** [(|a - b| * 10000) / c], the deviation in basis points. *)
Lemma deviation_no_revert reason a b c :
  (d ← checked_sub a b ; m ← checked_mul d 10000 ; checked_div m c)
  <> Err (Revert reason).
Proof.
  apply arith_no_revert_bind; [apply checked_sub_no_revert | intros d].
  apply arith_no_revert_bind; [apply checked_mul_no_revert | intros m].
  apply checked_div_no_revert.
Qed.

End DivisionFacts.

(** ** Properties of the inline detection path *)

Section DetectorTheorems.
Import MEVDetector GasHistory Detection Examples.

Lemma observed_reached :
  exists ev v,
    detectMEV fresh (owner_call 1000 (2000 * ether)) ETH (2000 * ether) (20 * gwei)
    = Ok (observed, ev, v).
Proof. do 2 eexists. vm_compute. reflexivity. Qed.

(** C1. On a feed observed at 2000 ten seconds earlier, a call that
    observes 2100 (a change of 500 basis points, above [minPriceDelta] =
    100) with no slippage against the expected price and an ordinary gas
    price meets every condition of the arbitrage detector, and yet
    [detectMEV] returns (false, UNKNOWN, 0): the feed's stored observation
    is overwritten before [_detectArbitragePattern] reads it. *)
Theorem arbitrage_missed_after_price_jump :
  getPriceHistory observed ETH = (2000 * ether, 1000)
  /\ block_timestamp (owner_call 1010 (2100 * ether)) - 1000 <= 30
  /\ Z.abs (2100 * ether - 2000 * ether) * 10000 / (2000 * ether)
     > minPriceDelta observed
  /\ exists st',
      detectMEV observed (owner_call 1010 (2100 * ether)) ETH
                (2100 * ether) (20 * gwei)
      = Ok (st', [], mkVerdict false UNKNOWN 0).
Proof.
  split; [vm_compute; reflexivity|].
  split; [vm_compute; discriminate|].
  split; [vm_compute; reflexivity|].
  eexists. vm_compute. reflexivity.
Qed.

(** C3. With a positive expected price, the caller the owner, an oracle
    value and a slippage product that fits 256 bits, [detectMEV] returns a
    SANDWICH threat exactly when
    |observed - expected| * 10000 / expected > riskThreshold, and the risk
    score is then that slippage; at the threshold itself it does not.
    With expected = 2000 and riskThreshold = 500: observed = 2100
    (slippage 500) is no sandwich threat, observed = 2101 (slippage 505)
    is one, with risk score 505. *)
Theorem sandwich_fires_iff_slippage_above_threshold :
  (forall st env feedId expectedPrice txGasPrice observedPrice,
      wf st ->
      msg_sender env = owner st ->
      oracle env feedId = Some observedPrice ->
      0 < expectedPrice ->
      Z.abs (observedPrice - expectedPrice) * 10000 <= MAX_UINT256 ->
      let slippageBp :=
        Z.abs (observedPrice - expectedPrice) * 10000 / expectedPrice in
      (sandwich_fired (detectMEV st env feedId expectedPrice txGasPrice)
       <-> slippageBp > riskThreshold st)
      /\ (forall st' ev v,
             detectMEV st env feedId expectedPrice txGasPrice = Ok (st', ev, v) ->
             threatType v = SANDWICH ->
             v = mkVerdict true SANDWICH slippageBp))
  /\ (forall st env feedId txGasPrice,
         wf st -> msg_sender env = owner st -> riskThreshold st = 500 ->
         oracle env feedId = Some 2100 ->
         Z.abs (2100 - 2000) * 10000 / 2000 = 500
         /\ ~ sandwich_fired (detectMEV st env feedId 2000 txGasPrice))
  /\ (forall st env feedId txGasPrice,
         wf st -> msg_sender env = owner st -> riskThreshold st = 500 ->
         oracle env feedId = Some 2101 ->
         exists st' ev,
           detectMEV st env feedId 2000 txGasPrice
           = Ok (st', ev, mkVerdict true SANDWICH 505)).
Proof.
  assert (General : forall st env feedId expectedPrice txGasPrice observedPrice,
      wf st ->
      msg_sender env = owner st ->
      oracle env feedId = Some observedPrice ->
      0 < expectedPrice ->
      Z.abs (observedPrice - expectedPrice) * 10000 <= MAX_UINT256 ->
      let slippageBp :=
        Z.abs (observedPrice - expectedPrice) * 10000 / expectedPrice in
      (sandwich_fired (detectMEV st env feedId expectedPrice txGasPrice)
       <-> slippageBp > riskThreshold st)
      /\ (forall st' ev v,
             detectMEV st env feedId expectedPrice txGasPrice = Ok (st', ev, v) ->
             threatType v = SANDWICH ->
             v = mkVerdict true SANDWICH slippageBp)).
  { intros st env feedId expectedPrice txGasPrice observedPrice
           Hwf Hown Horacle Hpos Hfit slippageBp.
    assert (Hinv : forall st' ev v,
               detectMEV st env feedId expectedPrice txGasPrice = Ok (st', ev, v) ->
               threatType v = SANDWICH ->
               slippageBp > riskThreshold st
               /\ v = mkVerdict true SANDWICH slippageBp).
    { intros st' ev v H Hty. apply detectMEV_Ok_inv in H.
      destruct H as (p & _ & Hp & _ & _ & _ & Hcases).
      rewrite Horacle in Hp. injection Hp as <-.
      destruct Hcases as [[Hgt ->] | (_ & avg & _ & [(_ & _ & score & ->) | (_ & arb & _ & ->)])].
      - split; [exact Hgt | reflexivity].
      - discriminate Hty.
      - destruct arb; discriminate Hty. }
    split; [split|].
    - intros (st' & ev & score & H). apply (Hinv _ _ _ H). reflexivity.
    - intros Hfire.
      destruct (detectMEV_sandwich_Ok st env feedId expectedPrice txGasPrice
                  observedPrice Hwf Hown Horacle Hpos Hfit Hfire)
        as (st' & ev & H).
      exists st', ev, slippageBp. exact H.
    - intros st' ev v H Hty. apply (Hinv _ _ _ H Hty). }
  split; [exact General|]. split.
  - intros st env feedId txGasPrice Hwf Hown Hthr Horacle.
    split; [reflexivity|].
    intros Hfired.
    apply (General st env feedId 2000 txGasPrice 2100 Hwf Hown Horacle) in Hfired;
      [|lia|vm_compute; discriminate].
    rewrite Hthr in Hfired. vm_compute in Hfired. discriminate Hfired.
  - intros st env feedId txGasPrice Hwf Hown Hthr Horacle.
    apply (detectMEV_sandwich_Ok st env feedId 2000 txGasPrice 2101 Hwf Hown Horacle).
    + lia.
    + vm_compute. discriminate.
    + rewrite Hthr. vm_compute. reflexivity.
Qed.

Lemma fresh_wf : wf fresh.
Proof.
  pose proof MAX_UINT256_large as Hmax.
  split; unfold is_uint256;
    cbn [fresh constructor gasHistory gasHistoryIndex
         riskThreshold minPriceDelta frontRunGasMultiplier].
  - reflexivity.
  - lia.
  - apply Forall_forall. intros x Hx. apply elem_of_replicate in Hx as [-> _].
    unfold is_uint256. lia.
  - lia.
  - lia.
  - lia.
Qed.

Lemma sandwich_fires_iff_slippage_above_threshold_witness :
  (sandwich_fired (detectMEV fresh (owner_call 1000 2101) ETH 2000 (20 * gwei))
   <-> Z.abs (2101 - 2000) * 10000 / 2000 > riskThreshold fresh)
  /\ ~ sandwich_fired (detectMEV fresh (owner_call 1000 2100) ETH 2000 (20 * gwei))
  /\ exists st' ev,
      detectMEV fresh (owner_call 1000 2101) ETH 2000 (20 * gwei)
      = Ok (st', ev, mkVerdict true SANDWICH 505).
Proof.
  split; [|split].
  - apply (proj1 sandwich_fires_iff_slippage_above_threshold
                 fresh (owner_call 1000 2101) ETH 2000 (20 * gwei) 2101).
    + exact fresh_wf.
    + reflexivity.
    + reflexivity.
    + lia.
    + vm_compute. discriminate.
  - apply (proj1 (proj2 sandwich_fires_iff_slippage_above_threshold)
                 fresh (owner_call 1000 2100) ETH (20 * gwei)).
    + exact fresh_wf.
    + reflexivity.
    + reflexivity.
    + reflexivity.
  - apply (proj2 (proj2 sandwich_fires_iff_slippage_above_threshold)
                 fresh (owner_call 1000 2101) ETH (20 * gwei)).
    + exact fresh_wf.
    + reflexivity.
    + reflexivity.
    + reflexivity.
Defined.

(** C6. On the 100-slot history, [_getAverageGasPrice] returns the mean
    (sum divided by count, in integer division) of the non-zero slots
    only, provided their sum fits 256 bits; it returns 0 when every slot
    is zero, as in a freshly deployed detector; and after a single
    [_updateGasHistory] of 20 gwei on the fresh history it returns exactly
    20 gwei. *)
Theorem average_is_mean_of_populated_slots :
  (forall st,
      length (gasHistory st) = 100%nat ->
      Zsum (populated (gasHistory st)) <= MAX_UINT256 ->
      _getAverageGasPrice st = Ok (mean (populated (gasHistory st))))
  /\ (forall st,
         length (gasHistory st) = 100%nat ->
         Forall (fun g => g = 0) (gasHistory st) ->
         _getAverageGasPrice st = Ok 0)
  /\ (forall deployer, _getAverageGasPrice (constructor deployer) = Ok 0)
  /\ (forall deployer,
         (st ← _updateGasHistory (constructor deployer) (20 * gwei) ;
          _getAverageGasPrice st) = Ok (20 * gwei)).
Proof.
  split; [|split; [|split]].
  - intros st Hlen Hfit. rewrite getAverageGasPrice_eq by exact Hlen.
    apply Z.leb_le in Hfit. rewrite Hfit. reflexivity.
  - intros st Hlen Hzero. rewrite getAverageGasPrice_eq by exact Hlen.
    rewrite (populated_all_zero _ Hzero). reflexivity.
  - intros deployer. vm_compute. reflexivity.
  - intros deployer. vm_compute. reflexivity.
Qed.

Lemma average_is_mean_of_populated_slots_witness :
  _getAverageGasPrice observed = Ok (mean (populated (gasHistory observed)))
  /\ _getAverageGasPrice fresh = Ok 0.
Proof.
  split.
  - apply (proj1 average_is_mean_of_populated_slots observed).
    + reflexivity.
    + vm_compute. discriminate.
  - apply (proj1 (proj2 average_is_mean_of_populated_slots) fresh).
    + reflexivity.
    + apply Forall_forall. intros x Hx.
      apply elem_of_replicate in Hx as [-> _]. reflexivity.
Defined.

(** C9. Every call of [detectMEV] that returns, whatever its verdict, has
    stored the oracle value and the block time as the feed's last
    observation, written the transaction's gas price into the history
    slot at the cursor, and advanced the cursor by one modulo 100. A call
    on a fresh detector that returns (false, UNKNOWN, 0) leaves a state
    different from the one it started in. *)
Theorem detectMEV_always_writes :
  (forall st env feedId expectedPrice txGasPrice st' ev v,
      detectMEV st env feedId expectedPrice txGasPrice = Ok (st', ev, v) ->
      exists currentPrice,
        oracle env feedId = Some currentPrice
        /\ lastPrices st' !! feedId = Some currentPrice
        /\ lastUpdateTimestamp st' !! feedId = Some (block_timestamp env)
        /\ gasHistory st'
           = <[Z.to_nat (gasHistoryIndex st) := txGasPrice]> (gasHistory st)
        /\ gasHistory st' !! Z.to_nat (gasHistoryIndex st) = Some txGasPrice
        /\ gasHistoryIndex st' = (gasHistoryIndex st + 1) mod 100)
  /\ (exists st',
         detectMEV fresh (owner_call 1000 (2000 * ether)) ETH
                   (2000 * ether) (20 * gwei)
         = Ok (st', [], mkVerdict false UNKNOWN 0)
         /\ st' <> fresh).
Proof.
  split.
  - intros st env feedId expectedPrice txGasPrice st' ev v H.
    apply detectMEV_Ok_inv in H.
    destruct H as (currentPrice & _ & Horacle & _ & _ & Hgas & _).
    apply updateGasHistory_inv in Hgas as [-> Hidx].
    exists currentPrice. cbn [lastPrices lastUpdateTimestamp gasHistory
                             gasHistoryIndex set_gas set_price] in *.
    rewrite !lookup_insert_eq.
    repeat (split; [reflexivity || assumption|]).
    split; [|reflexivity].
    apply list_lookup_insert_eq. exact Hidx.
  - exists observed. split; [vm_compute; reflexivity|].
    intros Heq. apply (f_equal gasHistoryIndex) in Heq. discriminate Heq.
Qed.

Lemma detectMEV_always_writes_witness :
  exists currentPrice,
    oracle (owner_call 1010 (2100 * ether)) ETH = Some currentPrice
    /\ lastPrices
         (set_gas (set_price observed ETH (2100 * ether) 1010)
                  (<[1%nat := 20 * gwei]> (gasHistory observed)) 2)
       !! ETH = Some currentPrice
    /\ lastUpdateTimestamp
         (set_gas (set_price observed ETH (2100 * ether) 1010)
                  (<[1%nat := 20 * gwei]> (gasHistory observed)) 2)
       !! ETH = Some (block_timestamp (owner_call 1010 (2100 * ether)))
    /\ gasHistory
         (set_gas (set_price observed ETH (2100 * ether) 1010)
                  (<[1%nat := 20 * gwei]> (gasHistory observed)) 2)
       = <[Z.to_nat (gasHistoryIndex observed) := 20 * gwei]> (gasHistory observed)
    /\ gasHistory
         (set_gas (set_price observed ETH (2100 * ether) 1010)
                  (<[1%nat := 20 * gwei]> (gasHistory observed)) 2)
       !! Z.to_nat (gasHistoryIndex observed) = Some (20 * gwei)
    /\ gasHistoryIndex
         (set_gas (set_price observed ETH (2100 * ether) 1010)
                  (<[1%nat := 20 * gwei]> (gasHistory observed)) 2)
       = (gasHistoryIndex observed + 1) mod 100.
Proof.
  apply (proj1 detectMEV_always_writes observed (owner_call 1010 (2100 * ether))
               ETH (2100 * ether) (20 * gwei) _ [] (mkVerdict false UNKNOWN 0)).
  vm_compute. reflexivity.
Defined.

(** The inline half of the cold-start rule: when the average computed
    from the history (after this call's sample was written) is 0,
    [detectMEV] returns no FRONTRUN threat, whatever the gas price. *)
Lemma detectMEV_no_frontrun_without_baseline
      st env feedId expectedPrice txGasPrice st' ev v :
  detectMEV st env feedId expectedPrice txGasPrice = Ok (st', ev, v) ->
  _getAverageGasPrice st' = Ok 0 ->
  threatType v <> FRONTRUN.
Proof.
  intros H Havg. apply detectMEV_Ok_inv in H.
  destruct H as (currentPrice & _ & _ & _ & _ & _ & Hcases).
  destruct Hcases as [[_ ->] | (_ & avg & Havg' & [(Hpos & _) | (_ & arb & _ & ->)])].
  - discriminate.
  - rewrite Havg in Havg'. injection Havg' as <-. lia.
  - destruct arb; discriminate.
Qed.

(** On a history that holds no sample yet (a cold start), the sample of
    the call itself is the whole baseline, and with a multiplier of at
    least 100 (the default is 120) no gas price exceeds it: [detectMEV]
    returns no FRONTRUN threat. *)
Lemma detectMEV_no_frontrun_on_cold_start
      st env feedId expectedPrice txGasPrice st' ev v :
  Forall (fun g => g = 0) (gasHistory st) ->
  length (gasHistory st) = 100%nat ->
  100 <= frontRunGasMultiplier st ->
  detectMEV st env feedId expectedPrice txGasPrice = Ok (st', ev, v) ->
  threatType v <> FRONTRUN.
Proof.
  intros Hzero Hlen Hmult H. apply detectMEV_Ok_inv in H.
  destruct H as (currentPrice & _ & _ & _ & _ & Hgas & Hcases).
  apply updateGasHistory_inv in Hgas as [-> Hidx].
  destruct Hcases as [[_ ->] | (_ & avg & Havg & [(Hpos & Hfront & _) | (_ & arb & _ & ->)])].
  - discriminate.
  - exfalso.
    rewrite getAverageGasPrice_eq in Havg
      by (cbn [gasHistory set_gas]; rewrite length_insert; exact Hlen).
    cbn [gasHistory set_gas set_price] in Havg, Hidx.
    rewrite (populated_first_sample _ _ txGasPrice Hzero Hidx) in Havg.
    destruct (decide (0 < txGasPrice)) as [Hgas|Hgas].
    + cbn [Zsum foldr mean length] in Havg.
      destruct (txGasPrice + 0 <=? MAX_UINT256); [|discriminate Havg].
      injection Havg as <-.
      rewrite Z.add_0_r, Z.div_1_r in Hfront.
      unfold _detectFrontRunning in Hfront.
      cbn [frontRunGasMultiplier set_gas set_price] in Hfront.
      bind_inv Hfront as m Hm. apply checked_mul_inv in Hm as [-> _].
      bind_inv Hfront as t Ht. apply checked_div_inv in Ht as [-> _].
      injection Hfront as Hfront.
      apply Z.gtb_lt in Hfront.
      assert (txGasPrice <= txGasPrice * frontRunGasMultiplier st / 100)
        by (apply Z.div_le_lower_bound; nia).
      lia.
    + cbn [Zsum foldr mean] in Havg. injection Havg as <-. lia.
  - destruct arb; discriminate.
Qed.

(** C4, as stated, fails: with an expected price of 0 the owner's call
    on a fresh detector aborts on the division itself, with the panic of
    a division by zero, not with an error the contract names. *)
Lemma zero_expected_price_panics :
  detectMEV fresh (owner_call 1000 2000) ETH 0 (20 * gwei)
  = Err (Panic DIVISION_BY_ZERO)
  /\ ~ named_error (detectMEV fresh (owner_call 1000 2000) ETH 0 (20 * gwei)).
Proof.
  split; [vm_compute; reflexivity|].
  intros [reason H]. vm_compute in H. discriminate H.
Qed.

(** C4, amended. With a positive expected price no call of [detectMEV]
    aborts on a division by zero. With an expected price of 0, a call
    never returns a verdict: made by the owner with an oracle value, it
    aborts with an arithmetic panic, the one of a division by zero, or the
    one of an overflow when the oracle value times 10000 leaves the
    256-bit range. *)
Theorem zero_expected_price_is_arithmetic_panic :
  (forall st env feedId expectedPrice txGasPrice,
      0 < expectedPrice ->
      no_div0 (detectMEV st env feedId expectedPrice txGasPrice))
  /\ (forall st env feedId txGasPrice currentPrice,
         msg_sender env = owner st ->
         oracle env feedId = Some currentPrice ->
         0 <= currentPrice ->
         detectMEV st env feedId 0 txGasPrice =
         Err (Panic (if currentPrice * 10000 <=? MAX_UINT256
                     then DIVISION_BY_ZERO else ARITHMETIC)))
  /\ (forall st env feedId txGasPrice,
         is_ok (detectMEV st env feedId 0 txGasPrice) = false).
Proof.
  split; [|split].
  - intros st env feedId expectedPrice txGasPrice Hpos.
    apply no_div0_detectMEV. lia.
  - intros st env feedId txGasPrice currentPrice Hown Horacle Hnn.
    unfold detectMEV.
    rewrite (onlyOwner_Ok _ _ Hown). run.
    rewrite (oracle_Ok _ _ _ Horacle). run.
    rewrite abs_diff_Ok. run.
    rewrite Z.sub_0_r, Z.abs_eq by exact Hnn.
    unfold checked_mul.
    destruct (currentPrice * 10000 <=? MAX_UINT256); reflexivity.
  - intros st env feedId txGasPrice.
    destruct (detectMEV st env feedId 0 txGasPrice) as [[[st' ev] v]|e] eqn:H;
      [|reflexivity].
    apply detectMEV_Ok_inv in H.
    destruct H as (currentPrice & _ & _ & Hnz & _). contradiction.
Qed.

Lemma zero_expected_price_is_arithmetic_panic_witness :
  no_div0 (detectMEV observed (owner_call 1010 (2100 * ether)) ETH
                     (2000 * ether) (20 * gwei))
  /\ detectMEV fresh (owner_call 1000 2000) ETH 0 (20 * gwei)
     = Err (Panic (if 2000 * 10000 <=? MAX_UINT256
                   then DIVISION_BY_ZERO else ARITHMETIC)).
Proof.
  split.
  - apply (proj1 zero_expected_price_is_arithmetic_panic).
    vm_compute. reflexivity.
  - apply (proj1 (proj2 zero_expected_price_is_arithmetic_panic)
                 fresh (owner_call 1000 2000) ETH (20 * gwei) 2000).
    + reflexivity.
    + reflexivity.
    + vm_compute. discriminate.
Defined.

End DetectorTheorems.

(** ** Properties of the stored oracle price (MEVProtector) *)

Section FreshnessTheorems.
Import MEVProtector Examples.

(** C8. [checkPriceAnomaly] aborts with "Oracle price too old", and with
    this error only then, when the stored price of the symbol was last
    updated 300 seconds ago or more: it never returns a verdict computed
    from such a price. The inline path [detectMEV] overwrites the stored
    observation of the feed before anything reads it, so that its result
    is the same whatever observation was stored, however old. *)
Theorem stale_oracle_price_rejected :
  (forall st env symbol currentPrice,
      0 < mget (lastOraclePrices st) symbol ->
      300 <= block_timestamp env - mget (lastOracleUpdate st) symbol ->
      checkPriceAnomaly st env symbol currentPrice
      = Err (Revert "Oracle price too old"))
  /\ (forall st env symbol currentPrice,
         checkPriceAnomaly st env symbol currentPrice
         = Err (Revert "Oracle price too old") ->
         300 <= block_timestamp env - mget (lastOracleUpdate st) symbol)
  /\ (forall st env symbol currentPrice isAnomaly,
         checkPriceAnomaly st env symbol currentPrice = Ok isAnomaly ->
         block_timestamp env - mget (lastOracleUpdate st) symbol < 300)
  /\ (forall st env feedId expectedPrice txGasPrice price time,
         MEVDetector.detectMEV (MEVDetector.set_price st feedId price time)
                               env feedId expectedPrice txGasPrice
         = MEVDetector.detectMEV st env feedId expectedPrice txGasPrice).
Proof.
  split; [|split; [|split]].
  - intros st env symbol currentPrice Hprice Hold.
    unfold checkPriceAnomaly. cbv zeta. unfold require.
    replace (mget (lastOraclePrices st) symbol >? 0) with true
      by (symmetry; rewrite Z.gtb_ltb; apply Z.ltb_lt; exact Hprice).
    run.
    rewrite (checked_sub_Ok (block_timestamp env)
               (mget (lastOracleUpdate st) symbol)) by lia.
    run.
    replace (_ <? 300) with false by (symmetry; apply Z.ltb_ge; exact Hold).
    reflexivity.
  - intros st env symbol currentPrice H.
    unfold checkPriceAnomaly in H. cbv zeta in H. unfold require in H.
    destruct (mget (lastOraclePrices st) symbol >? 0); [|discriminate H].
    run in H.
    destruct (checked_sub (block_timestamp env)
                          (mget (lastOracleUpdate st) symbol))
      as [age|e] eqn:Hage.
    2:{ unfold checked_sub in Hage.
        destruct (_ <=? _) in Hage; [discriminate Hage|].
        injection Hage as <-. run in H. discriminate H. }
    apply checked_sub_inv in Hage as [-> _]. run in H.
    destruct (_ <? 300) eqn:E in H; [|apply Z.ltb_ge in E; exact E].
    run in H. exfalso. revert H.
    apply arith_no_revert_bind; [|discriminate].
    destruct (currentPrice >? _); apply deviation_no_revert.
  - intros st env symbol currentPrice isAnomaly H.
    unfold checkPriceAnomaly in H. cbv zeta in H.
    bind_inv H as u Hprice. bind_inv H as age Hage.
    apply checked_sub_inv in Hage as [-> _].
    bind_inv H as u' Hfresh. unfold require in Hfresh.
    destruct (_ <? 300) eqn:E in Hfresh; [|discriminate].
    apply Z.ltb_lt in E. exact E.
  - intros. apply detectMEV_overwrites_first.
Qed.

Lemma stale_oracle_price_rejected_witness :
  checkPriceAnomaly priced (mkEnv 9 1300) "ETH" (2500 * ether)
  = Err (Revert "Oracle price too old")
  /\ 300 <= block_timestamp (mkEnv 9 1300) - mget (lastOracleUpdate priced) "ETH"
  /\ block_timestamp (mkEnv 9 1299) - mget (lastOracleUpdate priced) "ETH" < 300.
Proof.
  split; [|split].
  - apply (proj1 stale_oracle_price_rejected).
    + vm_compute. reflexivity.
    + vm_compute. discriminate.
  - apply (proj1 (proj2 stale_oracle_price_rejected)
                 priced (mkEnv 9 1300) "ETH" (2500 * ether)).
    vm_compute. reflexivity.
  - apply (proj1 (proj2 (proj2 stale_oracle_price_rejected))
                 priced (mkEnv 9 1299) "ETH" (2500 * ether) true).
    vm_compute. reflexivity.
Defined.

End FreshnessTheorems.

(** ** Properties of the analytics scorer (mev-detection.ts) *)

Section ScoringTheorems.
Import MevDetection Scoring Examples.

(** C5. The analytics predicate [detectFrontRun] has no cold-start guard:
    with an average of 0 the threshold is 0, and a transaction with a gas
    price of 1 wei to a contract seen in the cache is reported as a
    front-run. *)
Theorem detectFrontRun_fires_without_baseline :
  detectFrontRun [cached] (incoming 1) 0 = true.
Proof. vm_compute. reflexivity. Qed.

(** The score is the sum of the five factors, capped at 100. *)
Lemma calculateRiskScore_eq recent transaction avgGasPrice blockTimestamp :
  calculateRiskScore recent transaction avgGasPrice blockTimestamp =
  Z.min (gas_points transaction avgGasPrice
         + value_points transaction
         + points (detectSandwich recent transaction blockTimestamp) 25
         + points (detectFrontRun recent transaction avgGasPrice) 20
         + points (detectArbitrage transaction blockTimestamp) 15) 100.
Proof.
  unfold calculateRiskScore, gas_points, value_points, points. cbv zeta.
  f_equal.
  destruct (avgGasPrice >? 0);
    [destruct (Qgt _ (2 # 1)); [|destruct (Qgt _ (3 # 2)); [|destruct (Qgt _ (6 # 5))]]|];
    (destruct (value transaction >? 10000000000000000000);
       [|destruct (value transaction >? 1000000000000000000)]);
    destruct (detectSandwich recent transaction blockTimestamp);
    destruct (detectFrontRun recent transaction avgGasPrice);
    destruct (detectArbitrage transaction blockTimestamp);
    reflexivity.
Qed.

Lemma Qgt_mono (r1 r2 c : Q) :
  (r1 <= r2)%Q -> Qgt r1 c = true -> Qgt r2 c = true.
Proof.
  unfold Qgt. intros Hle H.
  apply negb_true_iff in H. apply negb_true_iff.
  destruct (Qle_bool r2 c) eqn:E; [|reflexivity].
  apply Qle_bool_iff in E.
  assert (Hc : Qle_bool r1 c = true)
    by (apply Qle_bool_iff; eapply Qle_trans; eassumption).
  congruence.
Qed.

(** The gas-ratio tests, as comparisons of integers. *)
Lemma Qgt_gasRatio transaction avgGasPrice (p : Z) (q : positive) :
  0 < avgGasPrice ->
  Qgt (gasRatio transaction avgGasPrice) (p # q)
  = (gasPrice transaction * Z.pos q >? p * avgGasPrice).
Proof.
  intros Hpos. destruct avgGasPrice as [|a|a]; try lia.
  unfold Qgt, gasRatio, Qle_bool, Qdiv, Qmult, Qinv, inject_Z.
  cbn [Qnum Qden]. rewrite Pos.mul_1_l, Z.mul_1_r.
  rewrite Z.gtb_ltb, Z.ltb_antisym. reflexivity.
Qed.

Lemma gas_points_range transaction avgGasPrice :
  0 <= gas_points transaction avgGasPrice <= 30.
Proof.
  unfold gas_points.
  destruct (avgGasPrice >? 0); [|lia].
  destruct (Qgt _ (2 # 1)); [lia|].
  destruct (Qgt _ (3 # 2)); [lia|].
  destruct (Qgt _ (6 # 5)); lia.
Qed.

Lemma gas_points_mono_ratio t1 t2 avg1 avg2 :
  0 < avg1 -> 0 < avg2 ->
  (gasRatio t1 avg1 <= gasRatio t2 avg2)%Q ->
  gas_points t1 avg1 <= gas_points t2 avg2.
Proof.
  intros H1 H2 Hle. unfold gas_points.
  replace (avg1 >? 0) with true by (symmetry; rewrite Z.gtb_ltb; apply Z.ltb_lt; lia).
  replace (avg2 >? 0) with true by (symmetry; rewrite Z.gtb_ltb; apply Z.ltb_lt; lia).
  pose proof (Qgt_mono _ _ (2 # 1) Hle) as M1.
  pose proof (Qgt_mono _ _ (3 # 2) Hle) as M2.
  pose proof (Qgt_mono _ _ (6 # 5) Hle) as M3.
  destruct (Qgt (gasRatio t1 avg1) (2 # 1)); [rewrite M1 by reflexivity; lia|].
  destruct (Qgt (gasRatio t1 avg1) (3 # 2)).
  { rewrite M2 by reflexivity. destruct (Qgt (gasRatio t2 avg2) (2 # 1)); lia. }
  destruct (Qgt (gasRatio t1 avg1) (6 # 5)).
  { rewrite M3 by reflexivity.
    destruct (Qgt (gasRatio t2 avg2) (2 # 1)); [lia|].
    destruct (Qgt (gasRatio t2 avg2) (3 # 2)); lia. }
  destruct (Qgt (gasRatio t2 avg2) (2 # 1)); [lia|].
  destruct (Qgt (gasRatio t2 avg2) (3 # 2)); [lia|].
  destruct (Qgt (gasRatio t2 avg2) (6 # 5)); lia.
Qed.

Lemma gas_points_mono_average transaction avg avg' :
  0 < avg' <= avg ->
  gas_points transaction avg <= gas_points transaction avg'.
Proof.
  intros H. unfold gas_points.
  replace (avg >? 0) with true by (symmetry; rewrite Z.gtb_ltb; apply Z.ltb_lt; lia).
  replace (avg' >? 0) with true by (symmetry; rewrite Z.gtb_ltb; apply Z.ltb_lt; lia).
  rewrite !Qgt_gasRatio by lia.
  repeat match goal with
         | |- context [?a >? ?b] =>
             let E := fresh "E" in
             destruct (Z.gtb_spec a b) as [E|E]
         end; lia.
Qed.

Lemma value_points_mono t v' :
  value t <= v' -> value_points t <= value_points (with_value t v').
Proof.
  intros H. unfold value_points. cbn [value with_value].
  repeat match goal with
         | |- context [?a >? ?b] =>
             let E := fresh "E" in
             destruct (Z.gtb_spec a b) as [E|E]
         end; lia.
Qed.

Lemma points_mono (b b' : bool) (w : Z) :
  0 <= w -> (b = true -> b' = true) -> points b w <= points b' w.
Proof.
  intros Hw H. unfold points. destruct b; [rewrite H by reflexivity; lia|].
  destruct b'; lia.
Qed.

Lemma detectSandwich_with_value recent t v' ts :
  detectSandwich recent (with_value t v') ts = detectSandwich recent t ts.
Proof. induction recent as [|r recent IH]; [reflexivity|]. simpl. rewrite IH. reflexivity. Qed.

Lemma same_target_seen_with_value recent t v' :
  same_target_seen recent (with_value t v') = same_target_seen recent t.
Proof. induction recent as [|r recent IH]; [reflexivity|]. simpl. rewrite IH. reflexivity. Qed.

Lemma detectFrontRun_with_value recent t v' avg :
  detectFrontRun recent (with_value t v') avg = detectFrontRun recent t avg.
Proof.
  unfold detectFrontRun. cbn [gasPrice with_value].
  rewrite same_target_seen_with_value. reflexivity.
Qed.

Lemma detectArbitrage_mono_value t v' ts :
  value t <= v' ->
  detectArbitrage t ts = true -> detectArbitrage (with_value t v') ts = true.
Proof.
  unfold detectArbitrage. cbn [value gasPrice with_value]. intros Hle.
  destruct (Z.gtb_spec (value t) 1000000000000000000) as [E|E]; [|discriminate].
  destruct (Z.gtb_spec v' 1000000000000000000) as [E'|E']; [|lia].
  trivial.
Qed.

Lemma detectFrontRun_mono_average recent t avg avg' :
  avg' <= avg ->
  detectFrontRun recent t avg = true -> detectFrontRun recent t avg' = true.
Proof.
  unfold detectFrontRun, FRONT_RUN_GAS_MULTIPLIER. intros Hle.
  assert (Hq : (avg' * 115) ÷ 100 <= (avg * 115) ÷ 100)
    by (apply Z.quot_le_mono; lia).
  destruct (Z.gtb_spec (gasPrice t) ((avg * 115) ÷ 100)) as [E|E]; [|discriminate].
  destruct (Z.gtb_spec (gasPrice t) ((avg' * 115) ÷ 100)) as [E'|E']; [|lia].
  trivial.
Qed.

Lemma Qle_gasRatio t1 t2 avg1 avg2 :
  0 < avg1 -> 0 < avg2 ->
  (gasRatio t1 avg1 <= gasRatio t2 avg2)%Q
  <-> gasPrice t1 * avg2 <= gasPrice t2 * avg1.
Proof.
  intros H1 H2.
  destruct avg1 as [|a1|a1]; try lia. destruct avg2 as [|a2|a2]; try lia.
  unfold gasRatio, Qle, Qdiv, Qmult, Qinv, inject_Z.
  cbn [Qnum Qden]. rewrite !Pos.mul_1_l, !Z.mul_1_r. reflexivity.
Qed.

Lemma value_points_le t1 t2 :
  value t1 <= value t2 -> value_points t1 <= value_points t2.
Proof.
  intros H. unfold value_points.
  repeat match goal with
         | |- context [?a >? ?b] =>
             let E := fresh "E" in
             destruct (Z.gtb_spec a b) as [E|E]
         end; lia.
Qed.

Lemma same_target_seen_to recent t1 t2 :
  to t1 = to t2 -> same_target_seen recent t1 = same_target_seen recent t2.
Proof.
  intros Hto. induction recent as [|r recent IH]; [reflexivity|].
  cbn [same_target_seen]. unfold same_target. rewrite Hto, IH. reflexivity.
Qed.

(** The gas test of [detectFrontRun] is a test on the ratio: the gas
    price exceeds the truncated threshold exactly when it exceeds 1.15
    times the average. *)
Lemma frontRun_threshold g avg :
  0 <= avg -> g > (avg * 115) ÷ 100 <-> g * 100 > avg * 115.
Proof.
  intros Havg. rewrite Z.quot_div_nonneg by lia.
  Z.to_euclidean_division_equations. lia.
Qed.

Lemma detectFrontRun_mono_ratio recent t1 t2 avg1 avg2 :
  0 < avg1 -> 0 < avg2 ->
  to t1 = to t2 ->
  gasPrice t1 * avg2 <= gasPrice t2 * avg1 ->
  detectFrontRun recent t1 avg1 = true -> detectFrontRun recent t2 avg2 = true.
Proof.
  unfold detectFrontRun, FRONT_RUN_GAS_MULTIPLIER. intros H1 H2 Hto Hle.
  rewrite (same_target_seen_to recent t1 t2 Hto).
  destruct (Z.gtb_spec (gasPrice t1) ((avg1 * 115) ÷ 100)) as [E|E];
    [|discriminate].
  apply Z.lt_gt, frontRun_threshold in E; [|lia].
  destruct (Z.gtb_spec (gasPrice t2) ((avg2 * 115) ÷ 100)) as [E'|E'];
    [trivial|].
  exfalso.
  assert (Hno : ~ gasPrice t2 > (avg2 * 115) ÷ 100) by lia.
  apply Hno, frontRun_threshold; [lia|]. nia.
Qed.

Lemma detectFrontRun_mono_gasPrice recent t g' avg :
  gasPrice t <= g' ->
  detectFrontRun recent t avg = true ->
  detectFrontRun recent (with_gasPrice t g') avg = true.
Proof.
  unfold detectFrontRun. intros Hle.
  rewrite (same_target_seen_to recent (with_gasPrice t g') t eq_refl).
  cbn [gasPrice with_gasPrice].
  destruct (Z.gtb_spec (gasPrice t) ((avg * FRONT_RUN_GAS_MULTIPLIER) ÷ 100))
    as [E|E]; [|discriminate].
  destruct (Z.gtb_spec g' ((avg * FRONT_RUN_GAS_MULTIPLIER) ÷ 100))
    as [E'|E']; [trivial | lia].
Qed.

Lemma detectArbitrage_mono t1 t2 ts :
  value t1 <= value t2 ->
  (0 < gasPrice t1 -> 0 < gasPrice t2) ->
  detectArbitrage t1 ts = true -> detectArbitrage t2 ts = true.
Proof.
  unfold detectArbitrage. intros Hv Hg.
  destruct (Z.gtb_spec (value t1) 1000000000000000000) as [E|E];
    [|discriminate].
  destruct (Z.gtb_spec (gasPrice t1) 0) as [G|G]; [|discriminate].
  destruct (Z.gtb_spec (value t2) 1000000000000000000) as [E'|E']; [|lia].
  destruct (Z.gtb_spec (gasPrice t2) 0) as [G'|G']; [trivial | lia].
Qed.

(** The score does not decrease from one evaluation to another with the
    same target, no smaller a value and no smaller a gas ratio, as long as
    [detectSandwich] does not stop firing: the two other detectors follow
    the ratio and the value by themselves. *)
Lemma calculateRiskScore_mono recent t1 t2 avg1 avg2 ts :
  0 < avg1 -> 0 < avg2 ->
  to t1 = to t2 ->
  value t1 <= value t2 ->
  (gasRatio t1 avg1 <= gasRatio t2 avg2)%Q ->
  (detectSandwich recent t1 ts = true -> detectSandwich recent t2 ts = true) ->
  calculateRiskScore recent t1 avg1 ts <= calculateRiskScore recent t2 avg2 ts.
Proof.
  intros H1 H2 Hto Hval Hratio Hsand. rewrite !calculateRiskScore_eq.
  pose proof (gas_points_mono_ratio t1 t2 avg1 avg2 H1 H2 Hratio).
  pose proof (value_points_le t1 t2 Hval).
  apply Qle_gasRatio in Hratio; [|lia|lia].
  pose proof (points_mono _ _ 25 ltac:(lia) Hsand).
  pose proof (points_mono _ _ 20 ltac:(lia)
                (detectFrontRun_mono_ratio recent t1 t2 avg1 avg2
                   H1 H2 Hto Hratio)).
  pose proof (points_mono _ _ 15 ltac:(lia)
                (detectArbitrage_mono t1 t2 ts Hval ltac:(nia))).
  lia.
Qed.

(** The outcome of [detectSandwich] is not a function of the gas ratio:
    it fires while a recent transaction to the same contract has a higher
    gas price. With one cached transaction at a gas price of 11 and an
    average of 10, it fires for a gas price of 10 (score 25) and not for
    11 (score 0): between these two evaluations the sandwich outcome, one
    of the inputs of the score, is not held fixed. *)
Example sandwich_outcome_follows_gas_price :
  incoming 11 = with_gasPrice (incoming 10) 11
  /\ detectSandwich [cached] (incoming 10) 100 = true
  /\ detectSandwich [cached] (incoming 11) 100 = false
  /\ calculateRiskScore [cached] (incoming 10) 10 100 = 25
  /\ calculateRiskScore [cached] (incoming 11) 10 100 = 0.
Proof. repeat split; vm_compute; reflexivity. Qed.

(** C7. [calculateRiskScore] is an integer between 0 and 100. With the
    other inputs fixed it does not decrease when the value of the
    transaction grows. It does not decrease when the gas ratio grows,
    the other inputs of the score (the value and the outcomes of the
    detectors) being fixed: when the (positive) average falls; between
    any two evaluations with the same value and the same detector
    outcomes; and, since [detectFrontRun] and [detectArbitrage] follow the
    ratio by themselves, between any two evaluations of transactions to
    the same target in which the value does not fall and
    [detectSandwich] does not stop firing, in particular when the gas
    price alone is raised. *)
Theorem risk_score_bounded_and_monotone :
  (forall recent t avg ts,
      0 <= calculateRiskScore recent t avg ts <= 100)
  /\ (forall recent t avg ts v',
         value t <= v' ->
         calculateRiskScore recent t avg ts
         <= calculateRiskScore recent (with_value t v') avg ts)
  /\ (forall recent t avg avg' ts,
         0 < avg' <= avg ->
         calculateRiskScore recent t avg ts
         <= calculateRiskScore recent t avg' ts)
  /\ (forall recent t1 t2 avg1 avg2 ts,
         0 < avg1 -> 0 < avg2 ->
         value t1 = value t2 ->
         (gasRatio t1 avg1 <= gasRatio t2 avg2)%Q ->
         detectors recent t1 avg1 ts = detectors recent t2 avg2 ts ->
         calculateRiskScore recent t1 avg1 ts
         <= calculateRiskScore recent t2 avg2 ts)
  /\ (forall recent t1 t2 avg1 avg2 ts,
         0 < avg1 -> 0 < avg2 ->
         to t1 = to t2 ->
         value t1 <= value t2 ->
         (gasRatio t1 avg1 <= gasRatio t2 avg2)%Q ->
         (detectSandwich recent t1 ts = true ->
          detectSandwich recent t2 ts = true) ->
         calculateRiskScore recent t1 avg1 ts
         <= calculateRiskScore recent t2 avg2 ts)
  /\ (forall recent t avg ts g',
         gasPrice t <= g' ->
         (detectSandwich recent t ts = true ->
          detectSandwich recent (with_gasPrice t g') ts = true) ->
         calculateRiskScore recent t avg ts
         <= calculateRiskScore recent (with_gasPrice t g') avg ts).
Proof.
  split; [|split; [|split; [|split; [|split]]]].
  - intros recent t avg ts. rewrite calculateRiskScore_eq.
    pose proof (gas_points_range t avg).
    unfold value_points, points.
    destruct (value t >? 10000000000000000000);
      [|destruct (value t >? 1000000000000000000)];
      destruct (detectSandwich recent t ts);
      destruct (detectFrontRun recent t avg);
      destruct (detectArbitrage t ts); lia.
  - intros recent t avg ts v' Hle. rewrite !calculateRiskScore_eq.
    rewrite detectSandwich_with_value, detectFrontRun_with_value.
    pose proof (value_points_mono t v' Hle).
    pose proof (points_mono _ _ 15 ltac:(lia)
                  (detectArbitrage_mono_value t v' ts Hle)).
    assert (gas_points (with_value t v') avg = gas_points t avg) as ->
      by reflexivity.
    lia.
  - intros recent t avg avg' ts Havg. rewrite !calculateRiskScore_eq.
    pose proof (gas_points_mono_average t avg avg' Havg).
    pose proof (points_mono _ _ 20 ltac:(lia)
                  (detectFrontRun_mono_average recent t avg avg' (proj2 Havg))).
    lia.
  - intros recent t1 t2 avg1 avg2 ts H1 H2 Hval Hratio Hdet.
    rewrite !calculateRiskScore_eq.
    unfold detectors in Hdet. injection Hdet as -> -> ->.
    pose proof (gas_points_mono_ratio t1 t2 avg1 avg2 H1 H2 Hratio).
    unfold value_points. rewrite Hval. lia.
  - exact calculateRiskScore_mono.
  - intros recent t avg ts g' Hle Hsand.
    destruct (Z.ltb_spec 0 avg) as [Hpos|Hnone].
    + apply calculateRiskScore_mono; try assumption; try reflexivity.
      apply Qle_gasRatio; [lia|lia|]. cbn [gasPrice with_gasPrice]. nia.
    + rewrite !calculateRiskScore_eq.
      pose proof (points_mono _ _ 25 ltac:(lia) Hsand).
      pose proof (points_mono _ _ 20 ltac:(lia)
                    (detectFrontRun_mono_gasPrice recent t g' avg Hle)).
      pose proof (points_mono _ _ 15 ltac:(lia)
                    (detectArbitrage_mono t (with_gasPrice t g') ts
                       (Z.le_refl _) ltac:(cbn [gasPrice with_gasPrice]; lia))).
      unfold gas_points.
      replace (avg >? 0) with false
        by (symmetry; rewrite Z.gtb_ltb; apply Z.ltb_ge; exact Hnone).
      assert (value_points (with_gasPrice t g') = value_points t) as ->
        by reflexivity.
      lia.
Qed.

(** A tenfold value; half the average; the same outcomes at a gas price
    of 13 and of 25; and a gas price raised from 11 to 12 at an average of
    10, which makes [detectFrontRun] fire and takes the score from 0 to
    20. *)
Lemma risk_score_bounded_and_monotone_witness :
  calculateRiskScore [cached] (incoming 25) 10 100
  <= calculateRiskScore [cached] (with_value (incoming 25) (2 * ether)) 10 100
  /\ calculateRiskScore [cached] (incoming 25) 20 100
     <= calculateRiskScore [cached] (incoming 25) 10 100
  /\ calculateRiskScore [cached] (incoming 13) 10 100
     <= calculateRiskScore [cached] (incoming 25) 10 100
  /\ calculateRiskScore [cached] (incoming 11) 10 100
     <= calculateRiskScore [cached] (incoming 12) 10 100
  /\ calculateRiskScore [cached] (incoming 11) 10 100
     <= calculateRiskScore [cached] (with_gasPrice (incoming 11) 12) 10 100
  /\ calculateRiskScore [cached] (incoming 11) 10 100 = 0
  /\ calculateRiskScore [cached] (incoming 12) 10 100 = 20.
Proof.
  split; [|split; [|split; [|split; [|split; [|split]]]]].
  - apply (proj1 (proj2 risk_score_bounded_and_monotone)).
    vm_compute. discriminate.
  - apply (proj1 (proj2 (proj2 risk_score_bounded_and_monotone))).
    vm_compute. split; [reflexivity | discriminate].
  - apply (proj1 (proj2 (proj2 (proj2 risk_score_bounded_and_monotone)))).
    + vm_compute. reflexivity.
    + vm_compute. reflexivity.
    + reflexivity.
    + vm_compute. discriminate.
    + vm_compute. reflexivity.
  - apply (proj1 (proj2 (proj2 (proj2 (proj2 risk_score_bounded_and_monotone))))).
    + vm_compute. reflexivity.
    + vm_compute. reflexivity.
    + reflexivity.
    + vm_compute. discriminate.
    + vm_compute. discriminate.
    + vm_compute. discriminate.
  - apply (proj2 (proj2 (proj2 (proj2 (proj2 risk_score_bounded_and_monotone))))).
    + vm_compute. discriminate.
    + vm_compute. discriminate.
  - vm_compute. reflexivity.
  - vm_compute. reflexivity.
Defined.

(** The third example of the specification: a gas ratio of 2.5, a value
    of half a unit, no detector firing, gives a score of 30. *)
Example score_gas_ratio_only :
  calculateRiskScore []
    (mkTransaction 3 4 (Some 5) (5 * 100000000000000000) 25 100 1) 10 100 = 30.
Proof. vm_compute. reflexivity. Qed.

End ScoringTheorems.

(** ** Properties of the decision engine (MEVProtectorAdvanced) *)

Section ProtectionTheorems.
Import MEVProtectorAdvanced Protection Examples.

Lemma require_Ok c msg : c = true -> require c msg = Ok tt.
Proof. intros ->. reflexivity. Qed.

Lemma stats_of_with_stats st user g u :
  stats_of (with_stats st user g u) user = u.
Proof. unfold stats_of. cbn [userStats with_stats]. rewrite lookup_insert_eq. reflexivity. Qed.



Lemma swap_slippage_self x : swap_slippage x x = Ok 0.
Proof.
  unfold swap_slippage.
  replace (x >? x) with false by (symmetry; rewrite Z.gtb_ltb; apply Z.ltb_irrefl).
  reflexivity.
Qed.

Lemma external_call_inv w env c w' :
  external_call w env c = Ok w' ->
  callee_ok env c = true
  /\ w' = mkWorld (protector w) (detector w) (events w) (calls w ++ [c]).
Proof.
  unfold external_call. destruct (callee_ok env c); [|discriminate].
  intros [= <-]. split; reflexivity.
Qed.

(** Everything a call of [_executeSwap] that returns went through. *)
Lemma executeSwap_Ok_inv w env params config w' r :
  0 <= maxSlippage config ->
  _executeSwap w env params config = Ok (w', r) ->
  exists currentPrice,
    oracle env (pricefeedId params) = Some currentPrice
    /\ amountIn params * currentPrice <= MAX_UINT256
    /\ r = (if swap_output params currentPrice <? minAmountOut params
            then mkSwapResult RefundBelowMinimum false 0
            else mkSwapResult Swapped true (swap_output params currentPrice))
    /\ calls w'
       = calls w
         ++ TransferFrom (tokenIn params) (msg_sender env)
                         (this (protector w)) (amountIn params)
         :: (if swap_output params currentPrice <? minAmountOut params
             then [Transfer (tokenIn params) (msg_sender env) (amountIn params)]
             else []).
Proof.
  intros Hmax H. unfold _executeSwap in H.
  bind_inv H as w1 Hpull. apply external_call_inv in Hpull as [_ ->].
  bind_inv H as currentPrice Hprice.
  unfold MEVDetector.getCurrentPrice in Hprice. apply oracle_inv in Hprice.
  cbn [detector_env MEVDetector.oracle protector] in Hprice.
  bind_inv H as m Hm. pose proof Hm as Hm'.
  apply checked_mul_inv in Hm as [-> Hfit].
  bind_inv H as out Hout. apply checked_div_inv in Hout as [-> _].
  exists currentPrice. split; [exact Hprice|]. split; [exact Hfit|].
  fold (swap_output params currentPrice) in H |- *.
  destruct (swap_output params currentPrice <? minAmountOut params).
  - bind_inv H as w2 Hrefund. apply external_call_inv in Hrefund as [_ ->].
    injection H as <- <-. cbn [calls]. rewrite <- app_assoc.
    split; reflexivity.
  - rewrite Hm' in H. run in H.
    rewrite checked_div_Ok in H by lia. run in H.
    fold (swap_output params currentPrice) in H.
    rewrite swap_slippage_self in H. run in H.
    replace (0 >? maxSlippage config) with false in H
      by (symmetry; rewrite Z.gtb_ltb; apply Z.ltb_ge; exact Hmax).
    injection H as <- <-. split; reflexivity.
Qed.

(** C10. In [_executeSwap] the expected output is the realized output,
    so that the slippage computed from them is 0: whatever the inputs, a
    call that returns never leaves through the refund of the
    max-slippage test. It refunds (and reports failure) exactly when the
    output amountIn * currentPrice / 1e18 is below the caller's
    [minAmountOut]; and it does return when the external calls go
    through, the oracle has a value and the product fits 256 bits. *)
Theorem max_slippage_refund_unreachable :
  (forall x, swap_slippage x x = Ok 0)
  /\ (forall w env params config w' r,
         0 <= maxSlippage config ->
         _executeSwap w env params config = Ok (w', r) ->
         exit r <> RefundAboveMaxSlippage
         /\ exists currentPrice,
             oracle env (pricefeedId params) = Some currentPrice
             /\ (success r = false
                 <-> swap_output params currentPrice < minAmountOut params)
             /\ (exit r = RefundBelowMinimum
                 <-> swap_output params currentPrice < minAmountOut params)
             /\ (In (Transfer (tokenIn params) (msg_sender env) (amountIn params))
                    (drop (length (calls w)) (calls w'))
                 <-> swap_output params currentPrice < minAmountOut params))
  /\ (forall w env params config currentPrice,
         0 <= maxSlippage config ->
         oracle env (pricefeedId params) = Some currentPrice ->
         amountIn params * currentPrice <= MAX_UINT256 ->
         (forall c, callee_ok env c = true) ->
         exists w' r, _executeSwap w env params config = Ok (w', r)).
Proof.
  split; [exact swap_slippage_self|]. split.
  - intros w env params config w' r Hmax H.
    apply executeSwap_Ok_inv in H; [|exact Hmax].
    destruct H as (currentPrice & Horacle & _ & -> & Hcalls).
    rewrite Hcalls, drop_app_length.
    destruct (Z.ltb_spec (swap_output params currentPrice) (minAmountOut params))
      as [Hlt|Hge].
    + split; [discriminate|]. exists currentPrice.
      split; [exact Horacle|]. cbn [success exit].
      split; [tauto|]. split; [tauto|].
      split; [intros _; exact Hlt | intros _; right; left; reflexivity].
    + split; [discriminate|]. exists currentPrice.
      split; [exact Horacle|]. cbn [success exit].
      split; [split; [discriminate | lia]|].
      split; [split; [discriminate | lia]|].
      split; [|lia].
      intros [Hin | []]. discriminate Hin.
  - intros w env params config currentPrice Hmax Horacle Hfit Hcallee.
    unfold _executeSwap, external_call.
    rewrite !Hcallee. run.
    unfold MEVDetector.getCurrentPrice.
    rewrite (oracle_Ok _ _ currentPrice) by exact Horacle. run.
    rewrite checked_mul_Ok by exact Hfit. run.
    rewrite checked_div_Ok by lia. run.
    destruct (_ <? minAmountOut params).
    + eauto.
    + rewrite swap_slippage_self. run.
      replace (0 >? maxSlippage config) with false
        by (symmetry; rewrite Z.gtb_ltb; apply Z.ltb_ge; exact Hmax).
      eauto.
Qed.

Lemma max_slippage_refund_unreachable_witness :
  exit (mkSwapResult Swapped true (2000 * ether)) <> RefundAboveMaxSlippage
  /\ exists w' r,
      _executeSwap guarded rushed swap
                   (config_of (protector guarded) trader) = Ok (w', r).
Proof.
  split.
  - refine (proj1 (proj1 (proj2 max_slippage_refund_unreachable)
              guarded rushed swap (config_of (protector guarded) trader)
              _ (mkSwapResult Swapped true (2000 * ether)) _ _)).
    + vm_compute. discriminate.
    + vm_compute. reflexivity.
  - apply (proj2 (proj2 max_slippage_refund_unreachable)
                 guarded rushed swap (config_of (protector guarded) trader)
                 (2000 * ether)).
    + vm_compute. discriminate.
    + reflexivity.
    + vm_compute. discriminate.
    + intros c. reflexivity.
Defined.

(** Two examples of the specification: a maximum slippage of 1500 basis
    points is refused before anything is written, and a SANDWICH threat of
    score 1000 under the DELAY strategy is delayed by 30 + 1000 / 100 = 40
    seconds. *)
Example configureProtection_slippage_cap :
  configureProtection guarded rushed REVERT 1500 300000 false
  = Err (Revert "Slippage too high").
Proof. reflexivity. Qed.

Example delay_of_sandwich_threat :
  _calculateDelay MEVDetector.SANDWICH 1000 = Ok 40.
Proof. reflexivity. Qed.

End ProtectionTheorems.

(** ** More on the detector: the ring buffer, the average, the verdict *)

Section DetectorExtras.
Import MEVDetector DetectorConfig GasHistory Detection Examples.

Lemma ring_step idx j :
  0 <= idx < 100 -> 0 <= j < 100 -> j <> idx ->
  (j - (idx + 1) mod 100) mod 100 = (j - idx) mod 100 - 1
  /\ 1 <= (j - idx) mod 100 <= 99.
Proof. intros. Z.to_euclidean_division_equations. lia. Qed.

Lemma ring_wrap idx :
  0 <= idx < 100 -> (idx - (idx + 1) mod 100) mod 100 = 99.
Proof. intros. Z.to_euclidean_division_equations. lia. Qed.

Lemma ring_next idx n :
  ((idx + 1) mod 100 + n) mod 100 = (idx + (n + 1)) mod 100.
Proof. intros. Z.to_euclidean_division_equations. lia. Qed.

(** X1. The gas history is a ring of 100 slots: recording up to 100
    samples from a cursor at [i] writes the k-th sample into slot
    (i + k) mod 100, leaves every other slot as it was, and moves the
    cursor to (i + n) mod 100; nothing but the history and its cursor
    changes. *)
Theorem record_all_fills_ring :
  forall samples st,
    length (gasHistory st) = 100%nat ->
    0 <= gasHistoryIndex st < 100 ->
    (length samples <= 100)%nat ->
    exists st',
      record_all st samples = Ok st'
      /\ length (gasHistory st') = 100%nat
      /\ gasHistoryIndex st'
         = (gasHistoryIndex st + Z.of_nat (length samples)) mod 100
      /\ st' = set_gas st (gasHistory st') (gasHistoryIndex st')
      /\ forall j,
          0 <= j < 100 ->
          gasHistory st' !! Z.to_nat j
          = if (j - gasHistoryIndex st) mod 100 <? Z.of_nat (length samples)
            then samples !! Z.to_nat ((j - gasHistoryIndex st) mod 100)
            else gasHistory st !! Z.to_nat j.
Proof.
  induction samples as [|g rest IH]; intros st Hlen Hidx Hn.
  - exists st. split; [reflexivity|]. split; [exact Hlen|].
    split; [simpl; rewrite Z.add_0_r, Z.mod_small by lia; reflexivity|].
    split; [destruct st; reflexivity|].
    intros j Hj. simpl length.
    replace (_ <? Z.of_nat 0) with false; [reflexivity|].
    symmetry. apply Z.ltb_ge.
    pose proof (Z.mod_pos_bound (j - gasHistoryIndex st) 100). lia.
  - simpl record_all. rewrite (updateGasHistory_Ok st g Hlen Hidx). run.
    set (st1 := set_gas st (<[Z.to_nat (gasHistoryIndex st) := g]> (gasHistory st))
                        ((gasHistoryIndex st + 1) mod 100)).
    destruct (IH st1) as (st' & Hrun & Hlen' & Hidx' & Hframe & Hslots).
    { unfold st1. cbn [gasHistory set_gas]. rewrite length_insert. exact Hlen. }
    { unfold st1. cbn [gasHistoryIndex set_gas]. apply Z.mod_pos_bound. lia. }
    { simpl in Hn. lia. }
    exists st'. split; [exact Hrun|]. split; [exact Hlen'|].
    unfold st1 in Hidx', Hframe, Hslots.
    cbn [gasHistory gasHistoryIndex set_gas] in Hidx', Hframe, Hslots.
    split.
    { rewrite Hidx'. simpl length. rewrite ring_next. f_equal. lia. }
    split.
    { rewrite Hframe at 1. destruct st. reflexivity. }
    intros j Hj. rewrite (Hslots j Hj). simpl length in *.
    destruct (Z.eq_dec j (gasHistoryIndex st)) as [->|Hne].
    + rewrite ring_wrap by exact Hidx.
      rewrite Z.sub_diag, Z.mod_0_l by lia.
      replace (99 <? Z.of_nat (length rest)) with false
        by (symmetry; apply Z.ltb_ge; lia).
      replace (0 <? Z.of_nat (S (length rest))) with true
        by (symmetry; apply Z.ltb_lt; lia).
      simpl. apply list_lookup_insert_eq. lia.
    + destruct (ring_step _ _ Hidx Hj Hne) as [-> Hd].
      set (d := (j - gasHistoryIndex st) mod 100) in *.
      replace (d - 1 <? Z.of_nat (length rest)) with (d <? Z.of_nat (S (length rest)))
        by (destruct (Z.ltb_spec d (Z.of_nat (S (length rest))));
            destruct (Z.ltb_spec (d - 1) (Z.of_nat (length rest))); lia || reflexivity).
      destruct (d <? Z.of_nat (S (length rest))).
      * replace (Z.to_nat d) with (S (Z.to_nat (d - 1))) by lia. reflexivity.
      * apply list_lookup_insert_ne. lia.
Qed.

Lemma record_all_fills_ring_witness :
  exists st',
    record_all observed [30 * gwei; 40 * gwei] = Ok st'
    /\ length (gasHistory st') = 100%nat
    /\ gasHistoryIndex st'
       = (gasHistoryIndex observed + Z.of_nat (length [30 * gwei; 40 * gwei])) mod 100
    /\ st' = set_gas observed (gasHistory st') (gasHistoryIndex st')
    /\ forall j,
        0 <= j < 100 ->
        gasHistory st' !! Z.to_nat j
        = if (j - gasHistoryIndex observed) mod 100
             <? Z.of_nat (length [30 * gwei; 40 * gwei])
          then [30 * gwei; 40 * gwei] !! Z.to_nat ((j - gasHistoryIndex observed) mod 100)
          else gasHistory observed !! Z.to_nat j.
Proof.
  apply (record_all_fills_ring [30 * gwei; 40 * gwei] observed).
  - reflexivity.
  - vm_compute. split; [discriminate | reflexivity].
  - simpl. lia.
Defined.

(** X2. A call of [detectMEV] that returns keeps the storage well formed
    (100 slots, cursor inside, 256-bit words) and touches nothing but the
    feed's own observation and the slot at the cursor: owner, thresholds,
    the observations of the other feeds and the other slots are as
    before. *)
Theorem detectMEV_keeps_storage :
  forall st env feedId expectedPrice txGasPrice st' ev v,
    wf st ->
    is_uint256 txGasPrice ->
    detectMEV st env feedId expectedPrice txGasPrice = Ok (st', ev, v) ->
    wf st'
    /\ owner st' = owner st
    /\ riskThreshold st' = riskThreshold st
    /\ minPriceDelta st' = minPriceDelta st
    /\ frontRunGasMultiplier st' = frontRunGasMultiplier st
    /\ (forall other, other <> feedId ->
          getPriceHistory st' other = getPriceHistory st other)
    /\ (forall j, j <> Z.to_nat (gasHistoryIndex st) ->
          gasHistory st' !! j = gasHistory st !! j).
Proof.
  intros st env feedId expectedPrice txGasPrice st' ev v Hwf Hgas H.
  apply detectMEV_Ok_inv in H.
  destruct H as (currentPrice & _ & _ & _ & _ & Hupd & _).
  apply updateGasHistory_inv in Hupd as [-> Hidx].
  cbn [gasHistory gasHistoryIndex set_gas set_price] in Hidx.
  destruct Hwf as [Hlen Hcur Hslots Hthr Hdelta Hmult].
  split.
  { split; cbn [gasHistory gasHistoryIndex riskThreshold minPriceDelta
                frontRunGasMultiplier set_gas set_price]; try assumption.
    - rewrite length_insert. exact Hlen.
    - apply Z.mod_pos_bound. lia.
    - apply Forall_insert; assumption. }
  repeat (split; [reflexivity|]).
  split.
  - intros other Hne. unfold getPriceHistory, mget.
    cbn [lastPrices lastUpdateTimestamp set_gas set_price].
    rewrite !lookup_insert_ne by congruence. reflexivity.
  - intros j Hj. cbn [gasHistory gasHistoryIndex set_gas set_price].
    apply list_lookup_insert_ne. lia.
Qed.

Lemma observed_wf : wf observed.
Proof.
  pose proof MAX_UINT256_large as Hmax.
  split; unfold is_uint256;
    cbn [observed fresh constructor gasHistory gasHistoryIndex set_gas set_price
         riskThreshold minPriceDelta frontRunGasMultiplier].
  - reflexivity.
  - lia.
  - apply Forall_insert.
    + apply Forall_forall. intros x Hx.
      apply elem_of_replicate in Hx as [-> _]. unfold is_uint256. lia.
    + unfold is_uint256, gwei. lia.
  - lia.
  - lia.
  - lia.
Qed.

Lemma detectMEV_keeps_storage_witness :
  wf (set_gas (set_price observed ETH (2100 * ether) 1010)
              (<[1%nat := 20 * gwei]> (gasHistory observed)) 2).
Proof.
  refine (proj1 (detectMEV_keeps_storage observed (owner_call 1010 (2100 * ether))
                   ETH (2100 * ether) (20 * gwei) _ [] (mkVerdict false UNKNOWN 0)
                   observed_wf _ _)).
  - vm_compute. split; discriminate.
  - vm_compute. reflexivity.
Defined.

Lemma mean_lower (l : list Z) m :
  l <> [] -> Forall (fun x => m <= x) l -> m <= mean l.
Proof.
  intros Hne Hall.
  assert (Hsum : m * Z.of_nat (length l) <= Zsum l).
  { clear Hne. induction Hall as [|x l Hx _ IH]; [simpl; lia|].
    change (Zsum (x :: l)) with (x + Zsum l).
    change (length (x :: l)) with (S (length l)).
    rewrite Nat2Z.inj_succ. lia. }
  destruct l as [|x l]; [congruence|]. unfold mean.
  apply Z.div_le_lower_bound; [simpl; lia | lia].
Qed.

Lemma mean_upper (l : list Z) M :
  l <> [] -> Forall (fun x => x <= M) l -> mean l <= M.
Proof.
  intros Hne Hall.
  assert (Hsum : Zsum l <= M * Z.of_nat (length l)).
  { clear Hne. induction Hall as [|x l Hx _ IH]; [simpl; lia|].
    change (Zsum (x :: l)) with (x + Zsum l).
    change (length (x :: l)) with (S (length l)).
    rewrite Nat2Z.inj_succ. lia. }
  destruct l as [|x l]; [congruence|]. unfold mean.
  apply Z.div_le_upper_bound; [simpl; lia | lia].
Qed.

Lemma populated_positive history : Forall (fun g => 1 <= g) (populated history).
Proof.
  unfold populated. apply Forall_forall. intros x Hx.
  apply list_elem_of_filter in Hx as [Hpos _]. lia.
Qed.

(** X3. The average [_getAverageGasPrice] returns lies between the
    smallest and the largest non-zero sample of the history, and it is
    positive exactly when some slot holds a non-zero sample: the guard
    [avgGasPrice > 0] of [detectMEV] tests just that. *)
Theorem average_between_samples :
  forall st avg,
    length (gasHistory st) = 100%nat ->
    _getAverageGasPrice st = Ok avg ->
    (0 < avg <-> populated (gasHistory st) <> [])
    /\ (forall m M,
           populated (gasHistory st) <> [] ->
           Forall (fun g => 0 < g -> m <= g <= M) (gasHistory st) ->
           m <= avg <= M).
Proof.
  intros st avg Hlen H. rewrite getAverageGasPrice_eq in H by exact Hlen.
  destruct (_ <=? MAX_UINT256); [|discriminate H]. injection H as <-.
  split.
  - split.
    + intros Hpos Hnil. rewrite Hnil in Hpos. simpl in Hpos. lia.
    + intros Hne.
      pose proof (mean_lower _ 1 Hne (populated_positive (gasHistory st))). lia.
  - intros m M Hne Hall.
    assert (Hpop : Forall (fun x => m <= x <= M) (populated (gasHistory st))).
    { unfold populated. apply Forall_forall. intros x Hx.
      apply list_elem_of_filter in Hx as [Hpos Hx].
      rewrite Forall_forall in Hall. exact (Hall x Hx Hpos). }
    split.
    + apply mean_lower; [exact Hne|].
      eapply Forall_impl; [exact Hpop|]. intros x Hx. apply Hx.
    + apply mean_upper; [exact Hne|].
      eapply Forall_impl; [exact Hpop|]. intros x Hx. apply Hx.
Qed.

Lemma average_between_samples_witness :
  (0 < 20 * gwei <-> populated (gasHistory observed) <> [])
  /\ (forall m M,
         populated (gasHistory observed) <> [] ->
         Forall (fun g => 0 < g -> m <= g <= M) (gasHistory observed) ->
         m <= 20 * gwei <= M).
Proof.
  apply (average_between_samples observed (20 * gwei)).
  - reflexivity.
  - vm_compute. reflexivity.
Defined.

(** The verdict and the events of a call of [detectMEV] that returns, by
    the branch it returned from. *)
Lemma detectMEV_outcome st env feedId expectedPrice txGasPrice st' ev v :
  detectMEV st env feedId expectedPrice txGasPrice = Ok (st', ev, v) ->
  exists currentPrice,
    oracle env feedId = Some currentPrice
    /\ let delta := Z.abs (currentPrice - expectedPrice) in
       let slippage := delta * 10000 / expectedPrice in
       (slippage > riskThreshold st
        /\ v = mkVerdict true SANDWICH slippage
        /\ ev = [MEVThreatDetected (msg_sender env) feedId SANDWICH slippage
                                   (block_timestamp env);
                 PriceAnomalyDetected feedId expectedPrice currentPrice delta])
       \/ (slippage <= riskThreshold st
           /\ exists avgGasPrice,
               _getAverageGasPrice st' = Ok avgGasPrice
               /\ 0 < avgGasPrice
               /\ txGasPrice > avgGasPrice * frontRunGasMultiplier st / 100
               /\ let score := (txGasPrice - avgGasPrice) * 10000 / avgGasPrice in
                  v = mkVerdict true FRONTRUN score
                  /\ ev = [MEVThreatDetected (msg_sender env) feedId FRONTRUN score
                                             (block_timestamp env)])
       \/ (slippage <= riskThreshold st
           /\ v = mkVerdict true ARBITRAGE 300
           /\ ev = [MEVThreatDetected (msg_sender env) feedId ARBITRAGE 300
                                      (block_timestamp env)])
       \/ (slippage <= riskThreshold st
           /\ v = mkVerdict false UNKNOWN 0 /\ ev = []).
Proof.
  unfold detectMEV. intros H.
  bind_inv H as u Hown.
  bind_inv H as currentPrice Horacle. apply oracle_inv in Horacle.
  bind_inv H as delta Hdelta. apply abs_diff_inv in Hdelta. subst delta.
  bind_inv H as m Hfit. apply checked_mul_inv in Hfit as [-> Hfit].
  bind_inv H as slippage Hnz. apply checked_div_inv in Hnz as [-> Hnz].
  bind_inv H as st2 Hgas.
  assert (Hcfg : riskThreshold st2 = riskThreshold st
                 /\ frontRunGasMultiplier st2 = frontRunGasMultiplier st).
  { apply updateGasHistory_inv in Hgas as [-> _]. split; reflexivity. }
  destruct Hcfg as [Hthr Hmul]. rewrite Hthr in H.
  exists currentPrice. split; [exact Horacle|]. cbv zeta.
  destruct (_ >? riskThreshold st) eqn:Esand in H.
  - injection H as <- <- <-. left. split; [lia|]. split; reflexivity.
  - right. bind_inv H as avg Havg. bind_inv H as frontRun Hfront.
    destruct frontRun.
    + bind_inv H as d Hd. apply checked_sub_inv in Hd as [-> _].
      bind_inv H as n Hn. apply checked_mul_inv in Hn as [-> _].
      bind_inv H as score Hscore. apply checked_div_inv in Hscore as [-> _].
      injection H as <- <- <-.
      left. split; [lia|]. exists avg. split; [exact Havg|].
      destruct (avg >? 0) eqn:Eavg; [|discriminate Hfront].
      unfold _detectFrontRunning in Hfront. rewrite Hmul in Hfront.
      bind_inv Hfront as p Hp. apply checked_mul_inv in Hp as [-> _].
      bind_inv Hfront as t Ht. apply checked_div_inv in Ht as [-> _].
      injection Hfront as Hfront.
      split; [lia|]. split; [lia|]. split; reflexivity.
    + right. bind_inv H as arbitrage Harb.
      destruct arbitrage; injection H as <- <- <-.
      * left. split; [lia|]. split; reflexivity.
      * right. split; [lia|]. split; reflexivity.
Qed.

(** X4. What [detectMEV] returns and what it logs agree. A call that
    returns no threat returns (false, UNKNOWN, 0) and emits nothing; a
    call that returns a threat returns SANDWICH or FRONTRUN and emits
    [MEVThreatDetected] first, with the caller, the feed, the type, the
    score and the block time of the verdict; [PriceAnomalyDetected] is
    emitted for a SANDWICH threat and for no other verdict. *)
Theorem detectMEV_verdict_and_events_agree :
  forall st env feedId expectedPrice txGasPrice st' ev v,
    0 <= minPriceDelta st ->
    detectMEV st env feedId expectedPrice txGasPrice = Ok (st', ev, v) ->
    (isThreat v = false -> v = mkVerdict false UNKNOWN 0 /\ ev = [])
    /\ (isThreat v = true ->
        (threatType v = SANDWICH \/ threatType v = FRONTRUN)
        /\ exists rest,
            ev = MEVThreatDetected (msg_sender env) feedId (threatType v)
                                   (riskScore v) (block_timestamp env) :: rest
            /\ (rest <> [] <-> threatType v = SANDWICH)
            /\ forall e, e ∈ rest ->
                         exists price delta,
                           e = PriceAnomalyDetected feedId expectedPrice price delta
                           /\ oracle env feedId = Some price).
Proof.
  intros st env feedId expectedPrice txGasPrice st' ev v Hdelta H.
  pose proof (detectMEV_never_ARBITRAGE _ _ _ _ _ _ _ _ Hdelta H) as Hnever.
  apply detectMEV_outcome in H.
  destruct H as (currentPrice & Horacle & Hcases). cbv zeta in Hcases.
  destruct Hcases as [(_ & -> & ->) | [(_ & avg & _ & _ & _ & -> & ->)
                     | [(_ & -> & ->) | (_ & -> & ->)]]];
    cbn [isThreat threatType riskScore] in *.
  - split; [discriminate|]. intros _. split; [left; reflexivity|].
    eexists. split; [reflexivity|]. split.
    + split; [reflexivity | discriminate].
    + intros e He. apply list_elem_of_singleton in He as ->. eauto.
  - split; [discriminate|]. intros _. split; [right; reflexivity|].
    exists []. split; [reflexivity|]. split.
    + split; [congruence | discriminate].
    + intros e He. inversion He.
  - congruence.
  - split; [auto | discriminate].
Qed.

Lemma detectMEV_verdict_and_events_agree_witness :
  (isThreat (mkVerdict true SANDWICH 505) = false ->
   mkVerdict true SANDWICH 505 = mkVerdict false UNKNOWN 0
   /\ [MEVThreatDetected admin ETH SANDWICH 505 1000;
       PriceAnomalyDetected ETH 2000 2101 101] = [])
  /\ (isThreat (mkVerdict true SANDWICH 505) = true ->
      (threatType (mkVerdict true SANDWICH 505) = SANDWICH
       \/ threatType (mkVerdict true SANDWICH 505) = FRONTRUN)
      /\ exists rest,
          [MEVThreatDetected admin ETH SANDWICH 505 1000;
           PriceAnomalyDetected ETH 2000 2101 101]
          = MEVThreatDetected (msg_sender (owner_call 1000 2101)) ETH
              (threatType (mkVerdict true SANDWICH 505))
              (riskScore (mkVerdict true SANDWICH 505))
              (block_timestamp (owner_call 1000 2101)) :: rest
          /\ (rest <> [] <-> threatType (mkVerdict true SANDWICH 505) = SANDWICH)
          /\ forall e, e ∈ rest ->
                       exists price delta,
                         e = PriceAnomalyDetected ETH 2000 price delta
                         /\ oracle (owner_call 1000 2101) ETH = Some price).
Proof.
  refine (detectMEV_verdict_and_events_agree fresh (owner_call 1000 2101) ETH 2000
            (20 * gwei) _ _ _ _ _).
  - vm_compute. discriminate.
  - vm_compute. reflexivity.
Defined.

(** X5. The risk score of a threat is above the bar that made it fire: a
    SANDWICH threat scores more than [riskThreshold], whatever the
    parameters; and, with a multiplier of at least 100, a FRONTRUN threat
    scores at least (frontRunGasMultiplier - 100) * 100 basis points (2000
    by default). *)
Theorem threat_score_above_bar :
  forall st env feedId expectedPrice txGasPrice st' ev v,
    detectMEV st env feedId expectedPrice txGasPrice = Ok (st', ev, v) ->
    (threatType v = SANDWICH -> riskThreshold st < riskScore v)
    /\ (threatType v = FRONTRUN ->
        100 <= frontRunGasMultiplier st ->
        (frontRunGasMultiplier st - 100) * 100 <= riskScore v).
Proof.
  intros st env feedId expectedPrice txGasPrice st' ev v H.
  apply detectMEV_outcome in H.
  destruct H as (currentPrice & _ & Hcases). cbv zeta in Hcases.
  destruct Hcases as [(Hs & -> & _) | [(_ & avg & _ & Hpos & Hgas & -> & _)
                     | [(_ & -> & _) | (_ & -> & _)]]];
    cbn [threatType riskScore]; split; try discriminate; intros _.
  - lia.
  - intros Hmult. apply Z.div_le_lower_bound; [lia|].
    assert (avg * frontRunGasMultiplier st
            < 100 * (avg * frontRunGasMultiplier st / 100) + 100)
      by (Z.to_euclidean_division_equations; lia).
    nia.
Qed.

(** A sandwich threat on the fresh detector (slippage 505 against a bar of
    500), and a front-run threat on the detector that has seen 20 gwei: at
    50 gwei the average is 35 gwei and the score 4285, against a bar of
    2000. *)
Lemma threat_score_above_bar_witness :
  riskThreshold fresh < riskScore (mkVerdict true SANDWICH 505)
  /\ (frontRunGasMultiplier observed - 100) * 100
     <= riskScore (mkVerdict true FRONTRUN 4285).
Proof.
  split.
  - refine (proj1 (threat_score_above_bar fresh (owner_call 1000 2101) ETH 2000
                     (20 * gwei) _ _ (mkVerdict true SANDWICH 505) _) _).
    + vm_compute. reflexivity.
    + reflexivity.
  - refine (proj2 (threat_score_above_bar observed
                     (owner_call 1010 (2000 * ether)) ETH (2000 * ether)
                     (50 * gwei) _ _ (mkVerdict true FRONTRUN 4285) _) _ _).
    + vm_compute. reflexivity.
    + reflexivity.
    + vm_compute. discriminate.
Defined.

Lemma detectMEV_at_oracle_price st env feedId txGasPrice price st' ev v :
  0 <= riskThreshold st ->
  0 <= minPriceDelta st ->
  oracle env feedId = Some price ->
  detectMEV st env feedId price txGasPrice = Ok (st', ev, v) ->
  (exists score, v = mkVerdict true FRONTRUN score)
  \/ v = mkVerdict false UNKNOWN 0.
Proof.
  intros Hthr Hdelta Horacle H.
  pose proof (detectMEV_never_ARBITRAGE _ _ _ _ _ _ _ _ Hdelta H) as Hnever.
  apply detectMEV_outcome in H.
  destruct H as (currentPrice & Horacle' & Hcases). cbv zeta in Hcases.
  rewrite Horacle in Horacle'. injection Horacle' as <-.
  rewrite Z.sub_diag in Hcases. change (Z.abs 0 * 10000) with 0 in Hcases.
  destruct Hcases as [(Hs & _) | [(_ & avg & _ & _ & _ & -> & _)
                     | [(_ & -> & _) | (_ & -> & _)]]].
  - exfalso. revert Hs. rewrite Zdiv_0_l. lia.
  - left. eauto.
  - cbn [threatType] in Hnever. congruence.
  - right. reflexivity.
Qed.

(** X6. When the expected price passed to [detectMEV] is the oracle value
    itself, as [protectSwap] passes it, the slippage is 0 and the call
    returns either a FRONTRUN threat or no threat: never a SANDWICH, never
    an ARBITRAGE threat. *)
Theorem detectMEV_at_oracle_price_only_frontrun :
  forall st env feedId txGasPrice price st' ev v,
    0 <= riskThreshold st ->
    0 <= minPriceDelta st ->
    oracle env feedId = Some price ->
    detectMEV st env feedId price txGasPrice = Ok (st', ev, v) ->
    (exists score, v = mkVerdict true FRONTRUN score)
    \/ v = mkVerdict false UNKNOWN 0.
Proof.
  intros st env feedId txGasPrice price st' ev v.
  apply detectMEV_at_oracle_price.
Qed.

Lemma detectMEV_at_oracle_price_only_frontrun_witness :
  (exists score, mkVerdict false UNKNOWN 0 = mkVerdict true FRONTRUN score)
  \/ mkVerdict false UNKNOWN 0 = mkVerdict false UNKNOWN 0.
Proof.
  refine (detectMEV_at_oracle_price_only_frontrun observed
            (owner_call 1010 (2100 * ether)) ETH (20 * gwei) (2100 * ether)
            _ [] _ _ _ _ _).
  - vm_compute. discriminate.
  - vm_compute. discriminate.
  - reflexivity.
  - vm_compute. reflexivity.
Defined.

Lemma updateGasHistory_with_parameters st g t d m :
  _updateGasHistory (with_parameters st t d m) g
  = st' ← _updateGasHistory st g ; Ok (with_parameters st' t d m).
Proof.
  unfold _updateGasHistory. cbn [gasHistory gasHistoryIndex with_parameters].
  destruct (array_set _ _ _) as [h|e]; [|reflexivity]. run.
  destruct (checked_add _ _) as [n|e]; [|reflexivity]. run.
  destruct (checked_mod _ _) as [i|e]; reflexivity.
Qed.

Lemma getAverageGasPrice_with_parameters st t d m :
  _getAverageGasPrice (with_parameters st t d m) = _getAverageGasPrice st.
Proof. reflexivity. Qed.

(** X7. [minPriceDelta] is read by the arbitrage detector only, which
    never fires inside [detectMEV]: after the owner has set it to any
    value, every call of [detectMEV] returns the verdict and emits the
    events it would have returned and emitted before. Callers other than
    the owner cannot set it. *)
Theorem setMinPriceDelta_changes_no_verdict :
  forall st env newDelta,
    0 <= minPriceDelta st ->
    0 <= newDelta ->
    (msg_sender env <> owner st ->
     setMinPriceDelta st env newDelta
     = Err (Revert "Ownable: caller is not the owner"))
    /\ (msg_sender env = owner st ->
        exists st2,
          setMinPriceDelta st env newDelta
          = Ok (st2, [ConfigurationUpdated "minPriceDelta" (minPriceDelta st) newDelta])
          /\ minPriceDelta st2 = newDelta
          /\ forall env' feedId expectedPrice txGasPrice,
              observable (detectMEV st2 env' feedId expectedPrice txGasPrice)
              = observable (detectMEV st env' feedId expectedPrice txGasPrice)).
Proof.
  intros st env newDelta Hold Hnew. split.
  - intros Hne. unfold setMinPriceDelta, onlyOwner, require.
    apply Z.eqb_neq in Hne. rewrite Hne. reflexivity.
  - intros Hown. unfold setMinPriceDelta. rewrite (onlyOwner_Ok _ _ Hown). run.
    eexists. split; [reflexivity|]. split; [reflexivity|].
    intros env' feedId expectedPrice txGasPrice.
    set (t := riskThreshold st). set (m := frontRunGasMultiplier st).
    unfold observable, detectMEV, onlyOwner. cbn [owner with_parameters].
    destruct (require _ _) as [u|e]; [|reflexivity]. run.
    destruct (getOracleNumericValueFromTxMsg env' feedId) as [price|e];
      [|reflexivity]. run.
    destruct (if price >? expectedPrice then _ else _) as [delta|e];
      [|reflexivity]. run.
    destruct (checked_mul delta 10000) as [p|e]; [|reflexivity]. run.
    destruct (checked_div p expectedPrice) as [slippage|e]; [|reflexivity]. run.
    change (set_price (with_parameters st t newDelta m) feedId price
                      (block_timestamp env'))
      with (with_parameters (set_price st feedId price (block_timestamp env'))
                            t newDelta m).
    rewrite updateGasHistory_with_parameters.
    destruct (_updateGasHistory (set_price st feedId price (block_timestamp env'))
                                txGasPrice) as [st2|e] eqn:Hgas; [|reflexivity].
    run. cbn [riskThreshold with_parameters].
    assert (Hthr : riskThreshold st2 = t).
    { apply updateGasHistory_inv in Hgas as [-> _]. reflexivity. }
    assert (Hmul : frontRunGasMultiplier st2 = m).
    { apply updateGasHistory_inv in Hgas as [-> _]. reflexivity. }
    assert (Hd : minPriceDelta st2 = minPriceDelta st).
    { apply updateGasHistory_inv in Hgas as [-> _]. reflexivity. }
    rewrite Hthr.
    destruct (slippage >? t); [reflexivity|].
    rewrite getAverageGasPrice_with_parameters.
    destruct (_getAverageGasPrice st2) as [avg|e]; [|reflexivity]. run.
    assert (Hfront : forall a,
               _detectFrontRunning (with_parameters st2 t newDelta m) txGasPrice a
               = _detectFrontRunning st2 txGasPrice a).
    { intros a. unfold _detectFrontRunning.
      cbn [frontRunGasMultiplier with_parameters]. rewrite Hmul. reflexivity. }
    rewrite Hfront.
    destruct (if avg >? 0 then _ else _) as [[|]|e]; [| |reflexivity]; run.
    + destruct (checked_sub txGasPrice avg) as [d|e]; [|reflexivity]. run.
      destruct (checked_mul d 10000) as [n|e]; [|reflexivity]. run.
      destruct (checked_div n avg) as [score|e]; reflexivity.
    + assert (Hprice : mget (lastPrices st2) feedId = price
                       /\ mget (lastUpdateTimestamp st2) feedId = block_timestamp env').
      { apply updateGasHistory_inv in Hgas as [-> _].
        cbn [lastPrices lastUpdateTimestamp set_gas set_price].
        split; apply mget_insert_eq. }
      destruct Hprice as [Hp Ht].
      rewrite (detectArbitragePattern_after_write st2 env' feedId price)
        by (assumption || (rewrite Hd; exact Hold)).
      rewrite (detectArbitragePattern_after_write
                 (with_parameters st2 t newDelta m) env' feedId price)
        by (assumption || exact Hnew).
      reflexivity.
Qed.

Lemma setMinPriceDelta_changes_no_verdict_witness :
  (msg_sender (owner_call 1000 2000) <> owner fresh ->
   setMinPriceDelta fresh (owner_call 1000 2000) 1
   = Err (Revert "Ownable: caller is not the owner"))
  /\ (msg_sender (owner_call 1000 2000) = owner fresh ->
      exists st2,
        setMinPriceDelta fresh (owner_call 1000 2000) 1
        = Ok (st2, [ConfigurationUpdated "minPriceDelta" (minPriceDelta fresh) 1])
        /\ minPriceDelta st2 = 1
        /\ forall env' feedId expectedPrice txGasPrice,
            observable (detectMEV st2 env' feedId expectedPrice txGasPrice)
            = observable (detectMEV fresh env' feedId expectedPrice txGasPrice)).
Proof.
  apply (setMinPriceDelta_changes_no_verdict fresh (owner_call 1000 2000) 1).
  - vm_compute. discriminate.
  - lia.
Defined.

(** X8. The multiplier is not validated: the owner may set any value, and
    with a multiplier below 100 the cold-start protection is gone. On a
    history without samples, a call with a positive gas price that is no
    sandwich threat then returns a FRONTRUN threat, of score 0: the
    call's own sample is the whole average, and it exceeds
    average * multiplier / 100. *)
Theorem low_multiplier_fires_on_cold_start :
  (forall st env newMultiplier,
      msg_sender env = owner st ->
      exists st2 ev,
        setFrontRunGasMultiplier st env newMultiplier = Ok (st2, ev)
        /\ frontRunGasMultiplier st2 = newMultiplier
        /\ gasHistory st2 = gasHistory st)
  /\ (forall st env feedId expectedPrice txGasPrice currentPrice,
         length (gasHistory st) = 100%nat ->
         0 <= gasHistoryIndex st < 100 ->
         Forall (fun g => g = 0) (gasHistory st) ->
         0 <= frontRunGasMultiplier st < 100 ->
         msg_sender env = owner st ->
         oracle env feedId = Some currentPrice ->
         0 < expectedPrice ->
         Z.abs (currentPrice - expectedPrice) * 10000 <= MAX_UINT256 ->
         Z.abs (currentPrice - expectedPrice) * 10000 / expectedPrice
         <= riskThreshold st ->
         0 < txGasPrice ->
         txGasPrice * 100 <= MAX_UINT256 ->
         exists st',
           detectMEV st env feedId expectedPrice txGasPrice
           = Ok (st',
                 [MEVThreatDetected (msg_sender env) feedId FRONTRUN 0
                                    (block_timestamp env)],
                 mkVerdict true FRONTRUN 0)).
Proof.
  split.
  - intros st env newMultiplier Hown. unfold setFrontRunGasMultiplier.
    rewrite (onlyOwner_Ok _ _ Hown). run. do 2 eexists.
    split; [reflexivity|]. split; reflexivity.
  - intros st env feedId expectedPrice txGasPrice currentPrice
           Hlen Hidx Hzero Hmult Hown Horacle Hpos Hfit Hquiet Hgas Hroom.
    unfold detectMEV.
    rewrite (onlyOwner_Ok _ _ Hown). run.
    rewrite (oracle_Ok _ _ _ Horacle). run.
    rewrite abs_diff_Ok. run.
    rewrite (checked_mul_Ok _ 10000 Hfit). run.
    rewrite (checked_div_Ok _ expectedPrice) by lia. run.
    rewrite updateGasHistory_Ok by assumption. run.
    set (st2 := set_gas _ _ _).
    replace (_ >? riskThreshold st2) with false
      by (symmetry; rewrite Z.gtb_ltb; apply Z.ltb_ge; exact Hquiet).
    assert (Havg : _getAverageGasPrice st2 = Ok txGasPrice).
    { rewrite getAverageGasPrice_eq
        by (unfold st2; cbn [gasHistory set_gas set_price];
            rewrite length_insert; exact Hlen).
      unfold st2. cbn [gasHistory gasHistoryIndex set_gas set_price].
      rewrite (populated_first_sample _ _ txGasPrice Hzero) by (rewrite Hlen; lia).
      destruct (decide (0 < txGasPrice)) as [_|Hno]; [|lia].
      cbn [Zsum foldr mean length]. rewrite Z.add_0_r.
      replace (txGasPrice <=? MAX_UINT256) with true
        by (symmetry; apply Z.leb_le; lia).
      rewrite Z.div_1_r. reflexivity. }
    rewrite Havg. run.
    replace (txGasPrice >? 0) with true
      by (symmetry; rewrite Z.gtb_ltb; apply Z.ltb_lt; exact Hgas).
    unfold _detectFrontRunning.
    change (frontRunGasMultiplier st2) with (frontRunGasMultiplier st).
    rewrite (checked_mul_Ok txGasPrice (frontRunGasMultiplier st)) by nia. run.
    rewrite (checked_div_Ok _ 100) by lia. run.
    replace (txGasPrice >? txGasPrice * frontRunGasMultiplier st / 100) with true.
    2:{ symmetry. rewrite Z.gtb_ltb. apply Z.ltb_lt.
        apply Z.div_lt_upper_bound; [lia | nia]. }
    rewrite (checked_sub_Ok txGasPrice txGasPrice) by lia. run.
    rewrite Z.sub_diag.
    rewrite (checked_mul_Ok 0 10000) by (pose proof MAX_UINT256_pos; lia). run.
    rewrite (checked_div_Ok (0 * 10000) txGasPrice) by lia. run.
    change (0 * 10000) with 0. rewrite Zdiv_0_l.
    eexists. reflexivity.
Qed.

Lemma low_multiplier_fires_on_cold_start_witness :
  (exists st2 ev,
      setFrontRunGasMultiplier fresh (owner_call 1000 2000) 50 = Ok (st2, ev)
      /\ frontRunGasMultiplier st2 = 50
      /\ gasHistory st2 = gasHistory fresh)
  /\ exists st',
      detectMEV (with_parameters fresh 500 100 50) (owner_call 1000 2000) ETH
                2000 (20 * gwei)
      = Ok (st',
            [MEVThreatDetected (msg_sender (owner_call 1000 2000)) ETH FRONTRUN 0
                               (block_timestamp (owner_call 1000 2000))],
            mkVerdict true FRONTRUN 0).
Proof.
  split.
  - apply (proj1 low_multiplier_fires_on_cold_start). reflexivity.
  - apply (proj2 low_multiplier_fires_on_cold_start
                 (with_parameters fresh 500 100 50) (owner_call 1000 2000) ETH
                 2000 (20 * gwei) 2000).
    + reflexivity.
    + vm_compute. split; [discriminate | reflexivity].
    + apply Forall_forall. intros x Hx.
      apply elem_of_replicate in Hx as [-> _]. reflexivity.
    + vm_compute. split; [discriminate | reflexivity].
    + reflexivity.
    + reflexivity.
    + lia.
    + vm_compute. discriminate.
    + vm_compute. discriminate.
    + vm_compute. reflexivity.
    + vm_compute. discriminate.
Defined.

End DetectorExtras.

(** ** More on the decision engine: guards, books, calls *)

Section ProtectionExtras.
Import MEVProtectorAdvanced ProtectorAdmin Protection SwapEffects Lifecycle
       Examples Scenarios.

Lemma require_inv c msg u : require c msg = Ok u -> c = true.
Proof. destruct c; [reflexivity | discriminate]. Qed.

Lemma stats_of_with_stats_ne st user g u v :
  v <> user -> stats_of (with_stats st user g u) v = stats_of st v.
Proof.
  intros Hne. unfold stats_of. cbn [userStats with_stats].
  rewrite lookup_insert_ne by congruence. reflexivity.
Qed.

Lemma bump_bump s a b c d e a' b' c' d' e' :
  bump (bump s a b c d e) a' b' c' d' e'
  = bump s (a + a') (b + b') (c + c') (d + d') (e + e').
Proof. unfold bump. cbn [totalProtectedSwaps threatsDetected threatsBlocked totalValueProtected feesCollected]. f_equal; lia. Qed.

Lemma bump_0 s : bump s 0 0 0 0 0 = s.
Proof. destruct s. unfold bump. cbn. f_equal; lia. Qed.

Lemma count_swap_inv s s' : count_swap s = Ok s' -> s' = bump s 1 0 0 0 0.
Proof.
  unfold count_swap. intros H. bind_inv H as n Hn.
  apply checked_add_inv in Hn as [-> _]. injection H as <-.
  unfold bump. rewrite !Z.add_0_r. reflexivity.
Qed.

Lemma count_detected_inv s s' : count_detected s = Ok s' -> s' = bump s 0 1 0 0 0.
Proof.
  unfold count_detected. intros H. bind_inv H as n Hn.
  apply checked_add_inv in Hn as [-> _]. injection H as <-.
  unfold bump. rewrite !Z.add_0_r. reflexivity.
Qed.

Lemma count_blocked_inv s s' : count_blocked s = Ok s' -> s' = bump s 0 0 1 0 0.
Proof.
  unfold count_blocked. intros H. bind_inv H as n Hn.
  apply checked_add_inv in Hn as [-> _]. injection H as <-.
  unfold bump. rewrite !Z.add_0_r. reflexivity.
Qed.

Lemma add_value_inv s v s' : add_value s v = Ok s' -> s' = bump s 0 0 0 v 0.
Proof.
  unfold add_value. intros H. bind_inv H as n Hn.
  apply checked_add_inv in Hn as [-> _]. injection H as <-.
  unfold bump. rewrite !Z.add_0_r. reflexivity.
Qed.

Lemma add_fees_inv s v s' : add_fees s v = Ok s' -> s' = bump s 0 0 0 0 v.
Proof.
  unfold add_fees. intros H. bind_inv H as n Hn.
  apply checked_add_inv in Hn as [-> _]. injection H as <-.
  unfold bump. rewrite !Z.add_0_r. reflexivity.
Qed.

Lemma update_both_inv w user f w' :
  update_both w user f = Ok w' ->
  exists g u,
    f (globalStats (protector w)) = Ok g
    /\ f (stats_of (protector w) user) = Ok u
    /\ w' = with_protector w (with_stats (protector w) user g u).
Proof.
  unfold update_both. intros H. bind_inv H as g Hg. bind_inv H as u Hu.
  injection H as <-. eauto.
Qed.

Lemma update_global_inv w f w' :
  update_global w f = Ok w' ->
  exists g,
    f (globalStats (protector w)) = Ok g
    /\ w' = with_protector w
              (mkState (this (protector w)) (treasury (protector w))
                       (protectionFee (protector w))
                       (maxProtectionFee (protector w))
                       (userConfigs (protector w)) (userStats (protector w))
                       (whitelistedTokens (protector w))
                       (priceDelays (protector w)) g).
Proof.
  unfold update_global. intros H. bind_inv H as g Hg.
  injection H as <-. eauto.
Qed.

Lemma update_user_inv w user f w' :
  update_user w user f = Ok w' ->
  exists u,
    f (stats_of (protector w) user) = Ok u
    /\ w' = with_protector w
              (with_stats (protector w) user (globalStats (protector w)) u).
Proof.
  unfold update_user. intros H. bind_inv H as u Hu.
  injection H as <-. eauto.
Qed.

Lemma collectProtectionFee_inv w env amount w' fee :
  _collectProtectionFee w env amount = Ok (w', fee) ->
  fee = amount * protectionFee (protector w) / 10000
  /\ w' = mkWorld (protector w) (detector w) (events w)
                  (calls w ++ (if msg_value env >=? fee
                               then [SendValue (treasury (protector w)) fee]
                               else [])).
Proof.
  unfold _collectProtectionFee. intros H.
  bind_inv H as m Hm. apply checked_mul_inv in Hm as [-> _].
  bind_inv H as f Hf. apply checked_div_inv in Hf as [-> _].
  bind_inv H as w1 Hpay. injection H as <- <-. split; [reflexivity|].
  destruct (msg_value env >=? _).
  - apply external_call_inv in Hpay as [_ ->]. reflexivity.
  - injection Hpay as <-. rewrite app_nil_r. destruct w; reflexivity.
Qed.

Lemma guards_inv w env params (k : result (World * (bool * Z))) r :
  (require (deadline params >=? block_timestamp env) "Swap expired" ;;
   require (amountIn params >? 0) "Invalid amount" ;;
   require (isActive (config_of (protector w) (msg_sender env)))
           "Protection not configured" ;;
   (if whitelistMode (config_of (protector w) (msg_sender env)) then
      require (whitelisted (protector w) (tokenIn params))
              "Token not whitelisted" ;;
      require (whitelisted (protector w) (tokenOut params))
              "Token not whitelisted"
    else Ok tt) ;;
   k) = Ok r ->
  guards_pass w env params /\ k = Ok r.
Proof.
  intros H.
  bind_inv H as u1 H1. apply require_inv in H1.
  bind_inv H as u2 H2. apply require_inv in H2.
  bind_inv H as u3 H3. apply require_inv in H3.
  bind_inv H as u4 H4.
  split; [|exact H].
  unfold guards_pass. cbv zeta.
  split; [lia|]. split; [lia|]. split; [exact H3|].
  intros Hmode. rewrite Hmode in H4.
  bind_inv H4 as u5 H5. apply require_inv in H5. apply require_inv in H4.
  split; assumption.
Qed.

(** The world [_executeSwap] leaves, and the result it returns. *)
Lemma executeSwap_Ok_world w env params config w' r :
  0 <= maxSlippage config ->
  _executeSwap w env params config = Ok (w', r) ->
  exists currentPrice,
    oracle env (pricefeedId params) = Some currentPrice
    /\ ((swap_output params currentPrice <? minAmountOut params) = true
        /\ r = mkSwapResult RefundBelowMinimum false 0
        /\ w' = mkWorld (protector w) (detector w) (events w)
                  (calls w
                   ++ [TransferFrom (tokenIn params) (msg_sender env)
                                    (this (protector w)) (amountIn params);
                       Transfer (tokenIn params) (msg_sender env)
                                (amountIn params)])
        \/ (swap_output params currentPrice <? minAmountOut params) = false
           /\ r = mkSwapResult MEVProtectorAdvanced.Swapped true
                               (swap_output params currentPrice)
           /\ w' = mkWorld (protector w) (detector w) (events w)
                     (calls w
                      ++ [TransferFrom (tokenIn params) (msg_sender env)
                                       (this (protector w)) (amountIn params)])).
Proof.
  intros Hmax H. unfold _executeSwap in H.
  bind_inv H as w1 Hpull. apply external_call_inv in Hpull as [_ ->].
  bind_inv H as currentPrice Hprice.
  unfold MEVDetector.getCurrentPrice in Hprice. apply oracle_inv in Hprice.
  cbn [detector_env MEVDetector.oracle protector] in Hprice.
  bind_inv H as m Hm. pose proof Hm as Hm'.
  apply checked_mul_inv in Hm as [-> Hfit].
  bind_inv H as out Hout. apply checked_div_inv in Hout as [-> _].
  exists currentPrice. split; [exact Hprice|].
  fold (swap_output params currentPrice) in H |- *.
  destruct (swap_output params currentPrice <? minAmountOut params).
  - bind_inv H as w2 Hrefund. apply external_call_inv in Hrefund as [_ ->].
    injection H as <- <-. left. cbn [calls protector detector events].
    rewrite <- app_assoc. repeat split; reflexivity.
  - rewrite Hm' in H. run in H.
    rewrite checked_div_Ok in H by lia. run in H.
    fold (swap_output params currentPrice) in H.
    rewrite swap_slippage_self in H. run in H.
    replace (0 >? maxSlippage config) with false in H
      by (symmetry; rewrite Z.gtb_ltb; apply Z.ltb_ge; exact Hmax).
    injection H as <- <-. right. repeat split; reflexivity.
Qed.

Lemma bump_eq s a b c d e a' b' c' d' e' :
  a = a' -> b = b' -> c = c' -> d = d' -> e = e' ->
  bump s a b c d e = bump s a' b' c' d' e'.
Proof. intros. subst. reflexivity. Qed.

(** Read the fields of a world written as a chain of updates. *)
Ltac fields :=
  cbn [andb blocking returned emitted made_calls
       detector events calls protector emit with_protector with_detector
       with_stats with_delay this treasury protectionFee maxProtectionFee
       userConfigs userStats whitelistedTokens priceDelays globalStats].

Ltac fields_in H :=
  cbn [detector events calls protector emit with_protector with_detector
       with_stats with_delay this treasury protectionFee maxProtectionFee
       userConfigs userStats whitelistedTokens priceDelays globalStats] in H.

Ltac books :=
  fields; unfold same_settings, counted, fee_of, _estimateUSDValue, stats_of;
  fields; rewrite ?lookup_insert_eq; cbn [from_option id];
  rewrite ?bump_bump, <- ?app_assoc, ?app_nil_r;
  repeat match goal with
         | |- _ /\ _ => split
         | |- forall v, v <> _ -> _ =>
             let Hv := fresh "Hv" in
             intros ? Hv; rewrite ?lookup_insert_ne by congruence
         | |- bump _ _ _ _ _ _ = bump _ _ _ _ _ _ => apply bump_eq; lia
         | |- ?a = ?b => constr_eq a b; reflexivity
         end.

(** The part of [protectSwap] after the strategy let the swap through. *)
Ltac swap_tail H Hmax Hprice :=
  let wr := fresh "wr" in let Hswap := fresh "Hswap" in
  let w3 := fresh "w3" in let r := fresh "r" in
  let price' := fresh "price'" in let Hprice' := fresh "Hprice'" in
  let Hlt := fresh "Hlt" in
  bind_inv H as wr Hswap; destruct wr as [w3 r]; cbv beta iota in H;
  apply (executeSwap_Ok_world _ _ _ _ _ _ Hmax) in Hswap;
  destruct Hswap as (price' & Hprice' & Hswap);
  rewrite Hprice in Hprice'; injection Hprice' as <-;
  destruct Hswap as [(Hlt & -> & ->) | (Hlt & -> & ->)];
  rewrite Hlt; cbn [success amountOut] in H;
  [ run in H; injection H as <- <- <-; books
  | let w6 := fresh "w6" in let Hfee := fresh "Hfee" in
    let wf := fresh "wf" in let Hcollect := fresh "Hcollect" in
    let w4 := fresh "w4" in let feeAmount := fresh "feeAmount" in
    let w4a := fresh "w4a" in let Ha := fresh "Ha" in
    let w4b := fresh "w4b" in let Hb := fresh "Hb" in
    let w4c := fresh "w4c" in let Hc := fresh "Hc" in
    let w5 := fresh "w5" in let Hd := fresh "Hd" in
    let ga := fresh "ga" in let Hga := fresh "Hga" in
    let gb := fresh "gb" in let Hgb := fresh "Hgb" in
    let uc := fresh "uc" in let Huc := fresh "Huc" in
    let ud := fresh "ud" in let Hud := fresh "Hud" in
    bind_inv H as w6 Hfee; injection H as <- <- <-;
    bind_inv Hfee as wf Hcollect; destruct wf as [w4 feeAmount];
    cbv beta iota in Hfee;
    apply collectProtectionFee_inv in Hcollect as [-> ->];
    fields_in Hfee;
    bind_inv Hfee as w4a Ha;
    apply update_global_inv in Ha as (ga & Hga & ->);
    fields_in Hga; fields_in Hfee;
    apply add_value_inv in Hga; subst ga;
    bind_inv Hfee as w4b Hb;
    apply update_global_inv in Hb as (gb & Hgb & ->);
    fields_in Hgb; fields_in Hfee;
    apply add_fees_inv in Hgb; subst gb;
    bind_inv Hfee as w4c Hc;
    apply update_user_inv in Hc as (uc & Huc & ->);
    unfold stats_of in Huc; fields_in Huc; fields_in Hfee;
    apply add_value_inv in Huc; subst uc;
    bind_inv Hfee as w5 Hd;
    apply update_user_inv in Hd as (ud & Hud & ->);
    unfold stats_of in Hud; fields_in Hud; fields_in Hfee;
    apply add_fees_inv in Hud; subst ud;
    injection Hfee as <-;
    books; cbn [app] ].

(** Everything a call of [protectSwap] that returns went through, and
    everything it left behind. *)
Lemma protectSwap_Ok_inv w env params w' ok out :
  0 <= maxSlippage (config_of (protector w) (msg_sender env)) ->
  protectSwap w env params = Ok (w', (ok, out)) ->
  guards_pass w env params
  /\ exists price d devents verdict,
      oracle env (pricefeedId params) = Some price
      /\ MEVDetector.detectMEV (detector w) (detector_env w env)
           (pricefeedId params) price (tx_gasprice env)
         = Ok (d, devents, verdict)
      /\ let sender := msg_sender env in
         let config := config_of (protector w) sender in
         let o := outcome config verdict params price in
         let threat := MEVDetector.isThreat verdict in
         (ok, out) = returned o params price
         /\ detector w' = d
         /\ events w'
            = events w ++ map DetectorEvent devents
              ++ emitted w env params verdict price o
         /\ calls w' = calls w ++ made_calls w env params o
         /\ same_settings (protector w) (protector w')
         /\ globalStats (protector w')
            = counted (globalStats (protector w)) threat o
                      (amountIn params) (fee_of w params)
         /\ stats_of (protector w') sender
            = counted (stats_of (protector w) sender) threat o
                      (amountIn params) (fee_of w params)
         /\ (forall v, v <> sender ->
               stats_of (protector w') v = stats_of (protector w) v)
         /\ match o, strategy config with
            | Blocked, DELAY =>
                exists delayTime,
                  _calculateDelay (MEVDetector.threatType verdict)
                                  (MEVDetector.riskScore verdict)
                  = Ok delayTime
                  /\ priceDelays (protector w')
                     = <[pricefeedId params := block_timestamp env + delayTime]>
                         (priceDelays (protector w))
            | _, _ => priceDelays (protector w') = priceDelays (protector w)
            end.
Proof.
  intros Hmax H. unfold protectSwap in H. cbv zeta in H.
  apply guards_inv in H as [Hguards H]. split; [exact Hguards|].
  bind_inv H as price Hprice.
  unfold _calculateExpectedPrice, MEVDetector.getCurrentPrice in Hprice.
  apply oracle_inv in Hprice. cbn [detector_env MEVDetector.oracle] in Hprice.
  bind_inv H as dv Hdetect. destruct dv as [[d devents] verdict].
  cbv beta iota in H.
  exists price, d, devents, verdict.
  split; [exact Hprice|]. split; [exact Hdetect|]. cbv zeta.
  bind_inv H as w1 H1.
  apply update_both_inv in H1 as (g1 & u1 & Hg1 & Hu1 & ->).
  apply count_swap_inv in Hg1, Hu1.
  cbn [protector emit with_detector globalStats] in Hg1, Hu1. subst g1 u1.
  bind_inv H as wb Hstrategy. destruct wb as [w2 blocked].
  cbv beta iota in H.
  unfold outcome.
  destruct (MEVDetector.isThreat verdict) eqn:Hthreat.
  - bind_inv Hstrategy as wd Hd.
    apply update_both_inv in Hd as (g2 & u2 & Hg2 & Hu2 & ->).
    apply count_detected_inv in Hg2, Hu2.
    cbn [protector emit with_detector with_protector globalStats with_stats]
      in Hg2, Hu2.
    rewrite stats_of_with_stats in Hu2. subst g2 u2.
    destruct (strategy (config_of (protector w) (msg_sender env))) eqn:Hs;
      cbn [_applyProtectionStrategy] in Hstrategy.
    + injection Hstrategy as <- <-.
      bind_inv H as w3 H3.
      apply update_both_inv in H3 as (g3 & u3 & Hg3 & Hu3 & ->).
      apply count_blocked_inv in Hg3, Hu3.
      cbn [protector emit with_detector with_protector globalStats with_stats]
        in Hg3, Hu3.
      rewrite stats_of_with_stats in Hu3. subst g3 u3.
      injection H as <- <- <-. books. rewrite Hs. reflexivity.
    + injection Hstrategy as <- <-.
      swap_tail H Hmax Hprice; rewrite ?Hs; reflexivity.
    + bind_inv Hstrategy as delayTime Hdelay.
      bind_inv Hstrategy as t Ht. apply checked_add_inv in Ht as [-> _].
      injection Hstrategy as <- <-.
      bind_inv H as w3 H3.
      apply update_both_inv in H3 as (g3 & u3 & Hg3 & Hu3 & ->).
      apply count_blocked_inv in Hg3, Hu3.
      cbn [protector emit with_detector with_protector globalStats with_stats
           with_delay userStats] in Hg3, Hu3.
      subst g3 u3. injection H as <- <- <-. books.
      * rewrite Hs. reflexivity.
      * exists delayTime. split; [exact Hdelay | reflexivity].
    + injection Hstrategy as <- <-.
      swap_tail H Hmax Hprice; rewrite ?Hs; reflexivity.
  - injection Hstrategy as <- <-.
    swap_tail H Hmax Hprice; reflexivity.
Qed.

Lemma config_of_with_config st user c :
  config_of (with_config st user c) user = c.
Proof.
  unfold config_of. cbn [userConfigs with_config].
  rewrite lookup_insert_eq. reflexivity.
Qed.

Lemma config_of_with_config_ne st user c other :
  other <> user -> config_of (with_config st user c) other = config_of st other.
Proof.
  intros Hne. unfold config_of. cbn [userConfigs with_config].
  rewrite lookup_insert_ne by congruence. reflexivity.
Qed.

Lemma admin_onlyOwner_Ok contract_owner env :
  msg_sender env = contract_owner ->
  ProtectorAdmin.onlyOwner contract_owner env = Ok tt.
Proof.
  intros H. unfold ProtectorAdmin.onlyOwner.
  apply require_Ok. apply Z.eqb_eq. exact H.
Qed.

Lemma admin_onlyOwner_Err {A : Type} contract_owner env (k : result A) :
  msg_sender env <> contract_owner ->
  (ProtectorAdmin.onlyOwner contract_owner env ;; k)
  = Err (Revert "Ownable: caller is not the owner").
Proof.
  intros H. unfold ProtectorAdmin.onlyOwner.
  apply Z.eqb_neq in H. rewrite H. reflexivity.
Qed.

(** X9. [configureProtection] accepts exactly a maximum slippage of at most
    1000 basis points with a gas limit of at least 100000, and names the
    bound that failed, the slippage first. What it accepts can be read
    back with [getUserConfig], active; the configurations of the other
    users, the statistics, the detector and the calls made are untouched,
    and the one event emitted is [ConfigurationUpdated]. *)
Theorem configureProtection_round_trip :
  forall w env strategy maxSlippage gasLimit whitelistMode,
    (maxSlippage <= 1000 -> 100000 <= gasLimit ->
     exists w',
       configureProtection w env strategy maxSlippage gasLimit whitelistMode
       = Ok w'
       /\ getUserConfig w' (msg_sender env)
          = mkConfig true strategy maxSlippage gasLimit whitelistMode
       /\ (forall other, other <> msg_sender env ->
             getUserConfig w' other = getUserConfig w other)
       /\ (forall user, getUserStats w' user = getUserStats w user)
       /\ getGlobalStats w' = getGlobalStats w
       /\ detector w' = detector w
       /\ calls w' = calls w
       /\ events w'
          = events w ++ [ConfigurationUpdated (msg_sender env) strategy maxSlippage])
    /\ (1000 < maxSlippage ->
        configureProtection w env strategy maxSlippage gasLimit whitelistMode
        = Err (Revert "Slippage too high"))
    /\ (maxSlippage <= 1000 -> gasLimit < 100000 ->
        configureProtection w env strategy maxSlippage gasLimit whitelistMode
        = Err (Revert "Gas limit too low")).
Proof.
  intros w env strategy maxSlippage gasLimit whitelistMode.
  unfold configureProtection. split; [|split].
  - intros Hs Hg.
    rewrite (require_Ok (maxSlippage <=? 1000)) by (apply Z.leb_le; exact Hs).
    run.
    rewrite (require_Ok (gasLimit >=? 100000))
      by (rewrite Z.geb_leb; apply Z.leb_le; exact Hg).
    run. eexists. split; [reflexivity|].
    unfold getUserConfig, getUserStats, getGlobalStats.
    cbn [protector emit with_protector detector calls events].
    split; [apply config_of_with_config|].
    split; [intros other Hne; apply config_of_with_config_ne; exact Hne|].
    repeat split; reflexivity.
  - intros Hs.
    replace (maxSlippage <=? 1000) with false
      by (symmetry; apply Z.leb_gt; exact Hs).
    reflexivity.
  - intros Hs Hg.
    rewrite (require_Ok (maxSlippage <=? 1000)) by (apply Z.leb_le; exact Hs).
    run.
    replace (gasLimit >=? 100000) with false
      by (symmetry; rewrite Z.geb_leb; apply Z.leb_gt; exact Hg).
    reflexivity.
Qed.

Lemma configureProtection_round_trip_witness :
  (exists w',
      configureProtection deployed calm DELAY 300 200000 true = Ok w'
      /\ getUserConfig w' (msg_sender calm) = mkConfig true DELAY 300 200000 true
      /\ (forall other, other <> msg_sender calm ->
            getUserConfig w' other = getUserConfig deployed other)
      /\ (forall user, getUserStats w' user = getUserStats deployed user)
      /\ getGlobalStats w' = getGlobalStats deployed
      /\ detector w' = detector deployed
      /\ calls w' = calls deployed
      /\ events w'
         = events deployed ++ [ConfigurationUpdated (msg_sender calm) DELAY 300])
  /\ configureProtection deployed calm DELAY 1001 200000 true
     = Err (Revert "Slippage too high")
  /\ configureProtection deployed calm DELAY 300 99999 true
     = Err (Revert "Gas limit too low").
Proof.
  split; [|split].
  - apply (proj1 (configureProtection_round_trip deployed calm DELAY 300 200000 true));
      lia.
  - apply (proj1 (proj2 (configureProtection_round_trip deployed calm DELAY 1001
                           200000 true))).
    lia.
  - apply (proj2 (proj2 (configureProtection_round_trip deployed calm DELAY 300
                           99999 true)));
      lia.
Defined.

(** X10. An emergency stop is not sticky. The owner's [emergencyStop]
    clears the user's active flag and nothing else of the entry, so that
    the user's next [protectSwap] with a live deadline and a positive
    amount is refused as not configured; but nothing records the stop, and
    the user's own next [configureProtection] makes the entry active
    again. Callers other than the owner cannot stop anyone. *)
Theorem emergencyStop_lifted_by_reconfiguring :
  forall contract_owner w env user reason,
    (msg_sender env <> contract_owner ->
     emergencyStop contract_owner w env user reason
     = Err (Revert "Ownable: caller is not the owner"))
    /\ (msg_sender env = contract_owner ->
        exists w1,
          emergencyStop contract_owner w env user reason
          = Ok (w1, [EmergencyStop user reason])
          /\ getUserConfig w1 user
             = mkConfig false (strategy (getUserConfig w user))
                        (maxSlippage (getUserConfig w user))
                        (gasLimit (getUserConfig w user))
                        (whitelistMode (getUserConfig w user))
          /\ (forall other, other <> user ->
                getUserConfig w1 other = getUserConfig w other)
          /\ (forall env1 params,
                msg_sender env1 = user ->
                block_timestamp env1 <= deadline params ->
                0 < amountIn params ->
                protectSwap w1 env1 params
                = Err (Revert "Protection not configured"))
          /\ (forall env1 strategy maxSlippage gasLimit whitelistMode,
                msg_sender env1 = user ->
                maxSlippage <= 1000 -> 100000 <= gasLimit ->
                exists w2,
                  configureProtection w1 env1 strategy maxSlippage gasLimit
                                      whitelistMode = Ok w2
                  /\ isActive (getUserConfig w2 user) = true)).
Proof.
  intros contract_owner w env user reason. split.
  - intros Hne. unfold emergencyStop. apply admin_onlyOwner_Err. exact Hne.
  - intros Hown. unfold emergencyStop.
    rewrite (admin_onlyOwner_Ok _ _ Hown). run. cbv zeta.
    eexists. split; [reflexivity|].
    unfold getUserConfig. cbn [protector with_protector].
    split; [apply config_of_with_config|].
    split; [intros other Hne; apply config_of_with_config_ne; exact Hne|].
    split.
    + intros env1 params Hsender Hdeadline Hamount.
      unfold protectSwap. cbv zeta.
      rewrite (require_Ok (deadline params >=? block_timestamp env1))
        by (rewrite Z.geb_leb; apply Z.leb_le; exact Hdeadline).
      run.
      rewrite (require_Ok (amountIn params >? 0))
        by (rewrite Z.gtb_ltb; apply Z.ltb_lt; exact Hamount).
      run. cbn [protector with_protector]. rewrite Hsender.
      rewrite config_of_with_config. reflexivity.
    + intros env1 strategy maxSlippage gasLimit whitelistMode Hsender Hs Hg.
      unfold configureProtection.
      rewrite (require_Ok (maxSlippage <=? 1000)) by (apply Z.leb_le; exact Hs).
      run.
      rewrite (require_Ok (gasLimit >=? 100000))
        by (rewrite Z.geb_leb; apply Z.leb_le; exact Hg).
      run. eexists. split; [reflexivity|].
      cbn [protector emit with_protector]. rewrite Hsender.
      rewrite config_of_with_config. reflexivity.
Qed.

Lemma emergencyStop_lifted_by_reconfiguring_witness :
  emergencyStop admin guarded calm trader "drill"
  = Err (Revert "Ownable: caller is not the owner")
  /\ exists w1,
      emergencyStop admin guarded deployer_call trader "drill"
      = Ok (w1, [EmergencyStop trader "drill"])
      /\ protectSwap w1 calm swap = Err (Revert "Protection not configured")
      /\ exists w2,
          configureProtection w1 calm REVERT 500 300000 false = Ok w2
          /\ isActive (getUserConfig w2 trader) = true.
Proof.
  split.
  - apply (proj1 (emergencyStop_lifted_by_reconfiguring admin guarded calm trader
                    "drill")).
    vm_compute. discriminate.
  - destruct (proj2 (emergencyStop_lifted_by_reconfiguring admin guarded
                       deployer_call trader "drill") eq_refl)
      as (w1 & Hstop & _ & _ & Hswap & Hagain).
    exists w1. split; [exact Hstop|]. split.
    + apply Hswap; [reflexivity | vm_compute; discriminate | reflexivity].
    + apply (Hagain calm REVERT 500 300000 false); [reflexivity | lia | lia].
Defined.

Lemma guards_pass_run w env params (k : result (World * (bool * Z))) :
  guards_pass w env params ->
  (require (deadline params >=? block_timestamp env) "Swap expired" ;;
   require (amountIn params >? 0) "Invalid amount" ;;
   require (isActive (config_of (protector w) (msg_sender env)))
           "Protection not configured" ;;
   (if whitelistMode (config_of (protector w) (msg_sender env)) then
      require (whitelisted (protector w) (tokenIn params))
              "Token not whitelisted" ;;
      require (whitelisted (protector w) (tokenOut params))
              "Token not whitelisted"
    else Ok tt) ;;
   k) = k.
Proof.
  intros (Hdeadline & Hamount & Hactive & Hwhite).
  rewrite (require_Ok (deadline params >=? block_timestamp env))
    by (rewrite Z.geb_leb; apply Z.leb_le; exact Hdeadline).
  run.
  rewrite (require_Ok (amountIn params >? 0))
    by (rewrite Z.gtb_ltb; apply Z.ltb_lt; exact Hamount).
  run.
  rewrite (require_Ok _ _ Hactive). run.
  destruct (whitelistMode _); [|reflexivity].
  destruct (Hwhite eq_refl) as [-> ->]. reflexivity.
Qed.

(** X11. The ways [protectSwap] refuses a swap, in the order the code
    tests them: an expired deadline, a zero amount, a caller without an
    active configuration, a token outside the whitelist when the caller
    asked for one. Past these guards the oracle is read, and then the
    detector is called by the protector itself: unless the detector is
    owned by the protector contract, every swap that passed the guards is
    refused by the detector's [onlyOwner]. *)
Theorem protectSwap_rejections :
  forall w env params,
    (deadline params < block_timestamp env ->
     protectSwap w env params = Err (Revert "Swap expired"))
    /\ (block_timestamp env <= deadline params ->
        amountIn params <= 0 ->
        protectSwap w env params = Err (Revert "Invalid amount"))
    /\ (block_timestamp env <= deadline params ->
        0 < amountIn params ->
        isActive (getUserConfig w (msg_sender env)) = false ->
        protectSwap w env params = Err (Revert "Protection not configured"))
    /\ (block_timestamp env <= deadline params ->
        0 < amountIn params ->
        isActive (getUserConfig w (msg_sender env)) = true ->
        whitelistMode (getUserConfig w (msg_sender env)) = true ->
        isTokenWhitelisted w (tokenIn params) = false
        \/ isTokenWhitelisted w (tokenOut params) = false ->
        protectSwap w env params = Err (Revert "Token not whitelisted"))
    /\ (guards_pass w env params ->
        oracle env (pricefeedId params) = None ->
        protectSwap w env params = Err OracleFailure)
    /\ (guards_pass w env params ->
        oracle env (pricefeedId params) <> None ->
        MEVDetector.owner (detector w) <> this (protector w) ->
        protectSwap w env params
        = Err (Revert "Ownable: caller is not the owner")).
Proof.
  intros w env params. unfold getUserConfig, isTokenWhitelisted.
  split; [|split; [|split; [|split; [|split]]]].
  - intros Hlate. unfold protectSwap. cbv zeta.
    replace (deadline params >=? block_timestamp env) with false
      by (symmetry; rewrite Z.geb_leb; apply Z.leb_gt; exact Hlate).
    reflexivity.
  - intros Hdeadline Hzero. unfold protectSwap. cbv zeta.
    rewrite (require_Ok (deadline params >=? block_timestamp env))
      by (rewrite Z.geb_leb; apply Z.leb_le; exact Hdeadline).
    run.
    replace (amountIn params >? 0) with false
      by (symmetry; rewrite Z.gtb_ltb; apply Z.ltb_ge; exact Hzero).
    reflexivity.
  - intros Hdeadline Hamount Hoff. unfold protectSwap. cbv zeta.
    rewrite (require_Ok (deadline params >=? block_timestamp env))
      by (rewrite Z.geb_leb; apply Z.leb_le; exact Hdeadline).
    run.
    rewrite (require_Ok (amountIn params >? 0))
      by (rewrite Z.gtb_ltb; apply Z.ltb_lt; exact Hamount).
    run. rewrite Hoff. reflexivity.
  - intros Hdeadline Hamount Hon Hmode Hlist. unfold protectSwap. cbv zeta.
    rewrite (require_Ok (deadline params >=? block_timestamp env))
      by (rewrite Z.geb_leb; apply Z.leb_le; exact Hdeadline).
    run.
    rewrite (require_Ok (amountIn params >? 0))
      by (rewrite Z.gtb_ltb; apply Z.ltb_lt; exact Hamount).
    run. rewrite Hon, Hmode. run.
    destruct (whitelisted (protector w) (tokenIn params)); [|reflexivity].
    destruct Hlist as [Hin | Hout]; [discriminate Hin|].
    rewrite Hout. reflexivity.
  - intros Hguards Hnone. unfold protectSwap. cbv zeta.
    rewrite (guards_pass_run _ _ _ _ Hguards).
    unfold _calculateExpectedPrice, MEVDetector.getCurrentPrice,
      MEVDetector.getOracleNumericValueFromTxMsg.
    cbn [detector_env MEVDetector.oracle]. rewrite Hnone. reflexivity.
  - intros Hguards Hsome Hforeign. unfold protectSwap. cbv zeta.
    rewrite (guards_pass_run _ _ _ _ Hguards).
    destruct (oracle env (pricefeedId params)) as [price|] eqn:Horacle;
      [|congruence].
    unfold _calculateExpectedPrice, MEVDetector.getCurrentPrice.
    rewrite (oracle_Ok (detector_env w env) _ _ Horacle). run.
    unfold MEVDetector.detectMEV, MEVDetector.onlyOwner.
    cbn [detector_env MEVDetector.msg_sender].
    replace (this (protector w) =? MEVDetector.owner (detector w)) with false
      by (symmetry; apply Z.eqb_neq; congruence).
    reflexivity.
Qed.

Lemma protectSwap_rejections_witness :
  protectSwap guarded
    (mkEnv trader 0 2001 (10 * gwei) (fun _ => Some (2000 * ether)) (fun _ => true))
    swap
  = Err (Revert "Swap expired")
  /\ protectSwap guarded calm (mkSwapParams 11 12 0 0 ETH 2000 trader)
     = Err (Revert "Invalid amount")
  /\ protectSwap guarded deployer_call swap
     = Err (Revert "Protection not configured")
  /\ protectSwap
       (with_protector guarded
          (with_config (protector guarded) trader
             (mkConfig true REVERT 500 300000 true)))
       calm swap
     = Err (Revert "Token not whitelisted")
  /\ protectSwap guarded
       (mkEnv trader 0 1001 (10 * gwei) (fun _ => None) (fun _ => true)) swap
     = Err OracleFailure
  /\ protectSwap
       (with_protector deployed
          (with_config (protector deployed) trader
             (mkConfig true REVERT 500 300000 false)))
       calm swap
     = Err (Revert "Ownable: caller is not the owner").
Proof.
  split; [|split; [|split; [|split; [|split]]]].
  - apply (proj1 (protectSwap_rejections _ _ _)). reflexivity.
  - apply (proj1 (proj2 (protectSwap_rejections _ _ _)));
      [vm_compute; discriminate | vm_compute; discriminate].
  - apply (proj1 (proj2 (proj2 (protectSwap_rejections _ _ _))));
      [vm_compute; discriminate | reflexivity | reflexivity].
  - apply (proj1 (proj2 (proj2 (proj2 (protectSwap_rejections _ _ _)))));
      [vm_compute; discriminate | reflexivity | reflexivity | reflexivity
      | left; reflexivity].
  - apply (proj1 (proj2 (proj2 (proj2 (proj2 (protectSwap_rejections _ _ _))))));
      [|reflexivity].
    unfold guards_pass. cbv zeta. split; [vm_compute; discriminate|].
    split; [reflexivity|]. split; [reflexivity|]. vm_compute. discriminate.
  - apply (proj2 (proj2 (proj2 (proj2 (proj2 (protectSwap_rejections _ _ _))))));
      [| discriminate | vm_compute; discriminate].
    unfold guards_pass. cbv zeta. split; [vm_compute; discriminate|].
    split; [reflexivity|]. split; [reflexivity|]. vm_compute. discriminate.
Defined.

Lemma outcome_Blocked config verdict params price :
  outcome config verdict params price = Blocked ->
  MEVDetector.isThreat verdict = true /\ blocking (strategy config) = true.
Proof.
  unfold outcome.
  destruct (MEVDetector.isThreat verdict), (blocking (strategy config));
    cbn [andb]; try (destruct (_ <? _); discriminate).
  intros _. split; reflexivity.
Qed.

Lemma counted_ordered s threat o amount fee :
  (o = Blocked -> threat = true) ->
  counters_ordered s -> counters_ordered (counted s threat o amount fee).
Proof.
  unfold counters_ordered, counted, bump.
  cbn [totalProtectedSwaps threatsDetected threatsBlocked].
  intros Hb H. destruct threat.
  - destruct o; lia.
  - destruct o; [specialize (Hb eq_refl); discriminate Hb | lia | lia].
Qed.

(** X12. The books of a swap. A call of [protectSwap] that returns counts
    one protected swap, at most one detected threat and at most one
    blocked threat, a blocked threat being a detected one and a failed
    swap; value and fee are booked for a swap that succeeded, and for no
    other. The caller's record moves by what the global record moves by,
    the records of the other users stay, and blocked <= detected <= swaps
    is kept in both. *)
Theorem protectSwap_books :
  forall w env params w' ok out,
    0 <= maxSlippage (getUserConfig w (msg_sender env)) ->
    protectSwap w env params = Ok (w', (ok, out)) ->
    exists detected blocked value fees,
      getGlobalStats w' = bump (getGlobalStats w) 1 detected blocked value fees
      /\ getUserStats w' (msg_sender env)
         = bump (getUserStats w (msg_sender env)) 1 detected blocked value fees
      /\ (forall other, other <> msg_sender env ->
            getUserStats w' other = getUserStats w other)
      /\ 0 <= blocked <= detected /\ detected <= 1
      /\ (blocked = 1 -> ok = false)
      /\ (if ok then value = amountIn params /\ fees = fee_of w params
          else value = 0 /\ fees = 0)
      /\ (counters_ordered (getGlobalStats w) ->
          counters_ordered (getGlobalStats w'))
      /\ (counters_ordered (getUserStats w (msg_sender env)) ->
          counters_ordered (getUserStats w' (msg_sender env))).
Proof.
  intros w env params w' ok out Hmax H.
  unfold getUserConfig, getUserStats, getGlobalStats in *.
  apply (protectSwap_Ok_inv _ _ _ _ _ _ Hmax) in H.
  destruct H as (_ & price & d & devents & verdict & _ & _ & H). cbv zeta in H.
  destruct H as (Hret & _ & _ & _ & _ & Hglobal & Huser & Hothers & _).
  pose proof (outcome_Blocked (config_of (protector w) (msg_sender env))
                              verdict params price) as Hblocked.
  set (o := outcome _ verdict params price) in *.
  exists (if MEVDetector.isThreat verdict then 1 else 0),
         (match o with Blocked => 1 | _ => 0 end),
         (match o with Executed => amountIn params | _ => 0 end),
         (match o with Executed => fee_of w params | _ => 0 end).
  split; [exact Hglobal|]. split; [exact Huser|]. split; [exact Hothers|].
  assert (Hthreat : o = Blocked -> MEVDetector.isThreat verdict = true)
    by (intros Ho; apply Hblocked; exact Ho).
  split.
  { destruct o; [rewrite (Hthreat eq_refl); lia | |];
      destruct (MEVDetector.isThreat verdict); lia. }
  split; [destruct (MEVDetector.isThreat verdict); lia|].
  split.
  { intros Hone. destruct o; cbn [returned] in Hret; try lia; congruence. }
  split.
  { destruct o; cbn [returned] in Hret; injection Hret as -> ->; split; reflexivity. }
  split.
  - rewrite Hglobal. apply counted_ordered. exact Hthreat.
  - rewrite Huser. apply counted_ordered. exact Hthreat.
Qed.

Lemma protectSwap_books_witness :
  exists w',
    protectSwap guarded calm swap = Ok (w', (true, 2000 * ether))
    /\ exists detected blocked value fees,
        getGlobalStats w' = bump (getGlobalStats guarded) 1 detected blocked value fees
        /\ getUserStats w' (msg_sender calm)
           = bump (getUserStats guarded (msg_sender calm)) 1 detected blocked value fees
        /\ (forall other, other <> msg_sender calm ->
              getUserStats w' other = getUserStats guarded other)
        /\ 0 <= blocked <= detected /\ detected <= 1
        /\ (blocked = 1 -> true = false)
        /\ (value = amountIn swap /\ fees = fee_of guarded swap)
        /\ (counters_ordered (getGlobalStats guarded) ->
            counters_ordered (getGlobalStats w'))
        /\ (counters_ordered (getUserStats guarded (msg_sender calm)) ->
            counters_ordered (getUserStats w' (msg_sender calm))).
Proof.
  eexists. split; [vm_compute; reflexivity|].
  apply (protectSwap_books guarded calm swap _ true (2000 * ether)).
  - vm_compute. discriminate.
  - vm_compute. reflexivity.
Defined.

(** X13. The tokens of a swap. The calls [protectSwap] makes on tokens are
    a pull of [amountIn] of [tokenIn] from the caller and, when the swap
    fails after the pull, the return of the same amount to the caller. A
    swap that succeeds pulls the tokens and sends no token out, to the
    recipient or to anyone: its only other call is the payment of the
    fee, and the amount it returns is only reported. A swap that fails
    has either made no call or has pulled and returned. *)
Theorem protectSwap_sends_no_token_out :
  forall w env params w' ok out,
    0 <= maxSlippage (getUserConfig w (msg_sender env)) ->
    protectSwap w env params = Ok (w', (ok, out)) ->
    exists new,
      calls w' = calls w ++ new
      /\ (ok = true ->
          exists pay,
            new = TransferFrom (tokenIn params) (msg_sender env)
                               (this (protector w)) (amountIn params) :: pay
            /\ forall c, c ∈ pay -> exists to value, c = SendValue to value)
      /\ (ok = false ->
          out = 0
          /\ (new = []
              \/ new = [TransferFrom (tokenIn params) (msg_sender env)
                                     (this (protector w)) (amountIn params);
                        Transfer (tokenIn params) (msg_sender env)
                                 (amountIn params)]))
      /\ (forall token to amount,
             Transfer token to amount ∈ new ->
             ok = false /\ token = tokenIn params /\ to = msg_sender env
             /\ amount = amountIn params).
Proof.
  intros w env params w' ok out Hmax H. unfold getUserConfig in Hmax.
  apply (protectSwap_Ok_inv _ _ _ _ _ _ Hmax) in H.
  destruct H as (_ & price & d & devents & verdict & _ & _ & H). cbv zeta in H.
  destruct H as (Hret & _ & _ & Hcalls & _).
  set (o := outcome _ verdict params price) in *.
  exists (made_calls w env params o). split; [exact Hcalls|].
  destruct o; cbn [returned made_calls] in *; injection Hret as -> ->.
  - split; [discriminate|]. split; [auto|].
    intros token to amount Hin. inversion Hin.
  - split; [discriminate|]. split; [auto|].
    intros token to amount Hin.
    apply elem_of_cons in Hin as [Heq | Hin]; [discriminate Heq|].
    apply list_elem_of_singleton in Hin. injection Hin as -> -> ->.
    repeat split; reflexivity.
  - split.
    + intros _. eexists. split; [reflexivity|].
      intros c Hc. destruct (msg_value env >=? fee_of w params).
      * apply list_elem_of_singleton in Hc as ->. eauto.
      * inversion Hc.
    + split; [discriminate|].
      intros token to amount Hin.
      apply elem_of_cons in Hin as [Heq | Hin]; [discriminate Heq|].
      destruct (msg_value env >=? fee_of w params).
      * apply list_elem_of_singleton in Hin. discriminate Hin.
      * inversion Hin.
Qed.

Lemma protectSwap_sends_no_token_out_witness :
  exists w',
    protectSwap guarded calm greedy = Ok (w', (false, 0))
    /\ exists new,
        calls w' = calls guarded ++ new
        /\ (false = true ->
            exists pay,
              new = TransferFrom (tokenIn greedy) (msg_sender calm)
                                 (this (protector guarded)) (amountIn greedy) :: pay
              /\ forall c, c ∈ pay -> exists to value, c = SendValue to value)
        /\ (false = false ->
            0 = 0
            /\ (new = []
                \/ new = [TransferFrom (tokenIn greedy) (msg_sender calm)
                                       (this (protector guarded)) (amountIn greedy);
                          Transfer (tokenIn greedy) (msg_sender calm)
                                   (amountIn greedy)]))
        /\ (forall token to amount,
               Transfer token to amount ∈ new ->
               false = false /\ token = tokenIn greedy /\ to = msg_sender calm
               /\ amount = amountIn greedy).
Proof.
  eexists. split; [vm_compute; reflexivity|].
  apply (protectSwap_sends_no_token_out guarded calm greedy _ false 0).
  - vm_compute. discriminate.
  - vm_compute. reflexivity.
Defined.

(** X14. The fee of a swap that succeeds is
    amountIn * protectionFee / 10000, at most a twentieth of the amount
    while the fee rate is within its cap of 500 basis points. It is
    booked under [feesCollected] and reported by [SwapProtected] whether
    or not it was paid: the treasury is sent exactly the fee when
    [msg.value] covers it, and nothing at all otherwise, the call going
    through all the same. No other value leaves the contract, so that
    what [msg.value] exceeds the fee by stays behind. *)
Theorem protection_fee_booked_even_unpaid :
  forall w env params w' out,
    0 <= maxSlippage (getUserConfig w (msg_sender env)) ->
    protectSwap w env params = Ok (w', (true, out)) ->
    let fee := amountIn params * protectionFee (protector w) / 10000 in
    feesCollected (getGlobalStats w') = feesCollected (getGlobalStats w) + fee
    /\ feesCollected (getUserStats w' (msg_sender env))
       = feesCollected (getUserStats w (msg_sender env)) + fee
    /\ (exists price,
           SwapProtected (msg_sender env) (tokenIn params) (tokenOut params)
                         (amountIn params) price fee
           ∈ drop (length (events w)) (events w'))
    /\ (forall to value,
           SendValue to value ∈ drop (length (calls w)) (calls w') <->
           fee <= msg_value env /\ to = treasury (protector w) /\ value = fee)
    /\ (0 <= protectionFee (protector w) <= 500 ->
        0 <= fee /\ 20 * fee <= amountIn params).
Proof.
  intros w env params w' out Hmax H. unfold getUserConfig in Hmax.
  unfold getGlobalStats, getUserStats. cbv zeta.
  apply (protectSwap_Ok_inv _ _ _ _ _ _ Hmax) in H.
  destruct H as (Hguards & price & d & devents & verdict & _ & _ & H).
  cbv zeta in H.
  destruct H as (Hret & _ & Hev & Hcalls & _ & Hglobal & Huser & _).
  set (o := outcome _ verdict params price) in *.
  destruct o; cbn [returned] in Hret; try discriminate Hret.
  rewrite Hglobal, Huser, Hev, Hcalls, !drop_app_length.
  unfold counted, bump, fee_of. cbn [feesCollected emitted made_calls].
  fold (fee_of w params).
  split; [reflexivity|]. split; [reflexivity|].
  split.
  { exists (swap_output params price). apply elem_of_app. right.
    apply elem_of_cons. left. reflexivity. }
  split.
  - intros to value. rewrite elem_of_cons.
    destruct (Z.geb_spec (msg_value env) (fee_of w params)) as [Hpaid | Hunpaid].
    + rewrite list_elem_of_singleton. split.
      * intros [Heq | Heq]; [discriminate Heq|]. injection Heq as -> ->.
        split; [lia|]. split; reflexivity.
      * intros (_ & -> & ->). right. reflexivity.
    + split.
      * intros [Heq | Hin]; [discriminate Heq | inversion Hin].
      * intros (Hle & _). lia.
  - intros Hrate. destruct Hguards as (_ & Hamount & _). unfold fee_of.
    split.
    + apply Z.div_pos; [nia | lia].
    + assert (amountIn params * protectionFee (protector w)
              <= amountIn params * 500) by nia.
      pose proof (Z.div_le_mono _ _ 10000 ltac:(lia) H) as Hdiv.
      assert (20 * (amountIn params * 500 / 10000) <= amountIn params)
        by (Z.to_euclidean_division_equations; lia).
      lia.
Qed.

Lemma protection_fee_booked_even_unpaid_witness :
  exists w',
    protectSwap guarded unpaid swap = Ok (w', (true, 2000 * ether))
    /\ let fee := amountIn swap * protectionFee (protector guarded) / 10000 in
       feesCollected (getGlobalStats w')
       = feesCollected (getGlobalStats guarded) + fee
       /\ feesCollected (getUserStats w' (msg_sender unpaid))
          = feesCollected (getUserStats guarded (msg_sender unpaid)) + fee
       /\ (exists price,
              SwapProtected (msg_sender unpaid) (tokenIn swap) (tokenOut swap)
                            (amountIn swap) price fee
              ∈ drop (length (events guarded)) (events w'))
       /\ (forall to value,
              SendValue to value ∈ drop (length (calls guarded)) (calls w') <->
              fee <= msg_value unpaid
              /\ to = treasury (protector guarded) /\ value = fee)
       /\ (0 <= protectionFee (protector guarded) <= 500 ->
           0 <= fee /\ 20 * fee <= amountIn swap).
Proof.
  eexists. split; [vm_compute; reflexivity|].
  apply (protection_fee_booked_even_unpaid guarded unpaid swap _ (2000 * ether)).
  - vm_compute. discriminate.
  - vm_compute. reflexivity.
Defined.

(** X15. The DELAY strategy. When the detector reports a threat to a
    caller on DELAY, the call returns (false, 0) without touching a token;
    the threat is a front-run threat, the only kind the detector reports
    to the protector; and the time recorded for the feed is the block time
    plus 15 + score / 200 seconds, replacing whatever was recorded. The
    times recorded for the other feeds stay. *)
Theorem delay_strategy_records_time :
  forall w env params w' ok out price d devents verdict,
    0 <= maxSlippage (getUserConfig w (msg_sender env)) ->
    0 <= MEVDetector.riskThreshold (detector w) ->
    0 <= MEVDetector.minPriceDelta (detector w) ->
    strategy (getUserConfig w (msg_sender env)) = DELAY ->
    oracle env (pricefeedId params) = Some price ->
    MEVDetector.detectMEV (detector w) (detector_env w env)
                          (pricefeedId params) price (tx_gasprice env)
    = Ok (d, devents, verdict) ->
    MEVDetector.isThreat verdict = true ->
    protectSwap w env params = Ok (w', (ok, out)) ->
    ok = false /\ out = 0
    /\ calls w' = calls w
    /\ MEVDetector.threatType verdict = MEVDetector.FRONTRUN
    /\ last (events w')
       = Some (ThreatMitigated (msg_sender env) (pricefeedId params)
                 MEVDetector.FRONTRUN (MEVDetector.riskScore verdict) DELAY)
    /\ getPriceDelay w' (pricefeedId params)
       = block_timestamp env + (15 + MEVDetector.riskScore verdict / 200)
    /\ (forall other, other <> pricefeedId params ->
          getPriceDelay w' other = getPriceDelay w other).
Proof.
  intros w env params w' ok out price d devents verdict
         Hmax Hthr Hdelta Hstrategy Horacle Hdetect Hthreat H.
  unfold getUserConfig in *. unfold getPriceDelay.
  apply (protectSwap_Ok_inv _ _ _ _ _ _ Hmax) in H.
  destruct H as (_ & price' & d' & devents' & verdict' & Horacle' & Hdetect' & H).
  rewrite Horacle in Horacle'. injection Horacle' as <-.
  rewrite Hdetect in Hdetect'. injection Hdetect' as <- <- <-.
  cbv zeta in H.
  destruct H as (Hret & _ & Hev & Hcalls & _ & _ & _ & _ & Hdelays).
  unfold outcome in *. rewrite Hthreat, Hstrategy in *.
  cbn [andb blocking returned made_calls emitted] in *.
  injection Hret as -> ->.
  assert (Htype : MEVDetector.threatType verdict = MEVDetector.FRONTRUN).
  { destruct (detectMEV_at_oracle_price _ _ _ _ _ _ _ _ Hthr Hdelta
                (Horacle : MEVDetector.oracle (detector_env w env) _ = _) Hdetect)
      as [[score ->] | ->]; [reflexivity | discriminate Hthreat]. }
  destruct Hdelays as (delayTime & Hdelay & Hdelays).
  rewrite Htype in Hdelay. cbn [_calculateDelay] in Hdelay.
  bind_inv Hdelay as q Hq. apply checked_div_inv in Hq as [-> _].
  apply checked_add_inv in Hdelay as [-> _].
  split; [reflexivity|]. split; [reflexivity|].
  split; [rewrite Hcalls; apply app_nil_r|].
  split; [exact Htype|].
  split.
  { rewrite Hev, Hstrategy, Htype, app_assoc. apply last_snoc. }
  rewrite Hdelays. split.
  - apply mget_insert_eq.
  - intros other Hne. unfold mget. rewrite lookup_insert_ne by congruence.
    reflexivity.
Qed.

Lemma delay_strategy_records_time_witness :
  exists w',
    protectSwap (with_strategy DELAY) rushed swap = Ok (w', (false, 0))
    /\ false = false /\ 0 = 0
    /\ calls w' = calls (with_strategy DELAY)
    /\ MEVDetector.FRONTRUN = MEVDetector.FRONTRUN
    /\ last (events w')
       = Some (ThreatMitigated (msg_sender rushed) (pricefeedId swap)
                 MEVDetector.FRONTRUN 6666 DELAY)
    /\ getPriceDelay w' (pricefeedId swap)
       = block_timestamp rushed + (15 + 6666 / 200)
    /\ (forall other, other <> pricefeedId swap ->
          getPriceDelay w' other = getPriceDelay (with_strategy DELAY) other).
Proof.
  eexists. split; [vm_compute; reflexivity|].
  eapply (delay_strategy_records_time (with_strategy DELAY) rushed swap _
            false 0 (2000 * ether) _ _
            (MEVDetector.mkVerdict true MEVDetector.FRONTRUN 6666)).
  - vm_compute. discriminate.
  - vm_compute. discriminate.
  - vm_compute. discriminate.
  - reflexivity.
  - reflexivity.
  - vm_compute. reflexivity.
  - reflexivity.
  - vm_compute. reflexivity.
Defined.

Lemma rel_bind {A B : Type} (R : A -> A -> Prop) (S : B -> B -> Prop)
      (r1 r2 : result A) (k1 k2 : A -> result B) :
  rel_result R r1 r2 ->
  (forall a b, R a b -> rel_result S (k1 a) (k2 b)) ->
  rel_result S (r1 ≫= k1) (r2 ≫= k2).
Proof.
  destruct r1 as [a|e1], r2 as [b|e2]; cbn [rel_result]; intros Hr Hk;
    try contradiction.
  - apply Hk. exact Hr.
  - subst. reflexivity.
Qed.

Lemma rel_bind_same {A B : Type} (S : B -> B -> Prop)
      (r : result A) (k1 k2 : A -> result B) :
  (forall a, rel_result S (k1 a) (k2 a)) ->
  rel_result S (r ≫= k1) (r ≫= k2).
Proof. destruct r as [a|e]; intros Hk; [apply Hk | reflexivity]. Qed.

(** Open two worlds that differ at most in the recorded delays. *)
Ltac open_worlds H :=
  match type of H with
  | same_but_delays ?w1 ?w2 =>
      destruct w1 as [[? ? ? ? ? ? ? ? ?] ? ? ?];
      destruct w2 as [[? ? ? ? ? ? ? ? ?] ? ? ?];
      destruct H as (? & ? & ? & (? & ? & ? & ? & ? & ?) & ? & ?);
      cbn [detector events calls protector this treasury protectionFee
           maxProtectionFee userConfigs userStats whitelistedTokens
           globalStats] in *;
      subst
  end.

Ltac close_worlds :=
  unfold same_but_delays, same_settings;
  cbn [detector events calls protector this treasury protectionFee
       maxProtectionFee userConfigs userStats whitelistedTokens globalStats
       with_protector with_detector with_stats with_delay emit];
  repeat split.

Lemma update_both_delays w1 w2 user f :
  same_but_delays w1 w2 ->
  rel_result same_but_delays (update_both w1 user f) (update_both w2 user f).
Proof.
  intros H. open_worlds H. unfold update_both, stats_of.
  cbn [protector globalStats userStats].
  apply rel_bind_same. intros g. apply rel_bind_same. intros u.
  cbn [rel_result]. close_worlds.
Qed.

Lemma update_global_delays w1 w2 f :
  same_but_delays w1 w2 ->
  rel_result same_but_delays (update_global w1 f) (update_global w2 f).
Proof.
  intros H. open_worlds H. unfold update_global.
  cbn [protector globalStats].
  apply rel_bind_same. intros g. cbn [rel_result]. close_worlds.
Qed.

Lemma update_user_delays w1 w2 user f :
  same_but_delays w1 w2 ->
  rel_result same_but_delays (update_user w1 user f) (update_user w2 user f).
Proof.
  intros H. open_worlds H. unfold update_user, stats_of.
  cbn [protector globalStats userStats].
  apply rel_bind_same. intros u. cbn [rel_result]. close_worlds.
Qed.

Lemma external_call_delays w1 w2 env c :
  same_but_delays w1 w2 ->
  rel_result same_but_delays (external_call w1 env c) (external_call w2 env c).
Proof.
  intros H. open_worlds H. unfold external_call.
  destruct (callee_ok env c); [|reflexivity].
  cbn [rel_result protector detector events calls]. close_worlds.
Qed.

Lemma emit_delays w1 w2 es :
  same_but_delays w1 w2 -> same_but_delays (emit w1 es) (emit w2 es).
Proof. intros H. open_worlds H. close_worlds. Qed.

Lemma applyProtectionStrategy_delays w1 w2 env strategy params threatType score :
  same_but_delays w1 w2 ->
  same_result
    (_applyProtectionStrategy w1 env strategy params threatType score)
    (_applyProtectionStrategy w2 env strategy params threatType score).
Proof.
  intros H. unfold same_result.
  destruct strategy; cbn [_applyProtectionStrategy rel_result fst snd];
    try (split; [exact H | reflexivity]).
  apply rel_bind_same. intros delayTime. apply rel_bind_same. intros t.
  cbn [rel_result fst snd]. split; [|reflexivity].
  open_worlds H. close_worlds.
Qed.

Lemma executeSwap_delays w1 w2 env params config :
  same_but_delays w1 w2 ->
  same_result (_executeSwap w1 env params config)
              (_executeSwap w2 env params config).
Proof.
  intros H. unfold same_result, _executeSwap.
  assert (Hthis : this (protector w2) = this (protector w1))
    by (destruct H as (_ & _ & _ & (Ht & _) & _); exact Ht).
  rewrite Hthis.
  eapply rel_bind; [apply external_call_delays; exact H|].
  intros a b Hab. cbn beta.
  unfold MEVDetector.getCurrentPrice,
    MEVDetector.getOracleNumericValueFromTxMsg.
  cbn [detector_env MEVDetector.oracle].
  apply rel_bind_same. intros currentPrice.
  apply rel_bind_same. intros m. apply rel_bind_same. intros out.
  destruct (out <? minAmountOut params).
  - eapply rel_bind; [apply external_call_delays; exact Hab|].
    intros a' b' Hab'. cbn [rel_result fst snd]. split; [exact Hab' | reflexivity].
  - apply rel_bind_same. intros m'. apply rel_bind_same. intros expectedOut.
    apply rel_bind_same. intros slippage.
    destruct (slippage >? maxSlippage config).
    + eapply rel_bind; [apply external_call_delays; exact Hab|].
      intros a' b' Hab'. cbn [rel_result fst snd].
      split; [exact Hab' | reflexivity].
    + cbn [rel_result fst snd]. split; [exact Hab | reflexivity].
Qed.

Lemma collectProtectionFee_delays w1 w2 env amount :
  same_but_delays w1 w2 ->
  same_result (_collectProtectionFee w1 env amount)
              (_collectProtectionFee w2 env amount).
Proof.
  intros H. unfold same_result, _collectProtectionFee.
  assert (Hfee : protectionFee (protector w2) = protectionFee (protector w1))
    by (destruct H as (_ & _ & _ & (_ & _ & Hf & _) & _); exact Hf).
  assert (Htreasury : treasury (protector w2) = treasury (protector w1))
    by (destruct H as (_ & _ & _ & (_ & Ht & _) & _); exact Ht).
  rewrite Hfee, Htreasury.
  apply rel_bind_same. intros m. apply rel_bind_same. intros feeAmount.
  eapply rel_bind.
  - destruct (msg_value env >=? feeAmount).
    + apply external_call_delays. exact H.
    + exact H.
  - intros a b Hab. cbn [rel_result fst snd]. split; [exact Hab | reflexivity].
Qed.

(** X16. The time the DELAY strategy records is never consulted.
    [protectSwap] reads no entry of [priceDelays]: run in two worlds that
    differ at most in the recorded times, with the same transaction, it
    fails with the same error or returns the same result, emits the same
    events, makes the same calls and books the same statistics. A swap
    stopped by DELAY is therefore treated, when it is sent again before
    the recorded time, as if no time had been recorded. *)
Theorem recorded_delay_never_consulted :
  forall w1 w2 env params,
    same_but_delays w1 w2 ->
    same_result (protectSwap w1 env params) (protectSwap w2 env params).
Proof.
  intros w1 w2 env params H. unfold same_result, protectSwap. cbv zeta.
  assert (Hconfig : config_of (protector w2) (msg_sender env)
                    = config_of (protector w1) (msg_sender env)).
  { unfold config_of.
    destruct H as (_ & _ & _ & (_ & _ & _ & _ & Hc & _) & _). rewrite Hc.
    reflexivity. }
  assert (Hlist : forall token,
             whitelisted (protector w2) token = whitelisted (protector w1) token).
  { intros token. unfold whitelisted.
    destruct H as (_ & _ & _ & (_ & _ & _ & _ & _ & Hw) & _). rewrite Hw.
    reflexivity. }
  assert (Henv : detector_env w2 env = detector_env w1 env).
  { unfold detector_env.
    destruct H as (_ & _ & _ & (Ht & _) & _). rewrite Ht. reflexivity. }
  assert (Hdetector : detector w2 = detector w1)
    by (destruct H as (Hd & _); symmetry; exact Hd).
  unfold _calculateExpectedPrice.
  rewrite Hconfig, !Hlist, Henv, Hdetector.
  apply rel_bind_same. intros _. apply rel_bind_same. intros _.
  apply rel_bind_same. intros _. apply rel_bind_same. intros _.
  apply rel_bind_same. intros expectedPrice.
  apply rel_bind_same. intros [[d devents] verdict]. cbv beta iota.
  eapply rel_bind.
  { apply update_both_delays. apply emit_delays.
    clear - H. open_worlds H. close_worlds. }
  intros a1 a2 Ha. cbn beta.
  eapply (rel_bind (fun a b => same_but_delays (fst a) (fst b) /\ snd a = snd b)).
  { destruct (MEVDetector.isThreat verdict).
    - eapply rel_bind; [apply update_both_delays; exact Ha|].
      intros b1 b2 Hb. apply applyProtectionStrategy_delays. exact Hb.
    - cbn [rel_result fst snd]. split; [exact Ha | reflexivity]. }
  intros [b1 blocked1] [b2 blocked2] [Hb Hblocked].
  cbn [fst snd] in Hb, Hblocked. subst blocked2. cbv beta iota.
  destruct blocked1.
  - eapply rel_bind; [apply update_both_delays; exact Hb|].
    intros c1 c2 Hc. cbn [rel_result fst snd].
    split; [apply emit_delays; exact Hc | reflexivity].
  - eapply (rel_bind (fun a b => same_but_delays (fst a) (fst b) /\ snd a = snd b)).
    { apply executeSwap_delays. exact Hb. }
    intros [c1 r1] [c2 r2] [Hc Hr]. cbn [fst snd] in Hc, Hr. subst r2.
    cbv beta iota.
    eapply rel_bind.
    { destruct (success r1); [|exact Hc].
      eapply (rel_bind (fun a b => same_but_delays (fst a) (fst b)
                                   /\ snd a = snd b)).
      { apply collectProtectionFee_delays. exact Hc. }
      intros [e1 fee1] [e2 fee2] [He Hfee]. cbn [fst snd] in He, Hfee.
      subst fee2. cbv beta iota.
      eapply rel_bind; [apply update_global_delays; exact He|].
      intros f1 f2 Hf. cbn beta.
      eapply rel_bind; [apply update_global_delays; exact Hf|].
      intros g1 g2 Hg. cbn beta.
      eapply rel_bind; [apply update_user_delays; exact Hg|].
      intros h1 h2 Hh. cbn beta.
      eapply rel_bind; [apply update_user_delays; exact Hh|].
      intros i1 i2 Hi. cbn [rel_result]. apply emit_delays. exact Hi. }
    intros j1 j2 Hj. cbn [rel_result fst snd].
    split; [apply emit_delays; exact Hj | reflexivity].
Qed.

Lemma recorded_delay_never_consulted_witness :
  same_result
    (protectSwap guarded calm swap)
    (protectSwap (with_protector guarded
                    (with_delay (protector guarded) ETH 1000000))
                 calm swap).
Proof.
  apply (recorded_delay_never_consulted guarded
           (with_protector guarded (with_delay (protector guarded) ETH 1000000))
           calm swap).
  repeat split.
Defined.

Lemma invariant_constructor self deployer _detector _treasury :
  invariant (constructor self deployer _detector _treasury).
Proof.
  split; cbn [constructor protector maxProtectionFee protectionFee globalStats].
  - reflexivity.
  - lia.
  - intros user. unfold config_of. cbn [userConfigs].
    rewrite lookup_empty. cbn. split; [lia | discriminate].
  - unfold counters_ordered. cbn. lia.
  - intros user. unfold stats_of. cbn [userStats]. rewrite lookup_empty.
    unfold counters_ordered. cbn. lia.
Qed.

Lemma invariant_same w w' :
  maxProtectionFee (protector w') = maxProtectionFee (protector w) ->
  protectionFee (protector w') = protectionFee (protector w) ->
  userConfigs (protector w') = userConfigs (protector w) ->
  globalStats (protector w') = globalStats (protector w) ->
  userStats (protector w') = userStats (protector w) ->
  invariant w -> invariant w'.
Proof.
  intros Hmax Hfee Hconfigs Hglobal Hstats [I1 I2 I3 I4 I5].
  split; unfold config_of, stats_of in *;
    rewrite ?Hmax, ?Hfee, ?Hconfigs, ?Hglobal, ?Hstats; assumption.
Qed.

Lemma step_invariant w w' : invariant w -> step w w' -> invariant w'.
Proof.
  intros Hinv Hstep. destruct Hstep.
  - (* configureProtection *)
    unfold configureProtection in H1.
    bind_inv H1 as u1 Hs. apply require_inv in Hs.
    bind_inv H1 as u2 Hg. apply require_inv in Hg.
    injection H1 as <-. destruct Hinv as [I1 I2 I3 I4 I5].
    split; cbn [protector emit with_protector with_config maxProtectionFee
                protectionFee globalStats]; try assumption.
    intros user. destruct (Z.eq_dec user (msg_sender env)) as [->|Hne].
    + rewrite config_of_with_config. cbn [maxSlippage isActive gasLimit].
      split; [assumption|]. intros _. lia.
    + rewrite config_of_with_config_ne by exact Hne. apply I3.
  - (* protectSwap *)
    destruct r as [ok out]. destruct Hinv as [I1 I2 I3 I4 I5].
    apply protectSwap_Ok_inv in H; [|apply I3].
    destruct H as (_ & price & d & devents & verdict & _ & _ & H).
    cbv zeta in H.
    destruct H as (_ & _ & _ & _ & Hset & Hglobal & Huser & Hothers & _).
    destruct Hset as (_ & _ & Hfee & Hmax & Hconfigs & _).
    pose proof (outcome_Blocked (config_of (protector w) (msg_sender env))
                                verdict params price) as Hblocked.
    split.
    + rewrite Hmax. exact I1.
    + rewrite Hfee. exact I2.
    + intros user. unfold config_of. rewrite Hconfigs. apply I3.
    + rewrite Hglobal. apply counted_ordered; [|exact I4].
      intros Ho. apply Hblocked. exact Ho.
    + intros user. destruct (Z.eq_dec user (msg_sender env)) as [->|Hne].
      * rewrite Huser. apply counted_ordered; [|apply I5].
        intros Ho. apply Hblocked. exact Ho.
      * rewrite (Hothers user Hne). apply I5.
  - (* setProtectionFee *)
    unfold setProtectionFee in H0.
    bind_inv H0 as u1 Hown. bind_inv H0 as u2 Hcap. apply require_inv in Hcap.
    injection H0 as <-. destruct Hinv as [I1 I2 I3 I4 I5].
    split; cbn [protector with_protector with_fee maxProtectionFee
                protectionFee globalStats]; try assumption.
    lia.
  - (* setTreasury *)
    unfold setTreasury in H.
    bind_inv H as u1 Hown. bind_inv H as u2 Hnz. injection H as <-.
    revert Hinv. apply invariant_same; reflexivity.
  - (* addWhitelistedToken *)
    unfold ProtectorAdmin.addWhitelistedToken in H.
    bind_inv H as u1 Hown. injection H as <-.
    revert Hinv. apply invariant_same; reflexivity.
  - (* removeWhitelistedToken *)
    unfold removeWhitelistedToken in H.
    bind_inv H as u1 Hown. injection H as <-.
    revert Hinv. apply invariant_same; reflexivity.
  - (* updateDetector *)
    unfold updateDetector in H.
    bind_inv H as u1 Hown. bind_inv H as u2 Hnz. injection H as <-.
    revert Hinv. apply invariant_same; reflexivity.
  - (* emergencyStop *)
    unfold emergencyStop in H.
    bind_inv H as u1 Hown. cbv zeta in H. injection H as <- _.
    destruct Hinv as [I1 I2 I3 I4 I5].
    split; cbn [protector with_protector with_config maxProtectionFee
                protectionFee globalStats]; try assumption.
    intros other. destruct (Z.eq_dec other user) as [->|Hne].
    + rewrite config_of_with_config. cbn [maxSlippage isActive].
      split; [apply I3 | discriminate].
    + rewrite config_of_with_config_ne by exact Hne. apply I3.
  - (* emergencyWithdraw *)
    unfold emergencyWithdraw in H.
    bind_inv H as u1 Hown.
    destruct (token =? 0); apply external_call_inv in H as [_ ->];
      revert Hinv; apply invariant_same; reflexivity.
Qed.

(** X17. What every world of a deployed protector satisfies, whatever
    calls were made, by whomever, since the constructor ran: the fee rate
    is within its cap of 500 basis points, which never moves; every active
    configuration has a maximum slippage of at most 1000 basis points and a
    gas limit of at least 100000; and in the global record and in every
    user's record blocked <= detected <= protected swaps. *)
Theorem reachable_worlds_keep_invariant :
  forall self deployer _detector _treasury w,
    reachable self deployer _detector _treasury w -> invariant w.
Proof.
  intros self deployer _detector _treasury w Hreach. unfold reachable in Hreach.
  revert w Hreach. apply (rtc_ind_r invariant).
  - apply invariant_constructor.
  - intros y z _ Hstep Hinv. exact (step_invariant y z Hinv Hstep).
Qed.

Lemma reachable_worlds_keep_invariant_witness :
  exists w,
    setProtectionFee admin deployed deployer_call 500 = Ok w
    /\ invariant w.
Proof.
  eexists. split; [reflexivity|].
  apply (reachable_worlds_keep_invariant 77 admin 88 99).
  apply rtc_once.
  apply (step_setProtectionFee _ _ admin deployer_call 500); [lia | reflexivity].
Defined.

End ProtectionExtras.

(** ** The token: levels, the staking book, rewards *)

Section TokenExtras.
Import AegilonToken Staking TokenScenarios.

Lemma ether_value : ether = 1000000000000000000.
Proof. reflexivity. Qed.

Lemma getProtectionLevel_range st user :
  0 <= getProtectionLevel st user <= 5
  /\ (1 <= getProtectionLevel st user
      <-> 10 * ether <= mget (stakedBalance st) user).
Proof.
  unfold getProtectionLevel. cbv zeta. rewrite ether_value.
  set (staked := mget (stakedBalance st) user).
  repeat match goal with
         | |- context [staked >=? ?c] => destruct (Z.geb_spec staked c)
         end; lia.
Qed.

(** X18. The protection level is a step function of the staked amount:
    it lies between 0 and 5, it reaches level k exactly at the k-th
    threshold (10, 100, 1000, 5000 and 10000 tokens of 10^18 units), it
    never falls when the stake grows, and the level the subgraph computes
    from a staked amount is the level the contract returns. *)
Theorem protection_level_thresholds :
  forall st user,
    let staked := mget (stakedBalance st) user in
    let level := getProtectionLevel st user in
    0 <= level <= 5
    /\ (1 <= level <-> 10 * ether <= staked)
    /\ (2 <= level <-> 100 * ether <= staked)
    /\ (3 <= level <-> 1000 * ether <= staked)
    /\ (4 <= level <-> 5000 * ether <= staked)
    /\ (5 <= level <-> 10000 * ether <= staked)
    /\ level = TokenSubgraph.getProtectionLevel staked
    /\ (forall st2 user2,
           staked <= mget (stakedBalance st2) user2 ->
           level <= getProtectionLevel st2 user2).
Proof.
  intros st user. cbv zeta.
  unfold getProtectionLevel, TokenSubgraph.getProtectionLevel.
  rewrite ether_value.
  set (staked := mget (stakedBalance st) user).
  repeat split;
    try (intros st2 user2; set (staked2 := mget (stakedBalance st2) user2);
         intros Hle;
         repeat match goal with
                | |- context [staked2 >=? ?c] =>
                    destruct (Z.geb_spec staked2 c)
                end);
    repeat match goal with
           | |- context [staked >=? ?c] => destruct (Z.geb_spec staked c)
           | H : context [staked >=? ?c] |- _ => destruct (Z.geb_spec staked c)
           end;
    try lia; try reflexivity.
Qed.

Lemma protection_level_thresholds_witness :
  getProtectionLevel launched holder <= getProtectionLevel staked holder.
Proof.
  pose proof (protection_level_thresholds launched holder) as H.
  cbv zeta in H. destruct H as (_ & _ & _ & _ & _ & _ & _ & Hmono).
  apply (Hmono staked holder). vm_compute. discriminate.
Defined.

Lemma ledger_call_inv st env op st' :
  ledger_call st env op = Ok st' ->
  ledger_ok env op = true
  /\ st' = mkState (self st) (owner st) (stakedBalance st) (stakingRewards st)
                   (lastStakeTime st) (stakingAPR st)
                   (protectionBoostMultiplier st) (mevProtectorContract st)
                   (ledger st ++ [op]) (events st).
Proof.
  unfold ledger_call. destruct (ledger_ok env op); [|discriminate].
  intros [= <-]. split; reflexivity.
Qed.

Lemma accrue_inv st user pending rewards :
  accrue st user pending = Ok rewards ->
  mget rewards user = mget (stakingRewards st) user + pending \/ pending < 0.
Proof.
  unfold accrue. destruct (Z.gtb_spec pending 0) as [Hpos | Hnone].
  - intros H. bind_inv H as r Hr. apply checked_add_inv in Hr as [-> _].
    injection H as <-. left. apply mget_insert_eq.
  - intros [= <-]. lia.
Qed.

Lemma accrue_others st user pending rewards other :
  accrue st user pending = Ok rewards ->
  other <> user ->
  mget rewards other = mget (stakingRewards st) other.
Proof.
  unfold accrue. destruct (pending >? 0).
  - intros H Hne. bind_inv H as r Hr. injection H as <-.
    unfold mget. rewrite lookup_insert_ne by congruence. reflexivity.
  - intros [= <-] _. reflexivity.
Qed.

(** Everything a call of [stakeTokens] that returns went through. *)
Lemma stakeTokens_inv st env amount st' :
  stakeTokens st env amount = Ok st' ->
  let sender := msg_sender env in
  paused env = false /\ 0 < amount <= balanceOf env sender
  /\ exists rewards,
      (if mget (stakedBalance st) sender >? 0 then
         pendingRewards ← calculateStakingRewards st env sender ;
         accrue st sender pendingRewards
       else Ok (stakingRewards st)) = Ok rewards
      /\ mget (stakedBalance st) sender + amount <= MAX_UINT256
      /\ st' = mkState (self st) (owner st)
                 (<[sender := mget (stakedBalance st) sender + amount]>
                    (stakedBalance st))
                 rewards
                 (<[sender := block_timestamp env]> (lastStakeTime st))
                 (stakingAPR st) (protectionBoostMultiplier st)
                 (mevProtectorContract st)
                 (ledger st ++ [Moved sender (self st) amount])
                 (events st
                  ++ [TokensStaked sender amount;
                      ProtectionActivated sender
                        (mget (stakedBalance st) sender + amount)]).
Proof.
  unfold stakeTokens, whenNotPaused. cbv zeta. intros H.
  bind_inv H as u1 Hpaused. apply require_inv in Hpaused.
  bind_inv H as u2 Hamount. apply require_inv in Hamount.
  bind_inv H as u3 Hbalance. apply require_inv in Hbalance.
  bind_inv H as rewards Hrewards.
  bind_inv H as st1 Hmove. apply ledger_call_inv in Hmove as [_ ->].
  bind_inv H as staked Hstaked. apply checked_add_inv in Hstaked as [-> Hfit].
  injection H as <-.
  split; [destruct (paused env); [discriminate | reflexivity]|].
  split; [lia|]. exists rewards. split; [exact Hrewards|].
  split; [exact Hfit | reflexivity].
Qed.

(** Everything a call of [unstakeTokens] that returns went through. *)
Lemma unstakeTokens_inv st env amount st' :
  unstakeTokens st env amount = Ok st' ->
  let sender := msg_sender env in
  0 < amount <= mget (stakedBalance st) sender
  /\ exists pendingRewards rewards,
      calculateStakingRewards st env sender = Ok pendingRewards
      /\ accrue st sender pendingRewards = Ok rewards
      /\ st' = mkState (self st) (owner st)
                 (<[sender := mget (stakedBalance st) sender - amount]>
                    (stakedBalance st))
                 rewards
                 (<[sender := block_timestamp env]> (lastStakeTime st))
                 (stakingAPR st) (protectionBoostMultiplier st)
                 (mevProtectorContract st)
                 (ledger st ++ [Moved (self st) sender amount])
                 (events st ++ [TokensUnstaked sender amount]).
Proof.
  unfold unstakeTokens. cbv zeta. intros H.
  bind_inv H as u1 Hamount. apply require_inv in Hamount.
  bind_inv H as u2 Hstaked. apply require_inv in Hstaked.
  bind_inv H as pending Hpending.
  bind_inv H as rewards Hrewards.
  bind_inv H as staked Hsub. apply checked_sub_inv in Hsub as [-> _].
  bind_inv H as st2 Hmove. apply ledger_call_inv in Hmove as [_ ->].
  injection H as <-.
  split; [lia|]. exists pending, rewards.
  split; [exact Hpending|]. split; [exact Hrewards | reflexivity].
Qed.

(** Everything a call of [claimRewards] that returns went through. *)
Lemma claimRewards_inv st env st' :
  claimRewards st env = Ok st' ->
  let sender := msg_sender env in
  exists pendingRewards,
    calculateStakingRewards st env sender = Ok pendingRewards
    /\ 0 < mget (stakingRewards st) sender + pendingRewards <= MAX_UINT256
    /\ st' = mkState (self st) (owner st) (stakedBalance st)
               (<[sender := 0]> (stakingRewards st))
               (<[sender := block_timestamp env]> (lastStakeTime st))
               (stakingAPR st) (protectionBoostMultiplier st)
               (mevProtectorContract st)
               (ledger st
                ++ [Minted sender
                           (mget (stakingRewards st) sender + pendingRewards)])
               (events st
                ++ [RewardsClaimed sender
                      (mget (stakingRewards st) sender + pendingRewards)]).
Proof.
  unfold claimRewards. cbv zeta. intros H.
  bind_inv H as pending Hpending.
  bind_inv H as total Htotal. apply checked_add_inv in Htotal as [-> Hfit].
  bind_inv H as u1 Hpos. apply require_inv in Hpos.
  bind_inv H as st2 Hmint. apply ledger_call_inv in Hmint as [_ ->].
  injection H as <-.
  exists pending. split; [exact Hpending|]. split; [lia | reflexivity].
Qed.

Lemma rewardThreatReporter_inv st env reporter rewardAmount st' :
  rewardThreatReporter st env reporter rewardAmount = Ok st' ->
  msg_sender env = mevProtectorContract st
  /\ st' = mkState (self st) (owner st) (stakedBalance st) (stakingRewards st)
             (lastStakeTime st) (stakingAPR st) (protectionBoostMultiplier st)
             (mevProtectorContract st)
             (ledger st ++ [Minted reporter rewardAmount])
             (events st ++ [MEVThreatReported reporter rewardAmount]).
Proof.
  unfold rewardThreatReporter, onlyMEVProtector. intros H.
  bind_inv H as u1 Hcaller. apply require_inv in Hcaller.
  bind_inv H as st1 Hmint. apply ledger_call_inv in Hmint as [_ ->].
  injection H as <-. split; [lia | reflexivity].
Qed.

Lemma foldr_add_acc (f : LedgerOp -> Z) (l : list LedgerOp) (a : Z) :
  foldr (fun op acc => f op + acc) a l = foldr (fun op acc => f op + acc) 0 l + a.
Proof. induction l as [|x l IH]; simpl; [lia | rewrite IH; lia]. Qed.

Lemma moved_in_snoc st st' user op :
  self st' = self st ->
  ledger st' = ledger st ++ [op] ->
  moved_in st' user = moved_in st user + gain_in (self st) user op.
Proof.
  intros Hself Hledger. unfold moved_in. rewrite Hself, Hledger, foldr_app.
  cbn [foldr]. rewrite foldr_add_acc. lia.
Qed.

Lemma moved_out_snoc st st' user op :
  self st' = self st ->
  ledger st' = ledger st ++ [op] ->
  moved_out st' user = moved_out st user + gain_out (self st) user op.
Proof.
  intros Hself Hledger. unfold moved_out. rewrite Hself, Hledger, foldr_app.
  cbn [foldr]. rewrite foldr_add_acc. lia.
Qed.

Lemma step_ledger_agrees st st' :
  ledger_agrees st -> step st st' -> self st' = self st /\ ledger_agrees st'.
Proof.
  intros Hagree Hstep.
  destruct Hstep as [env amount Hother H | env amount Hother H | env H
                    | env reporter amount H | env a H | env a H | env a H].
  - apply stakeTokens_inv in H. cbv zeta in H.
    destruct H as (_ & _ & rewards & _ & _ & ->).
    split; [reflexivity|]. intros user Huser. cbn [self] in Huser.
    rewrite (moved_in_snoc st _ user (Moved (msg_sender env) (self st) amount))
      by reflexivity.
    rewrite (moved_out_snoc st _ user (Moved (msg_sender env) (self st) amount))
      by reflexivity.
    cbn [stakedBalance gain_in gain_out].
    replace (msg_sender env =? self st) with false
      by (symmetry; apply Z.eqb_neq; exact Hother).
    rewrite Z.eqb_refl, andb_true_r. cbn [andb].
    destruct (Z.eqb_spec (msg_sender env) user) as [<-|Hne].
    + rewrite mget_insert_eq, (Hagree _ Hother). lia.
    + unfold mget at 1. rewrite lookup_insert_ne by exact Hne.
      fold (mget (stakedBalance st) user). rewrite (Hagree _ Huser). lia.
  - apply unstakeTokens_inv in H. cbv zeta in H.
    destruct H as (_ & pending & rewards & _ & _ & ->).
    split; [reflexivity|]. intros user Huser. cbn [self] in Huser.
    rewrite (moved_in_snoc st _ user (Moved (self st) (msg_sender env) amount))
      by reflexivity.
    rewrite (moved_out_snoc st _ user (Moved (self st) (msg_sender env) amount))
      by reflexivity.
    cbn [stakedBalance gain_in gain_out].
    replace (self st =? user) with false
      by (symmetry; apply Z.eqb_neq; congruence).
    rewrite Z.eqb_refl. cbn [andb].
    destruct (Z.eqb_spec (msg_sender env) user) as [<-|Hne].
    + rewrite mget_insert_eq, (Hagree _ Hother). lia.
    + unfold mget at 1. rewrite lookup_insert_ne by exact Hne.
      fold (mget (stakedBalance st) user). rewrite (Hagree _ Huser). lia.
  - apply claimRewards_inv in H. cbv zeta in H.
    destruct H as (pending & _ & _ & ->).
    split; [reflexivity|]. intros user Huser. cbn [self] in Huser.
    rewrite (moved_in_snoc st _ user (Minted (msg_sender env)
               (mget (stakingRewards st) (msg_sender env) + pending)))
      by reflexivity.
    rewrite (moved_out_snoc st _ user (Minted (msg_sender env)
               (mget (stakingRewards st) (msg_sender env) + pending)))
      by reflexivity.
    cbn [stakedBalance gain_in gain_out]. rewrite (Hagree _ Huser). lia.
  - apply rewardThreatReporter_inv in H as [_ ->].
    split; [reflexivity|]. intros user Huser. cbn [self] in Huser.
    rewrite (moved_in_snoc st _ user (Minted reporter amount)) by reflexivity.
    rewrite (moved_out_snoc st _ user (Minted reporter amount)) by reflexivity.
    cbn [stakedBalance gain_in gain_out]. rewrite (Hagree _ Huser). lia.
  - unfold setMEVProtectorContract in H. bind_inv H as u1 Hown.
    injection H as <-. split; [reflexivity | exact Hagree].
  - unfold setStakingAPR in H. bind_inv H as u1 Hown. bind_inv H as u2 Hcap.
    injection H as <-. split; [reflexivity | exact Hagree].
  - unfold setProtectionBoostMultiplier in H. bind_inv H as u1 Hown.
    bind_inv H as u2 Hcap. injection H as <-.
    split; [reflexivity | exact Hagree].
Qed.

Lemma constructor_inv this env t l st :
  constructor this env t l = Ok st ->
  self st = this /\ stakedBalance st = ∅
  /\ ledger st = [Minted t GOVERNANCE_TREASURY; Minted l LIQUIDITY_REWARDS;
                  Minted (msg_sender env) (TEAM_ALLOCATION + COMMUNITY_AIRDROP)].
Proof.
  unfold constructor. cbv zeta. intros H.
  bind_inv H as u1 H1. bind_inv H as u2 H2.
  bind_inv H as st1 Hm1. apply ledger_call_inv in Hm1 as [_ ->].
  bind_inv H as st2 Hm2. apply ledger_call_inv in Hm2 as [_ ->].
  bind_inv H as amount Hamount. apply checked_add_inv in Hamount as [-> _].
  apply ledger_call_inv in H as [_ ->].
  repeat split; reflexivity.
Qed.

(** X19. The staking book agrees with the ledger. From deployment on,
    through any calls of [stakeTokens], [unstakeTokens], [claimRewards],
    [rewardThreatReporter] and the owner's setters, the staked balance of
    every account is
    what the account has moved into the contract's custody less what the
    contract has moved back to it; rewards are minted and never taken out
    of the custody. The three mints of the constructor add up to the total
    supply. *)
Theorem staking_book_agrees_with_ledger :
  forall this env _treasuryAddress _liquidityRewardsAddress st0 st,
    constructor this env _treasuryAddress _liquidityRewardsAddress = Ok st0 ->
    rtc step st0 st ->
    ledger_agrees st
    /\ foldr (fun op acc => match op with
                            | Minted _ amount => amount + acc
                            | Moved _ _ _ => acc
                            end) 0 (ledger st0) = TOTAL_SUPPLY.
Proof.
  intros this env t l st0 st Hdeploy Hsteps.
  apply constructor_inv in Hdeploy as (Hself & Hstaked & Hledger).
  split.
  - revert st Hsteps. apply (rtc_ind_r (fun st => ledger_agrees st)).
    + intros user _. unfold moved_in, moved_out. rewrite Hstaked, Hledger.
      reflexivity.
    + intros y z _ Hstep Hagree. exact (proj2 (step_ledger_agrees y z Hagree Hstep)).
  - rewrite Hledger. reflexivity.
Qed.

Lemma staking_book_agrees_with_ledger_witness :
  exists st,
    stakeTokens launched (token_call holder 1000) (200 * ether) = Ok st
    /\ ledger_agrees st.
Proof.
  eexists. split; [vm_compute; reflexivity|].
  refine (proj1 (staking_book_agrees_with_ledger 70 (token_call deployer 0) 88 89
                   launched _ _ _)).
  - vm_compute. reflexivity.
  - apply rtc_once.
    apply (step_stakeTokens _ _ (token_call holder 1000) (200 * ether)).
    + vm_compute. discriminate.
    + vm_compute. reflexivity.
Defined.

Lemma calculateStakingRewards_just_staked st env user :
  mget (lastStakeTime st) user = block_timestamp env ->
  mget (stakedBalance st) user = 0
  \/ mget (stakedBalance st) user * stakingAPR st <= MAX_UINT256 ->
  calculateStakingRewards st env user = Ok 0.
Proof.
  intros Hlast Hfit. unfold calculateStakingRewards.
  destruct (Z.eqb_spec (mget (stakedBalance st) user) 0) as [_|Hnz];
    [reflexivity|].
  destruct Hfit as [Hzero | Hfit]; [contradiction|].
  rewrite Hlast.
  rewrite (checked_sub_Ok (block_timestamp env) (block_timestamp env)) by lia.
  run.
  rewrite (checked_mul_Ok (mget (stakedBalance st) user) (stakingAPR st) Hfit).
  run. rewrite Z.sub_diag.
  rewrite (checked_mul_Ok (mget (stakedBalance st) user * stakingAPR st) 0)
    by (rewrite Z.mul_0_r; pose proof MAX_UINT256_pos; lia).
  run. rewrite Z.mul_0_r.
  rewrite (checked_div_Ok 0 YEAR_IN_BASIS_POINTS) by discriminate. run.
  rewrite Zdiv_0_l.
  destruct (negb _); [|reflexivity].
  rewrite (checked_mul_Ok 0 (protectionBoostMultiplier st))
    by (pose proof MAX_UINT256_pos; lia).
  run. rewrite (checked_div_Ok _ 100) by discriminate. reflexivity.
Qed.

Lemma calculateStakingRewards_nonneg st env user r :
  0 <= mget (stakedBalance st) user ->
  0 <= stakingAPR st ->
  0 <= protectionBoostMultiplier st ->
  calculateStakingRewards st env user = Ok r ->
  0 <= r.
Proof.
  intros Hstaked Hapr Hboost. unfold calculateStakingRewards.
  destruct (_ =? 0); [intros [= <-]; lia|]. intros H.
  bind_inv H as d Hd. apply checked_sub_inv in Hd as [-> Hd].
  bind_inv H as m1 Hm1. apply checked_mul_inv in Hm1 as [-> _].
  bind_inv H as m2 Hm2. apply checked_mul_inv in Hm2 as [-> _].
  bind_inv H as base Hbase. apply checked_div_inv in Hbase as [-> _].
  assert (Hpos : 0 <= mget (stakedBalance st) user * stakingAPR st
                      * (block_timestamp env - mget (lastStakeTime st) user)
                      / YEAR_IN_BASIS_POINTS).
  { apply Z.div_pos; [|reflexivity]. apply Z.mul_nonneg_nonneg; [|lia].
    apply Z.mul_nonneg_nonneg; assumption. }
  destruct (negb _).
  - bind_inv H as m3 Hm3. apply checked_mul_inv in Hm3 as [-> _].
    apply checked_div_inv in H as [-> _].
    apply Z.div_pos; [|lia]. apply Z.mul_nonneg_nonneg; assumption.
  - injection H as <-. exact Hpos.
Qed.

(** The rewards of [user] read the same in two states that hold the same
    entries for [user] and the same parameters. *)
Lemma calculateStakingRewards_ext st st' env user :
  mget (stakedBalance st') user = mget (stakedBalance st) user ->
  mget (lastStakeTime st') user = mget (lastStakeTime st) user ->
  stakingAPR st' = stakingAPR st ->
  protectionBoostMultiplier st' = protectionBoostMultiplier st ->
  mevProtectorContract st' = mevProtectorContract st ->
  calculateStakingRewards st' env user = calculateStakingRewards st env user.
Proof.
  intros H1 H2 H3 H4 H5. unfold calculateStakingRewards.
  rewrite H1, H2, H3, H4, H5. reflexivity.
Qed.

Lemma mget_insert_ne (m : gmap Z Z) (k k' v : Z) :
  k <> k' -> mget (<[k := v]> m) k' = mget m k'.
Proof. intros Hne. unfold mget. rewrite lookup_insert_ne by exact Hne. reflexivity. Qed.

Lemma accrue_claimable st env user pending rewards :
  calculateStakingRewards st env user = Ok pending ->
  0 <= pending ->
  mget (stakingRewards st) user <= MAX_UINT256 ->
  accrue st user pending = Ok rewards ->
  claimable st env user = Ok (mget rewards user)
  /\ mget rewards user <= MAX_UINT256.
Proof.
  intros Hcalc Hpos Hfit Haccrue. unfold claimable. rewrite Hcalc. run.
  unfold accrue in Haccrue.
  destruct (Z.gtb_spec pending 0) as [Hsome | Hnone].
  - bind_inv Haccrue as r Hr. rewrite Hr.
    apply checked_add_inv in Hr as [-> Hr]. injection Haccrue as <-.
    rewrite mget_insert_eq. split; [reflexivity | exact Hr].
  - injection Haccrue as <-. replace pending with 0 by lia.
    rewrite checked_add_Ok by lia. rewrite Z.add_0_r.
    split; [reflexivity | exact Hfit].
Qed.

Lemma claimable_just_staked st env user :
  mget (lastStakeTime st) user = block_timestamp env ->
  mget (stakedBalance st) user = 0
  \/ mget (stakedBalance st) user * stakingAPR st <= MAX_UINT256 ->
  mget (stakingRewards st) user <= MAX_UINT256 ->
  claimable st env user = Ok (mget (stakingRewards st) user).
Proof.
  intros Hlast Hfit Hrewards. unfold claimable.
  rewrite (calculateStakingRewards_just_staked st env user Hlast Hfit). run.
  rewrite checked_add_Ok by lia. rewrite Z.add_0_r. reflexivity.
Qed.

Lemma claimable_ext st st' env user :
  mget (stakedBalance st') user = mget (stakedBalance st) user ->
  mget (lastStakeTime st') user = mget (lastStakeTime st) user ->
  mget (stakingRewards st') user = mget (stakingRewards st) user ->
  stakingAPR st' = stakingAPR st ->
  protectionBoostMultiplier st' = protectionBoostMultiplier st ->
  mevProtectorContract st' = mevProtectorContract st ->
  claimable st' env user = claimable st env user.
Proof.
  intros H1 H2 H3 H4 H5 H6. unfold claimable.
  rewrite (calculateStakingRewards_ext st st' env user H1 H2 H4 H5 H6), H3.
  reflexivity.
Qed.

Lemma stakeTokens_keeps_claimable st env amount st' :
  0 <= stakingAPR st ->
  0 <= protectionBoostMultiplier st ->
  0 <= mget (stakedBalance st) (msg_sender env) ->
  mget (stakingRewards st) (msg_sender env) <= MAX_UINT256 ->
  (mget (stakedBalance st) (msg_sender env) + amount) * stakingAPR st
  <= MAX_UINT256 ->
  stakeTokens st env amount = Ok st' ->
  (exists c, claimable st env (msg_sender env) = Ok c
             /\ claimable st' env (msg_sender env) = Ok c)
  /\ (forall other, other <> msg_sender env ->
        claimable st' env other = claimable st env other).
Proof.
  intros Hapr Hboost Hstaked Hrewards Hfit H.
  apply stakeTokens_inv in H. cbv zeta in H.
  destruct H as (_ & Hamount & rewards & Haccrue & _ & ->). split.
  - assert (Hbefore : claimable st env (msg_sender env)
                      = Ok (mget rewards (msg_sender env))
                      /\ mget rewards (msg_sender env) <= MAX_UINT256).
    { destruct (Z.gtb_spec (mget (stakedBalance st) (msg_sender env)) 0)
        as [Hsome | Hnone].
      - bind_inv Haccrue as pending Hpending.
        apply (accrue_claimable st env (msg_sender env) pending rewards Hpending);
          [|exact Hrewards | exact Haccrue].
        apply (calculateStakingRewards_nonneg st env (msg_sender env) pending);
          assumption.
      - injection Haccrue as <-. split; [|exact Hrewards].
        unfold claimable, calculateStakingRewards.
        replace (mget (stakedBalance st) (msg_sender env) =? 0) with true
          by (symmetry; apply Z.eqb_eq; lia).
        run. rewrite checked_add_Ok by lia. rewrite Z.add_0_r. reflexivity. }
    destruct Hbefore as [Hbefore Hroom].
    exists (mget rewards (msg_sender env)). split; [exact Hbefore|].
    apply claimable_just_staked; cbn [lastStakeTime stakedBalance stakingAPR
                                      stakingRewards].
    + apply mget_insert_eq.
    + right. rewrite mget_insert_eq. exact Hfit.
    + exact Hroom.
  - intros other Hne.
    apply claimable_ext; cbn [stakedBalance lastStakeTime stakingRewards
                              stakingAPR protectionBoostMultiplier
                              mevProtectorContract];
      try reflexivity; try (apply mget_insert_ne; congruence).
    destruct (mget (stakedBalance st) (msg_sender env) >? 0).
    + bind_inv Haccrue as pending Hpending.
      apply (accrue_others st (msg_sender env) pending rewards other Haccrue Hne).
    + injection Haccrue as <-. reflexivity.
Qed.

Lemma unstakeTokens_keeps_claimable st env amount st' :
  0 <= stakingAPR st ->
  0 <= protectionBoostMultiplier st ->
  mget (stakingRewards st) (msg_sender env) <= MAX_UINT256 ->
  unstakeTokens st env amount = Ok st' ->
  (exists c, claimable st env (msg_sender env) = Ok c
             /\ claimable st' env (msg_sender env) = Ok c)
  /\ (forall other, other <> msg_sender env ->
        claimable st' env other = claimable st env other).
Proof.
  intros Hapr Hboost Hrewards H.
  apply unstakeTokens_inv in H. cbv zeta in H.
  destruct H as (Hamount & pending & rewards & Hpending & Haccrue & ->). split.
  - assert (Hpos : 0 <= pending).
    { apply (calculateStakingRewards_nonneg st env (msg_sender env) pending);
        [lia | assumption | assumption | exact Hpending]. }
    destruct (accrue_claimable st env (msg_sender env) pending rewards Hpending Hpos Hrewards
                               Haccrue) as [Hbefore Hroom].
    exists (mget rewards (msg_sender env)). split; [exact Hbefore|].
    apply claimable_just_staked; cbn [lastStakeTime stakedBalance stakingAPR
                                      stakingRewards].
    + apply mget_insert_eq.
    + right. rewrite mget_insert_eq.
      assert (Hm1 : mget (stakedBalance st) (msg_sender env) * stakingAPR st
                    <= MAX_UINT256).
      { unfold calculateStakingRewards in Hpending.
        destruct (Z.eqb_spec (mget (stakedBalance st) (msg_sender env)) 0)
          as [Hz|_]; [lia|].
        bind_inv Hpending as d Hd. bind_inv Hpending as m1 Hm1.
        apply checked_mul_inv in Hm1 as [_ Hm1]. exact Hm1. }
      nia.
    + exact Hroom.
  - intros other Hne.
    apply claimable_ext; cbn [stakedBalance lastStakeTime stakingRewards
                              stakingAPR protectionBoostMultiplier
                              mevProtectorContract];
      try reflexivity; try (apply mget_insert_ne; congruence).
    apply (accrue_others st (msg_sender env) pending rewards other Haccrue Hne).
Qed.

Lemma claimRewards_pays_claimable st env st' :
  claimRewards st env = Ok st' ->
  exists c,
    claimable st env (msg_sender env) = Ok c
    /\ 0 < c
    /\ ledger st' = ledger st ++ [Minted (msg_sender env) c]
    /\ stakedBalance st' = stakedBalance st
    /\ claimable st' env (msg_sender env) = Ok 0
    /\ claimRewards st' env = Err (Revert "No rewards to claim").
Proof.
  intros H. apply claimRewards_inv in H. cbv zeta in H.
  destruct H as (pending & Hpending & Htotal & ->).
  exists (mget (stakingRewards st) (msg_sender env) + pending).
  split.
  { unfold claimable. rewrite Hpending. run. apply checked_add_Ok. lia. }
  split; [lia|]. split; [reflexivity|]. split; [reflexivity|].
  set (st' := mkState _ _ _ _ _ _ _ _ _ _).
  assert (Hzero : calculateStakingRewards st' env (msg_sender env) = Ok 0).
  { apply calculateStakingRewards_just_staked;
      unfold st'; cbn [lastStakeTime stakedBalance stakingAPR].
    - apply mget_insert_eq.
    - unfold calculateStakingRewards in Hpending.
      destruct (Z.eqb_spec (mget (stakedBalance st) (msg_sender env)) 0)
        as [Hz|_]; [left; exact Hz | right].
      bind_inv Hpending as d Hd. bind_inv Hpending as m1 Hm1.
      apply checked_mul_inv in Hm1 as [_ Hm1]. exact Hm1. }
  assert (Hnone : mget (stakingRewards st') (msg_sender env) = 0)
    by (unfold st'; cbn [stakingRewards]; apply mget_insert_eq).
  split.
  - unfold claimable. rewrite Hzero. run. rewrite Hnone. reflexivity.
  - unfold claimRewards. cbv zeta. rewrite Hzero. run. rewrite Hnone.
    reflexivity.
Qed.

(** X20. Rewards survive staking and are paid once. A call of
    [stakeTokens] or [unstakeTokens] that returns leaves what the caller
    can claim at that moment, booked plus pending rewards, as it was, and
    touches no other account's rewards; a call of [claimRewards] that
    returns mints exactly that amount, which is positive, leaves the stake
    alone, and leaves nothing to claim: the same call made again at the
    same block time fails with "No rewards to claim". *)
Theorem rewards_survive_staking_and_are_paid_once :
  (forall st env amount st',
      0 <= stakingAPR st ->
      0 <= protectionBoostMultiplier st ->
      0 <= mget (stakedBalance st) (msg_sender env) ->
      mget (stakingRewards st) (msg_sender env) <= MAX_UINT256 ->
      (mget (stakedBalance st) (msg_sender env) + amount) * stakingAPR st
      <= MAX_UINT256 ->
      stakeTokens st env amount = Ok st' ->
      (exists c, claimable st env (msg_sender env) = Ok c
                 /\ claimable st' env (msg_sender env) = Ok c)
      /\ (forall other, other <> msg_sender env ->
            claimable st' env other = claimable st env other))
  /\ (forall st env amount st',
         0 <= stakingAPR st ->
         0 <= protectionBoostMultiplier st ->
         mget (stakingRewards st) (msg_sender env) <= MAX_UINT256 ->
         unstakeTokens st env amount = Ok st' ->
         (exists c, claimable st env (msg_sender env) = Ok c
                    /\ claimable st' env (msg_sender env) = Ok c)
         /\ (forall other, other <> msg_sender env ->
               claimable st' env other = claimable st env other))
  /\ (forall st env st',
         claimRewards st env = Ok st' ->
         exists c,
           claimable st env (msg_sender env) = Ok c
           /\ 0 < c
           /\ ledger st' = ledger st ++ [Minted (msg_sender env) c]
           /\ stakedBalance st' = stakedBalance st
           /\ claimable st' env (msg_sender env) = Ok 0
           /\ claimRewards st' env = Err (Revert "No rewards to claim")).
Proof.
  split; [exact stakeTokens_keeps_claimable|].
  split; [exact unstakeTokens_keeps_claimable | exact claimRewards_pays_claimable].
Qed.

Lemma rewards_survive_staking_and_are_paid_once_witness :
  (exists st',
      stakeTokens staked (token_call holder 2000) (100 * ether) = Ok st'
      /\ exists c, claimable staked (token_call holder 2000) holder = Ok c
                   /\ claimable st' (token_call holder 2000) holder = Ok c)
  /\ (exists st',
         unstakeTokens staked (token_call holder 2000) (100 * ether) = Ok st'
         /\ exists c, claimable staked (token_call holder 2000) holder = Ok c
                      /\ claimable st' (token_call holder 2000) holder = Ok c)
  /\ (exists st',
         claimRewards staked (token_call holder 31537000) = Ok st'
         /\ exists c,
             claimable staked (token_call holder 31537000) holder = Ok c
             /\ 0 < c
             /\ ledger st' = ledger staked ++ [Minted holder c]
             /\ stakedBalance st' = stakedBalance staked
             /\ claimable st' (token_call holder 31537000) holder = Ok 0
             /\ claimRewards st' (token_call holder 31537000)
                = Err (Revert "No rewards to claim")).
Proof.
  split; [|split].
  - eexists. split; [vm_compute; reflexivity|].
    refine (proj1 (proj1 rewards_survive_staking_and_are_paid_once
                     staked (token_call holder 2000) (100 * ether) _ _ _ _ _ _ _)).
    + vm_compute. discriminate.
    + vm_compute. discriminate.
    + vm_compute. discriminate.
    + vm_compute. discriminate.
    + vm_compute. discriminate.
    + vm_compute. reflexivity.
  - eexists. split; [vm_compute; reflexivity|].
    refine (proj1 (proj1 (proj2 rewards_survive_staking_and_are_paid_once)
                     staked (token_call holder 2000) (100 * ether) _ _ _ _ _)).
    + vm_compute. discriminate.
    + vm_compute. discriminate.
    + vm_compute. discriminate.
    + vm_compute. reflexivity.
  - eexists. split; [vm_compute; reflexivity|].
    apply (proj2 (proj2 rewards_survive_staking_and_are_paid_once)
                 staked (token_call holder 31537000)).
    vm_compute. reflexivity.
Defined.

End TokenExtras.

(** ** The basic protector: activation, threats, reports, prices *)

Section RegistryExtras.
Import ThreatRegistry RegistryLifecycle TokenScenarios RegistryScenarios.

Lemma flag_insert_eq (m : gmap Z bool) (k : Z) (b : bool) :
  flag (<[k := b]> m) k = b.
Proof. unfold flag. rewrite lookup_insert_eq. reflexivity. Qed.

Lemma flag_insert_ne (m : gmap Z bool) (k k' : Z) (b : bool) :
  k <> k' -> flag (<[k := b]> m) k' = flag m k'.
Proof. intros Hne. unfold flag. rewrite lookup_insert_ne by exact Hne. reflexivity. Qed.

Lemma threat_of_insert_eq st detected stored counts threatId data :
  threat_of (with_threats st detected (<[threatId := data]> stored) counts) threatId
  = data.
Proof. unfold threat_of. cbn [threats with_threats]. rewrite lookup_insert_eq. reflexivity. Qed.

Lemma reward_inv w env reporter amount w' :
  reward w env reporter amount = Ok w' ->
  self (protector w) = AegilonToken.mevProtectorContract (token w)
  /\ protector w' = protector w
  /\ events w' = events w
  /\ AegilonToken.ledger (token w')
     = AegilonToken.ledger (token w) ++ [AegilonToken.Minted reporter amount]
  /\ AegilonToken.stakedBalance (token w') = AegilonToken.stakedBalance (token w)
  /\ AegilonToken.mevProtectorContract (token w')
     = AegilonToken.mevProtectorContract (token w).
Proof.
  unfold reward. intros H. bind_inv H as t Ht. injection H as <-.
  apply rewardThreatReporter_inv in Ht as [Hcaller ->].
  cbn [token_env AegilonToken.msg_sender] in Hcaller.
  repeat split; try reflexivity. exact Hcaller.
Qed.

Lemma ThreatType_of_inv n kind :
  ThreatType_of n = Ok kind -> 0 <= n <= 5.
Proof.
  unfold ThreatType_of.
  repeat match goal with
         | |- context [n =? ?c] => destruct (Z.eqb_spec n c); [intros _; lia|]
         end.
  discriminate.
Qed.

Lemma executeProtection_level st threatId kind b :
  threatType (threat_of st threatId) = kind ->
  executeProtection st threatId = Ok b ->
  b = (required_level kind
       <=? mget (protectionLevel st) (target (threat_of st threatId))).
Proof.
  intros Hkind H. unfold executeProtection in H. cbv zeta in H.
  bind_inv H as u1 H1. bind_inv H as u2 H2. injection H as <-.
  rewrite Hkind.
  destruct kind; cbn [required_level];
    unfold preventSandwichAttack, preventFrontrunning, preventJITLiquidity,
      executeGenericProtection; apply Z.geb_leb.
Qed.

(** Everything a call of [detectMEVThreat] that returns went through. *)
Lemma detectMEVThreat_inv w env target attacker threatType transactionData w' id :
  detectMEVThreat w env target attacker threatType transactionData = Ok (w', id) ->
  msg_sender env = MEVProtector.authorizedIndexer (prices (protector w))
  /\ id = keccak256 env target attacker threatType (block_timestamp env)
                    transactionData
  /\ flag (detectedThreats (protector w)) id = false
  /\ exists kind,
      ThreatType_of threatType = Ok kind
      /\ let stopped :=
           flag (isProtected (protector w)) target
           && (required_level kind
               <=? mget (protectionLevel (protector w)) target) in
         getThreatData w' id
         = mkThreatData target attacker kind (block_timestamp env)
             (analyzeThreatSeverity target attacker kind transactionData)
             stopped (msg_sender env)
         /\ flag (detectedThreats (protector w')) id = true
         /\ prices (protector w') = prices (protector w)
         /\ isProtected (protector w') = isProtected (protector w)
         /\ protectionLevel (protector w') = protectionLevel (protector w)
         /\ mget (successfulPrevented (protector w')) target
            = mget (successfulPrevented (protector w)) target
              + (if stopped then 1 else 0)
         /\ AegilonToken.ledger (token w')
            = AegilonToken.ledger (token w)
              ++ (if stopped
                  then [AegilonToken.Minted target
                          (protectionSuccessReward (protector w))]
                  else [])
         /\ events w'
            = events w
              ++ MEVThreatDetected id target attacker threatType
                                   (block_timestamp env)
              :: (if stopped
                  then [MEVThreatPrevented id target
                          (analyzeThreatSeverity target attacker kind
                                                 transactionData)
                          (block_timestamp env)]
                  else []).
Proof.
  unfold detectMEVThreat, onlyIndexer. cbv zeta. intros H.
  bind_inv H as u1 Hindexer. apply require_inv in Hindexer.
  bind_inv H as u2 Hnew. apply require_inv in Hnew.
  bind_inv H as kind Hkind.
  split; [lia|].
  set (tid := keccak256 env target attacker threatType (block_timestamp env)
                        transactionData) in *.
  cbn [isProtected with_threats] in H.
  destruct (flag (isProtected (protector w)) target) eqn:Hprotected.
  - bind_inv H as stopped Hstopped.
    apply (executeProtection_level _ _ kind) in Hstopped;
      [|rewrite threat_of_insert_eq; reflexivity].
    rewrite threat_of_insert_eq in Hstopped.
    cbn [ThreatRegistry.target protectionLevel with_threats] in Hstopped.
    subst stopped.
    destruct (required_level kind <=? _) eqn:Hlevel.
    + bind_inv H as count Hcount. apply checked_add_inv in Hcount as [-> _].
      bind_inv H as w2 Hreward. injection H as <- <-.
      apply reward_inv in Hreward
        as (_ & Hprotector & Hevents & Hledger & _ & _).
      split; [reflexivity|].
      split; [destruct (flag _ tid); [discriminate | reflexivity]|].
      exists kind. split; [exact Hkind|]. rewrite Hlevel. cbn [andb].
      unfold getThreatData. cbn [protector emit events token].
      rewrite Hprotector, Hevents, Hledger.
      cbn [protector with_protector emit events token with_threats
           detectedThreats isProtected protectionLevel successfulPrevented
           protectionSuccessReward prices].
      rewrite threat_of_insert_eq, flag_insert_eq, mget_insert_eq,
        <- app_assoc.
      repeat split; reflexivity.
    + injection H as <- <-.
      split; [reflexivity|].
      split; [destruct (flag _ tid); [discriminate | reflexivity]|].
      exists kind. split; [exact Hkind|]. rewrite Hlevel. cbn [andb].
      unfold getThreatData.
      cbn [protector with_protector emit events token with_threats
           detectedThreats isProtected protectionLevel successfulPrevented prices].
      rewrite threat_of_insert_eq, flag_insert_eq, app_nil_r, Z.add_0_r.
      repeat split; reflexivity.
  - injection H as <- <-.
    split; [reflexivity|].
    split; [destruct (flag _ tid); [discriminate | reflexivity]|].
    exists kind. split; [exact Hkind|]. cbn [andb].
    unfold getThreatData.
    cbn [protector with_protector emit events token with_threats
         detectedThreats isProtected protectionLevel successfulPrevented prices].
    rewrite threat_of_insert_eq, flag_insert_eq, app_nil_r, Z.add_0_r.
    repeat split; reflexivity.
Qed.

(** X21. What the indexer's [detectMEVThreat] does with a threat. A call
    that returns has stored the threat under its hash with the loss
    estimated for its type (1000, 500 or 100 tokens), and has prevented it
    exactly when the target is protected at a level that suffices: 2 for a
    sandwich attack, 3 for JIT liquidity, 1 for every other type. A
    prevented threat is counted for the target and rewarded with one mint
    of [protectionSuccessReward]; no other threat mints anything. The same
    threat reported again in the same block is refused. Callers other than
    the indexer are refused, and so is, with panic 0x21, a threat type
    above 5. *)
Theorem threat_prevented_iff_level_suffices :
  (forall w env target attacker threatType transactionData w' id,
      detectMEVThreat w env target attacker threatType transactionData
      = Ok (w', id) ->
      exists kind,
        ThreatType_of threatType = Ok kind
        /\ (prevented (getThreatData w' id) = true <->
            flag (isProtected (protector w)) target = true
            /\ required_level kind
               <= mget (protectionLevel (protector w)) target)
        /\ estimatedLoss (getThreatData w' id)
           = match kind with
             | SandwichAttack => 1000 * 10 ^ 18
             | Frontrunning => 500 * 10 ^ 18
             | _ => 100 * 10 ^ 18
             end
        /\ (if prevented (getThreatData w' id)
            then AegilonToken.ledger (token w')
                 = AegilonToken.ledger (token w)
                   ++ [AegilonToken.Minted target
                         (protectionSuccessReward (protector w))]
                 /\ mget (successfulPrevented (protector w')) target
                    = mget (successfulPrevented (protector w)) target + 1
            else AegilonToken.ledger (token w') = AegilonToken.ledger (token w)
                 /\ mget (successfulPrevented (protector w')) target
                    = mget (successfulPrevented (protector w)) target)
        /\ detectMEVThreat w' env target attacker threatType transactionData
           = Err (Revert "Threat already detected"))
  /\ (forall w env target attacker threatType transactionData,
         msg_sender env <> MEVProtector.authorizedIndexer (prices (protector w)) ->
         detectMEVThreat w env target attacker threatType transactionData
         = Err (Revert "Only authorized indexer"))
  /\ (forall w env target attacker threatType transactionData,
         msg_sender env = MEVProtector.authorizedIndexer (prices (protector w)) ->
         flag (detectedThreats (protector w))
              (keccak256 env target attacker threatType (block_timestamp env)
                         transactionData) = false ->
         5 < threatType ->
         detectMEVThreat w env target attacker threatType transactionData
         = Err (Panic ENUM_CONVERSION)).
Proof.
  split; [|split].
  - intros w env target attacker threatType transactionData w' id H.
    apply detectMEVThreat_inv in H.
    destruct H as (Hindexer & -> & Hnew & kind & Hkind & H). cbv zeta in H.
    destruct H as (Hdata & Hflag & Hprices & _ & _ & Hcount & Hledger & _).
    exists kind. split; [exact Hkind|]. rewrite Hdata.
    cbn [prevented estimatedLoss]. split.
    { rewrite andb_true_iff, Z.leb_le. reflexivity. }
    split; [destruct kind; reflexivity|].
    split.
    { destruct (flag _ target && _).
      - split; [exact Hledger | exact Hcount].
      - rewrite app_nil_r in Hledger. rewrite Z.add_0_r in Hcount.
        split; [exact Hledger | exact Hcount]. }
    unfold detectMEVThreat, onlyIndexer. cbv zeta. rewrite Hprices.
    rewrite (require_Ok _ _ (proj2 (Z.eqb_eq _ _) Hindexer)). run.
    rewrite Hflag. reflexivity.
  - intros w env target attacker threatType transactionData Hother.
    unfold detectMEVThreat, onlyIndexer. cbv zeta.
    apply Z.eqb_neq in Hother. rewrite Hother. reflexivity.
  - intros w env target attacker threatType transactionData Hindexer Hnew Hbig.
    unfold detectMEVThreat, onlyIndexer. cbv zeta.
    rewrite (require_Ok _ _ (proj2 (Z.eqb_eq _ _) Hindexer)). run.
    rewrite Hnew. cbn [negb]. run.
    unfold ThreatType_of.
    repeat match goal with
           | |- context [threatType =? ?c] =>
               destruct (Z.eqb_spec threatType c); [lia|]
           end.
    reflexivity.
Qed.

Lemma threat_prevented_iff_level_suffices_witness :
  (exists w' id,
      detectMEVThreat covered (call indexer 1500) holder 9 0 [] = Ok (w', id)
      /\ prevented (getThreatData w' id) = true
      /\ detectMEVThreat w' (call indexer 1500) holder 9 0 []
         = Err (Revert "Threat already detected"))
  /\ detectMEVThreat covered (call holder 1500) holder 9 0 []
     = Err (Revert "Only authorized indexer")
  /\ detectMEVThreat covered (call indexer 1500) holder 9 6 []
     = Err (Panic ENUM_CONVERSION).
Proof.
  split; [|split].
  - do 2 eexists. split; [vm_compute; reflexivity|].
    destruct (proj1 threat_prevented_iff_level_suffices covered
                (call indexer 1500) holder 9 0 [] _ _ eq_refl)
      as (kind & Hkind & Hprevented & _ & _ & Hagain).
    split; [|exact Hagain].
    apply Hprevented. injection Hkind as <-.
    split; [reflexivity | vm_compute; discriminate].
  - apply (proj1 (proj2 threat_prevented_iff_level_suffices)).
    vm_compute. discriminate.
  - apply (proj2 (proj2 threat_prevented_iff_level_suffices)).
    + reflexivity.
    + reflexivity.
    + reflexivity.
Defined.

Lemma activateProtection_inv w env w' :
  activateProtection w env = Ok w' ->
  paused env = false
  /\ 0 < AegilonToken.getProtectionLevel (token w) (msg_sender env)
  /\ w' = emit (with_protector w
                  (with_protection (protector w) (msg_sender env) true
                     (AegilonToken.getProtectionLevel (token w) (msg_sender env))))
               [ProtectionActivated (msg_sender env)
                  (AegilonToken.getProtectionLevel (token w) (msg_sender env))].
Proof.
  unfold activateProtection. cbv zeta. intros H.
  bind_inv H as u1 Hpaused. apply require_inv in Hpaused.
  bind_inv H as u2 Hlevel. apply require_inv in Hlevel.
  injection H as <-.
  split; [destruct (paused env); [discriminate | reflexivity]|].
  split; [lia | reflexivity].
Qed.

(** X22. The protection level is a snapshot. [activateProtection] needs a
    stake of at least 10 tokens and an unpaused contract, and stores the
    level the token computes at that moment. Whatever happens to the
    token afterwards, unstaking everything included, a threat against the
    user is prevented according to the stored level; since that level is
    at least 1, every threat other than a sandwich attack or JIT
    liquidity is prevented. [deactivateProtection] works even when the
    contract is paused and resets the level to 0. *)
Theorem protection_level_is_a_snapshot :
  forall w env w1,
    activateProtection w env = Ok w1 ->
    let user := msg_sender env in
    let level := AegilonToken.getProtectionLevel (token w) user in
    paused env = false
    /\ 10 * AegilonToken.ether <= mget (AegilonToken.stakedBalance (token w)) user
    /\ 1 <= level <= 5
    /\ getUserProtectionStatus w1 user
       = (true, level, mget (threatReports (protector w)) user,
          mget (successfulPrevented (protector w)) user)
    /\ (forall later ienv attacker threatType transactionData w2 id,
           detectMEVThreat (with_token w1 later) ienv user attacker threatType
                           transactionData = Ok (w2, id) ->
           exists kind,
             ThreatType_of threatType = Ok kind
             /\ prevented (getThreatData w2 id) = (required_level kind <=? level)
             /\ (required_level kind = 1 -> prevented (getThreatData w2 id) = true))
    /\ (forall env2,
           msg_sender env2 = user ->
           exists w2,
             deactivateProtection w1 env2 = Ok w2
             /\ getUserProtectionStatus w2 user
                = (false, 0, mget (threatReports (protector w)) user,
                   mget (successfulPrevented (protector w)) user)).
Proof.
  intros w env w1 H. cbv zeta.
  apply activateProtection_inv in H as (Hpaused & Hlevel & ->).
  destruct (getProtectionLevel_range (token w) (msg_sender env)) as (Hrange & Hone).
  split; [exact Hpaused|]. split; [apply Hone; lia|]. split; [lia|].
  unfold getUserProtectionStatus.
  cbn [protector emit with_protector with_protection isProtected protectionLevel
       threatReports successfulPrevented].
  rewrite flag_insert_eq, mget_insert_eq.
  split; [reflexivity|]. split.
  - intros later ienv attacker threatType transactionData w2 id Hdetect.
    apply detectMEVThreat_inv in Hdetect.
    destruct Hdetect as (_ & _ & _ & kind & Hkind & Hdetect).
    cbv zeta in Hdetect. destruct Hdetect as (Hdata & _).
    exists kind. split; [exact Hkind|]. rewrite Hdata. cbn [prevented].
    cbn [protector with_token emit with_protector with_protection isProtected
         protectionLevel].
    rewrite flag_insert_eq, mget_insert_eq. cbn [andb].
    split; [reflexivity|].
    intros ->. apply Z.leb_le. lia.
  - intros env2 Hsender. unfold deactivateProtection.
    cbn [protector emit with_protector with_protection isProtected].
    rewrite Hsender, flag_insert_eq. run.
    eexists. split; [reflexivity|].
    cbn [protector emit with_protector with_protection isProtected protectionLevel
         threatReports successfulPrevented].
    rewrite flag_insert_eq, mget_insert_eq. reflexivity.
Qed.

Lemma protection_level_is_a_snapshot_witness :
  exists w1,
    activateProtection watched (call holder 1200) = Ok w1
    /\ getUserProtectionStatus w1 holder = (true, 2, 0, 0)
    /\ exists later w2 id,
        AegilonToken.unstakeTokens (token w1) (token_call holder 1300)
                                   (200 * AegilonToken.ether) = Ok later
        /\ AegilonToken.getProtectionLevel later holder = 0
        /\ detectMEVThreat (with_token w1 later) (call indexer 1500) holder 9 0 []
           = Ok (w2, id)
        /\ prevented (getThreatData w2 id) = true.
Proof.
  eexists. split; [vm_compute; reflexivity|].
  match goal with
  | |- getUserProtectionStatus ?w1 _ = _ /\ _ =>
      pose proof (protection_level_is_a_snapshot watched (call holder 1200) w1) as H
  end.
  specialize (H ltac:(vm_compute; reflexivity)).
  cbv zeta in H. destruct H as (_ & _ & _ & Hstatus & Hlater & _).
  split; [etransitivity; [exact Hstatus | vm_compute; reflexivity]|].
  do 3 eexists. split; [vm_compute; reflexivity|].
  split; [vm_compute; reflexivity|].
  split; [vm_compute; reflexivity|].
  vm_compute. reflexivity.
Defined.

Lemma reportThreat_Ok w env threatId :
  flag (detectedThreats (protector w)) threatId = true ->
  reporter (threat_of (protector w) threatId) <> msg_sender env ->
  AegilonToken.mevProtectorContract (token w) = self (protector w) ->
  ledger_ok env (AegilonToken.Minted (msg_sender env)
                                     (threatReportReward (protector w))) = true ->
  mget (threatReports (protector w)) (msg_sender env) + 1 <= MAX_UINT256 ->
  reportThreat w env threatId
  = Ok (mkWorld
          (with_reports (protector w)
             (<[msg_sender env := mget (threatReports (protector w)) (msg_sender env) + 1]>
                (threatReports (protector w))))
          (AegilonToken.mkState
             (AegilonToken.self (token w)) (AegilonToken.owner (token w))
             (AegilonToken.stakedBalance (token w))
             (AegilonToken.stakingRewards (token w))
             (AegilonToken.lastStakeTime (token w))
             (AegilonToken.stakingAPR (token w))
             (AegilonToken.protectionBoostMultiplier (token w))
             (AegilonToken.mevProtectorContract (token w))
             (AegilonToken.ledger (token w)
              ++ [AegilonToken.Minted (msg_sender env)
                                      (threatReportReward (protector w))])
             (AegilonToken.events (token w)
              ++ [AegilonToken.MEVThreatReported (msg_sender env)
                    (threatReportReward (protector w))]))
          (events w ++ [ThreatReported (msg_sender env) threatId
                                       (threatReportReward (protector w))])).
Proof.
  intros Hdetected Hother Hcaller Hledger Hfit.
  unfold reportThreat. cbv zeta. rewrite Hdetected. run.
  replace (reporter (threat_of (protector w) threatId) =? msg_sender env)
    with false by (symmetry; apply Z.eqb_neq; exact Hother).
  cbn [negb require]. run.
  rewrite (checked_add_Ok _ 1 Hfit). run.
  unfold reward, AegilonToken.rewardThreatReporter, AegilonToken.onlyMEVProtector,
    AegilonToken.ledger_call.
  cbn [token_env AegilonToken.msg_sender AegilonToken.ledger_ok protector token
       with_protector with_reports self threatReportReward].
  rewrite Hcaller, Z.eqb_refl, Hledger. reflexivity.
Qed.

(** X23. The same threat can be reported over and over. [reportThreat]
    keeps no record of who has reported what: anyone but the indexer that
    stored the threat can report the same threat any number of times, and
    each report counts for the reporter and mints [threatReportReward] to
    the reporter. *)
Theorem same_threat_reported_repeatedly :
  forall n w env threatId,
    flag (detectedThreats (protector w)) threatId = true ->
    reporter (threat_of (protector w) threatId) <> msg_sender env ->
    AegilonToken.mevProtectorContract (token w) = self (protector w) ->
    ledger_ok env (AegilonToken.Minted (msg_sender env)
                                       (threatReportReward (protector w))) = true ->
    mget (threatReports (protector w)) (msg_sender env) + Z.of_nat n
    <= MAX_UINT256 ->
    exists w',
      report_times n w env threatId = Ok w'
      /\ mget (threatReports (protector w')) (msg_sender env)
         = mget (threatReports (protector w)) (msg_sender env) + Z.of_nat n
      /\ AegilonToken.ledger (token w')
         = AegilonToken.ledger (token w)
           ++ replicate n (AegilonToken.Minted (msg_sender env)
                             (threatReportReward (protector w)))
      /\ events w'
         = events w
           ++ replicate n (ThreatReported (msg_sender env) threatId
                             (threatReportReward (protector w))).
Proof.
  induction n as [|n IH]; intros w env threatId Hdetected Hother Hcaller Hledger Hfit.
  - exists w. cbn [report_times replicate]. rewrite !app_nil_r, Z.add_0_r.
    repeat split; reflexivity.
  - cbn [report_times].
    rewrite (reportThreat_Ok w env threatId Hdetected Hother Hcaller Hledger)
      by lia.
    run.
    match goal with
    | |- exists w', report_times n ?w1 env threatId = Ok w' /\ _ =>
        destruct (IH w1 env threatId) as (w' & Hrun & Hcount & Hmints & Hevents)
    end.
    + exact Hdetected.
    + exact Hother.
    + exact Hcaller.
    + exact Hledger.
    + cbn [protector with_reports threatReports]. rewrite mget_insert_eq. lia.
    + exists w'. split; [exact Hrun|].
      cbn [protector token events with_reports threatReports threatReportReward
           AegilonToken.ledger] in Hcount, Hmints, Hevents.
      rewrite mget_insert_eq in Hcount.
      rewrite Hcount, Hmints, Hevents, <- !app_assoc.
      cbn [replicate app]. split; [lia|]. split; reflexivity.
Qed.

Lemma same_threat_reported_repeatedly_witness :
  exists w',
    report_times 3 flagged (call 8 1600) 5 = Ok w'
    /\ mget (threatReports (protector w')) (msg_sender (call 8 1600))
       = mget (threatReports (protector flagged)) (msg_sender (call 8 1600))
         + Z.of_nat 3
    /\ AegilonToken.ledger (token w')
       = AegilonToken.ledger (token flagged)
         ++ replicate 3 (AegilonToken.Minted (msg_sender (call 8 1600))
                           (threatReportReward (protector flagged)))
    /\ events w'
       = events flagged
         ++ replicate 3 (ThreatReported (msg_sender (call 8 1600)) 5
                           (threatReportReward (protector flagged))).
Proof.
  apply (same_threat_reported_repeatedly 3 flagged (call 8 1600) 5).
  - reflexivity.
  - vm_compute. discriminate.
  - reflexivity.
  - reflexivity.
  - vm_compute. discriminate.
Defined.

Lemma price_insert_eq (m : gmap string Z) (k : string) (v : Z) :
  mget (<[k := v]> m) k = v.
Proof. unfold mget. rewrite lookup_insert_eq. reflexivity. Qed.

Lemma price_insert_ne (m : gmap string Z) (k k' : string) (v : Z) :
  k <> k' -> mget (<[k := v]> m) k' = mget m k'.
Proof. intros Hne. unfold mget. rewrite lookup_insert_ne by exact Hne. reflexivity. Qed.

(** X24. The stored oracle price, written and read back. Only the
    authorized indexer can store a price. For 300 seconds from the update
    [checkPriceAnomaly] answers for the symbol from the stored price: a
    current price is an anomaly exactly when it is more than the
    threshold, in basis points of the stored price rounded down, away
    from it, so that the stored price itself is none. A stored price of 0
    reads as no price at all. The answers for the other symbols are
    unchanged. *)
Theorem oracle_price_round_trip :
  forall st env symbol price st1,
    MEVProtector.updateOraclePrice st env symbol price = Ok st1 ->
    MEVProtector.msg_sender env = MEVProtector.authorizedIndexer st
    /\ (forall env1 currentPrice,
           0 < price ->
           MEVProtector.block_timestamp env <= MEVProtector.block_timestamp env1
           < MEVProtector.block_timestamp env + 300 ->
           Z.abs (currentPrice - price) * 10000 <= MAX_UINT256 ->
           MEVProtector.checkPriceAnomaly st1 env1 symbol currentPrice
           = Ok (Z.abs (currentPrice - price) * 10000 / price
                 >? MEVProtector.priceDeviationThreshold st))
    /\ (forall env1,
           0 < price ->
           0 <= MEVProtector.priceDeviationThreshold st ->
           MEVProtector.block_timestamp env <= MEVProtector.block_timestamp env1
           < MEVProtector.block_timestamp env + 300 ->
           MEVProtector.checkPriceAnomaly st1 env1 symbol price = Ok false)
    /\ (forall env1 currentPrice,
           price = 0 ->
           MEVProtector.checkPriceAnomaly st1 env1 symbol currentPrice
           = Err (Revert "No oracle price available"))
    /\ (forall other env1 currentPrice,
           other <> symbol ->
           MEVProtector.checkPriceAnomaly st1 env1 other currentPrice
           = MEVProtector.checkPriceAnomaly st env1 other currentPrice).
Proof.
  intros st env symbol price st1 H.
  unfold MEVProtector.updateOraclePrice, MEVProtector.onlyIndexer in H.
  bind_inv H as u1 Hindexer. apply require_inv in Hindexer.
  injection H as <-.
  assert (Hfresh : forall env1 currentPrice,
             0 < price ->
             MEVProtector.block_timestamp env <= MEVProtector.block_timestamp env1
             < MEVProtector.block_timestamp env + 300 ->
             Z.abs (currentPrice - price) * 10000 <= MAX_UINT256 ->
             MEVProtector.checkPriceAnomaly
               (MEVProtector.mkState (MEVProtector.authorizedIndexer st)
                  (MEVProtector.priceDeviationThreshold st)
                  (<[symbol := price]> (MEVProtector.lastOraclePrices st))
                  (<[symbol := MEVProtector.block_timestamp env]>
                     (MEVProtector.lastOracleUpdate st)))
               env1 symbol currentPrice
             = Ok (Z.abs (currentPrice - price) * 10000 / price
                   >? MEVProtector.priceDeviationThreshold st)).
  { intros env1 currentPrice Hprice Htime Hfit.
    unfold MEVProtector.checkPriceAnomaly. cbv zeta.
    cbn [MEVProtector.lastOraclePrices MEVProtector.lastOracleUpdate
         MEVProtector.priceDeviationThreshold].
    rewrite !price_insert_eq.
    rewrite (require_Ok (price >? 0))
      by (rewrite Z.gtb_ltb; apply Z.ltb_lt; exact Hprice).
    run.
    rewrite (checked_sub_Ok (MEVProtector.block_timestamp env1)
                            (MEVProtector.block_timestamp env)) by lia.
    run.
    rewrite (require_Ok (_ <? 300)) by (apply Z.ltb_lt; lia).
    run.
    destruct (Z.gtb_spec currentPrice price) as [Hup | Hdown].
    - rewrite (checked_sub_Ok currentPrice price) by lia. run.
      replace (Z.abs (currentPrice - price)) with (currentPrice - price) in *
        by lia.
      rewrite (checked_mul_Ok (currentPrice - price) 10000 Hfit). run.
      rewrite (checked_div_Ok _ price) by lia. reflexivity.
    - rewrite (checked_sub_Ok price currentPrice) by lia. run.
      replace (Z.abs (currentPrice - price)) with (price - currentPrice) in *
        by lia.
      rewrite (checked_mul_Ok (price - currentPrice) 10000 Hfit). run.
      rewrite (checked_div_Ok _ price) by lia. reflexivity. }
  split; [lia|]. split; [exact Hfresh|]. split; [|split].
  - intros env1 Hprice Hthreshold Htime.
    rewrite (Hfresh env1 price Hprice Htime)
      by (rewrite Z.sub_diag; pose proof MAX_UINT256_pos; simpl; lia).
    rewrite Z.sub_diag. change (Z.abs 0 * 10000) with 0. rewrite Zdiv_0_l.
    f_equal. rewrite Z.gtb_ltb. apply Z.ltb_ge. exact Hthreshold.
  - intros env1 currentPrice ->.
    unfold MEVProtector.checkPriceAnomaly. cbv zeta.
    cbn [MEVProtector.lastOraclePrices]. rewrite price_insert_eq. reflexivity.
  - intros other env1 currentPrice Hne.
    unfold MEVProtector.checkPriceAnomaly. cbv zeta.
    cbn [MEVProtector.lastOraclePrices MEVProtector.lastOracleUpdate
         MEVProtector.priceDeviationThreshold].
    rewrite !price_insert_ne by congruence. reflexivity.
Qed.

Lemma oracle_price_round_trip_witness :
  exists st1,
    MEVProtector.updateOraclePrice Examples.priced (MEVProtector.mkEnv 2 1100)
                                   "ETH" (2100 * Examples.ether) = Ok st1
    /\ MEVProtector.checkPriceAnomaly st1 (MEVProtector.mkEnv 9 1399) "ETH"
                                      (2100 * Examples.ether) = Ok false.
Proof.
  eexists. split; [vm_compute; reflexivity|].
  match goal with
  | |- MEVProtector.checkPriceAnomaly ?st1 _ _ _ = _ =>
      pose proof (oracle_price_round_trip Examples.priced
                    (MEVProtector.mkEnv 2 1100) "ETH" (2100 * Examples.ether) st1)
        as H
  end.
  specialize (H ltac:(vm_compute; reflexivity)).
  destruct H as (_ & _ & Hself & _).
  apply (Hself (MEVProtector.mkEnv 9 1399)).
  - reflexivity.
  - vm_compute. discriminate.
  - vm_compute. split; [discriminate | reflexivity].
Defined.

Lemma registry_invariant_same w w' :
  isProtected (protector w') = isProtected (protector w) ->
  protectionLevel (protector w') = protectionLevel (protector w) ->
  MEVProtector.priceDeviationThreshold (prices (protector w'))
  = MEVProtector.priceDeviationThreshold (prices (protector w)) ->
  invariant w -> invariant w'.
Proof.
  intros H1 H2 H3 [I1 I2 I3].
  split; rewrite ?H1, ?H2, ?H3; assumption.
Qed.

Lemma registry_step_invariant w w' : invariant w -> step w w' -> invariant w'.
Proof.
  intros Hinv Hstep.
  destruct Hstep as [env H | env H | env target attacker threatType data id H
                    | env threatId H | env symbol price H | env indexer H
                    | env threshold H | env amount H | t ->].
  - apply activateProtection_inv in H as (_ & Hlevel & ->).
    destruct (getProtectionLevel_range (token w) (msg_sender env)) as (Hrange & _).
    destruct Hinv as [I1 I2 I3].
    split; cbn [protector emit with_protector with_protection isProtected
                protectionLevel prices].
    + intros user Hon. destruct (Z.eq_dec (msg_sender env) user) as [<-|Hne].
      * rewrite mget_insert_eq. lia.
      * rewrite flag_insert_ne in Hon by exact Hne.
        rewrite mget_insert_ne by exact Hne. apply I1. exact Hon.
    + intros user Hoff. destruct (Z.eq_dec (msg_sender env) user) as [<-|Hne].
      * rewrite flag_insert_eq in Hoff. discriminate Hoff.
      * rewrite flag_insert_ne in Hoff by exact Hne.
        rewrite mget_insert_ne by exact Hne. apply I2. exact Hoff.
    + exact I3.
  - unfold deactivateProtection in H. bind_inv H as u1 Hon. injection H as <-.
    destruct Hinv as [I1 I2 I3].
    split; cbn [protector emit with_protector with_protection isProtected
                protectionLevel prices].
    + intros user Hflag. destruct (Z.eq_dec (msg_sender env) user) as [<-|Hne].
      * rewrite flag_insert_eq in Hflag. discriminate Hflag.
      * rewrite flag_insert_ne in Hflag by exact Hne.
        rewrite mget_insert_ne by exact Hne. apply I1. exact Hflag.
    + intros user Hflag. destruct (Z.eq_dec (msg_sender env) user) as [<-|Hne].
      * apply mget_insert_eq.
      * rewrite flag_insert_ne in Hflag by exact Hne.
        rewrite mget_insert_ne by exact Hne. apply I2. exact Hflag.
    + exact I3.
  - apply detectMEVThreat_inv in H.
    destruct H as (_ & _ & _ & kind & _ & H). cbv zeta in H.
    destruct H as (_ & _ & Hprices & Hprotected & Hlevels & _).
    revert Hinv. apply registry_invariant_same; [assumption | assumption|].
    rewrite Hprices. reflexivity.
  - unfold reportThreat in H. cbv zeta in H.
    bind_inv H as u1 H1. bind_inv H as u2 H2. bind_inv H as count Hcount.
    bind_inv H as w1 Hreward. injection H as <-.
    apply reward_inv in Hreward as (_ & Hprotector & _).
    revert Hinv. apply registry_invariant_same;
      cbn [protector emit]; rewrite Hprotector; reflexivity.
  - unfold updateOraclePrice in H. bind_inv H as p Hp. injection H as <-.
    unfold MEVProtector.updateOraclePrice in Hp.
    bind_inv Hp as u1 Hindexer. injection Hp as <-.
    revert Hinv. apply registry_invariant_same; reflexivity.
  - unfold setAuthorizedIndexer in H. bind_inv H as u1 Hown. cbv zeta in H.
    injection H as <-.
    revert Hinv. apply registry_invariant_same; reflexivity.
  - unfold setPriceDeviationThreshold in H. bind_inv H as u1 Hown.
    bind_inv H as u2 Hcap. apply require_inv in Hcap. cbv zeta in H.
    injection H as <-. destruct Hinv as [I1 I2 I3].
    split; cbn [protector with_protector with_prices isProtected protectionLevel
                prices MEVProtector.priceDeviationThreshold];
      [exact I1 | exact I2 | lia].
  - unfold setThreatReportReward in H. bind_inv H as u1 Hown. injection H as <-.
    revert Hinv. apply registry_invariant_same; reflexivity.
  - revert Hinv. apply registry_invariant_same; reflexivity.
Qed.

(** X25. What every world of a deployed basic protector satisfies,
    whatever calls were made and whatever happened to the token since the
    constructor ran: a protected user has a stored level between 1 and 5,
    an unprotected user the level 0, and the price deviation threshold is
    at most 1000 basis points. Hence a threat of any type other than
    sandwich attack and JIT liquidity against a protected user is always
    prevented. *)
Theorem reachable_registry_keeps_invariant :
  forall this deployer _aegilonToken w0 w,
    constructor this deployer _aegilonToken = Ok w0 ->
    rtc step w0 w ->
    invariant w
    /\ (forall env target attacker threatType transactionData w' id,
           flag (isProtected (protector w)) target = true ->
           threatType <> 0 -> threatType <> 3 ->
           detectMEVThreat w env target attacker threatType transactionData
           = Ok (w', id) ->
           prevented (getThreatData w' id) = true).
Proof.
  intros this deployer _aegilonToken w0 w Hdeploy Hsteps.
  assert (Hinv : invariant w).
  { revert w Hsteps. apply (rtc_ind_r invariant).
    - unfold constructor in Hdeploy. bind_inv Hdeploy as u1 Htoken.
      injection Hdeploy as <-.
      split; cbn [protector isProtected protectionLevel prices
                  MEVProtector.priceDeviationThreshold].
      + intros user Hon. unfold flag in Hon. rewrite lookup_empty in Hon.
        discriminate Hon.
      + intros user _. unfold mget. rewrite lookup_empty. reflexivity.
      + lia.
    - intros y z _ Hstep Hy. exact (registry_step_invariant y z Hy Hstep). }
  split; [exact Hinv|].
  intros env target attacker threatType transactionData w' id Hon H0 H3 H.
  apply detectMEVThreat_inv in H.
  destruct H as (_ & _ & _ & kind & Hkind & H). cbv zeta in H.
  destruct H as (Hdata & _). rewrite Hdata. cbn [prevented].
  rewrite Hon. cbn [andb]. apply Z.leb_le.
  destruct Hinv as [I1 _ _]. specialize (I1 target Hon).
  assert (Hneed : required_level kind = 1).
  { unfold ThreatType_of in Hkind.
    repeat match type of Hkind with
           | context [threatType =? ?c] =>
               destruct (Z.eqb_spec threatType c);
                 [try contradiction; injection Hkind as <-; reflexivity|]
           end.
    discriminate Hkind. }
  lia.
Qed.

Lemma reachable_registry_keeps_invariant_witness :
  exists w0 w,
    constructor guard deployer staked = Ok w0
    /\ activateProtection w0 (call holder 1200) = Ok w
    /\ invariant w.
Proof.
  do 2 eexists. split; [vm_compute; reflexivity|].
  split; [vm_compute; reflexivity|].
  refine (proj1 (reachable_registry_keeps_invariant guard deployer staked _ _ _ _)).
  - vm_compute. reflexivity.
  - apply rtc_once. apply (step_activateProtection _ _ (call holder 1200)).
    vm_compute. reflexivity.
Defined.

End RegistryExtras.

(** ** The analytics: the cache, the gas statistics, the alerts *)

Section AnalyticsExtras.
Import MevDetection MevAnalysis Scoring Examples AnalyticsScenarios.

Lemma addToRecentTransactions_drop cache t :
  (length cache <= 50)%nat ->
  addToRecentTransactions cache t
  = drop (length (cache ++ [t]) - 50) (cache ++ [t])
  /\ (length (addToRecentTransactions cache t) <= 50)%nat.
Proof.
  intros Hlen. unfold addToRecentTransactions, MAX_RECENT_TRANSACTIONS.
  cbv zeta. rewrite length_app. cbn [length].
  destruct (Nat.ltb_spec 50 (length cache + 1)) as [Hfull | Hroom].
  - replace (length cache + 1 - 50)%nat with 1%nat by lia.
    split; [destruct (cache ++ [t]); reflexivity|].
    destruct cache as [|c cache]; [simpl in Hfull; lia|].
    cbn [app tail]. rewrite length_app. cbn [length] in *. lia.
  - replace (length cache + 1 - 50)%nat with 0%nat by lia.
    split; [reflexivity|]. rewrite length_app. cbn [length]. lia.
Qed.

(** X26. The cache of recent transactions is a queue of at most 50: after
    any transactions were added, one by one, to a cache of at most 50, it
    holds the last 50 of all of them, in the order in which they came. *)
Theorem recent_transactions_keep_last_fifty :
  forall txs cache,
    (length cache <= 50)%nat ->
    add_all cache txs = drop (length (cache ++ txs) - 50) (cache ++ txs)
    /\ (length (add_all cache txs) <= 50)%nat.
Proof.
  induction txs as [|t txs IH]; intros cache Hlen.
  - cbn [add_all foldl]. rewrite app_nil_r.
    replace (length cache - 50)%nat with 0%nat by lia.
    split; [reflexivity | exact Hlen].
  - unfold add_all. cbn [foldl]. fold (add_all (addToRecentTransactions cache t) txs).
    destruct (addToRecentTransactions_drop cache t Hlen) as [Hone Hlen1].
    destruct (IH _ Hlen1) as [Hall Hlen2].
    split; [|exact Hlen2].
    rewrite Hall, Hone.
    set (k := (length (cache ++ [t]) - 50)%nat).
    assert (Hk : (k <= length (cache ++ [t]))%nat) by (unfold k; lia).
    rewrite <- (drop_app_le (cache ++ [t]) txs k Hk).
    rewrite drop_drop, length_drop, <- app_assoc. cbn [app].
    f_equal. rewrite !length_app. cbn [length].
    unfold k. rewrite length_app in *. cbn [length] in *. lia.
Qed.

Lemma recent_transactions_keep_last_fifty_witness :
  add_all [cached] [incoming 12; incoming 13]
  = drop (length ([cached] ++ [incoming 12; incoming 13]) - 50)
         ([cached] ++ [incoming 12; incoming 13])
  /\ (length (add_all [cached] [incoming 12; incoming 13]) <= 50)%nat.
Proof.
  apply (recent_transactions_keep_last_fifty [incoming 12; incoming 13] [cached]).
  simpl. lia.
Defined.

Lemma wrap32_small x : - 2 ^ 31 <= x < 2 ^ 31 -> wrap32 x = x.
Proof.
  intros H. unfold wrap32.
  rewrite Z.mod_small by (change (2 ^ 32) with (2 ^ 31 + 2 ^ 31); lia). lia.
Qed.

Lemma quot_between n lo hi total :
  0 < n -> 0 <= lo -> lo * n <= total -> total <= hi * n ->
  lo <= total ÷ n <= hi.
Proof.
  intros Hn Hlo Hlow Hhigh.
  rewrite Z.quot_div_nonneg by nia.
  split.
  - apply Z.div_le_lower_bound; lia.
  - apply Z.div_le_upper_bound; lia.
Qed.

(** X27. The gas statistics of a one-minute interval. The first gas price
    of an interval opens its record with average, median, minimum and
    maximum at that price and a count of 1. Every later price of the
    interval raises the count by one and keeps the record consistent: the
    minimum is at most the running average, which is at most the maximum,
    the new price lies between minimum and maximum, and the anomalies
    counted are fewer than the transactions. The median and the start
    time are never written again, and a spike once flagged stays
    flagged. *)
Theorem gas_analytics_stay_consistent :
  forall store gasPrice timestamp,
    0 <= gasPrice ->
    (forall a, store !! blockId timestamp = Some a ->
               consistent a /\ transactionCount a + 1 < 2 ^ 31) ->
    exists a',
      updateGasAnalytics store gasPrice timestamp
      = Some (<[blockId timestamp := a']> store, a')
      /\ consistent a'
      /\ minGasPrice a' <= gasPrice <= maxGasPrice a'
      /\ endTimestamp a' = timestamp
      /\ match store !! blockId timestamp with
         | None =>
             avgGasPrice a' = gasPrice /\ medianGasPrice a' = gasPrice
             /\ minGasPrice a' = gasPrice /\ maxGasPrice a' = gasPrice
             /\ transactionCount a' = 1 /\ startTimestamp a' = timestamp
         | Some a =>
             transactionCount a' = transactionCount a + 1
             /\ medianGasPrice a' = medianGasPrice a
             /\ startTimestamp a' = startTimestamp a
             /\ minGasPrice a' = Z.min gasPrice (minGasPrice a)
             /\ maxGasPrice a' = Z.max gasPrice (maxGasPrice a)
             /\ (gasSpike a = true -> gasSpike a' = true)
         end.
Proof.
  intros store gasPrice timestamp Hgas Hstore.
  unfold updateGasAnalytics. cbv zeta.
  destruct (store !! blockId timestamp) as [a|] eqn:Hlookup.
  - destruct (Hstore a eq_refl) as [[Hcount Hmin Hmax Hanomalies Hspike] Hroom].
    rewrite (wrap32_small (transactionCount a + 1)) by lia.
    replace (transactionCount a + 1 - 1) with (transactionCount a) by lia.
    rewrite (wrap32_small (transactionCount a)) by lia.
    replace (transactionCount a + 1 =? 0) with false
      by (symmetry; apply Z.eqb_neq; lia).
    cbn [mbind option_bind]. eexists. split; [reflexivity|].
    set (maxGas := if gasPrice >? maxGasPrice a then gasPrice else maxGasPrice a).
    set (minGas := if gasPrice <? minGasPrice a then gasPrice else minGasPrice a).
    assert (HmaxGas : maxGas = Z.max gasPrice (maxGasPrice a))
      by (unfold maxGas; destruct (Z.gtb_spec gasPrice (maxGasPrice a)); lia).
    assert (HminGas : minGas = Z.min gasPrice (minGasPrice a))
      by (unfold minGas; destruct (Z.ltb_spec gasPrice (minGasPrice a)); lia).
    assert (Havg : minGas
                   <= (avgGasPrice a * transactionCount a + gasPrice)
                      ÷ (transactionCount a + 1)
                   <= maxGas).
    { apply quot_between; [lia | lia | nia | nia]. }
    clearbody maxGas minGas.
    set (spike := gasPrice >? _ ÷ 100). clearbody spike.
    split.
    { split; cbn [transactionCount minGasPrice avgGasPrice maxGasPrice
                  anomalousTransactions gasSpike].
      - lia.
      - lia.
      - lia.
      - destruct spike; [rewrite wrap32_small by lia|]; lia.
      - destruct spike.
        + rewrite wrap32_small by lia. split; [lia | reflexivity].
        + exact Hspike. }
    cbn [minGasPrice maxGasPrice endTimestamp transactionCount medianGasPrice
         startTimestamp gasSpike].
    split; [lia|]. split; [reflexivity|].
    split; [reflexivity|]. split; [reflexivity|]. split; [reflexivity|].
    split; [exact HminGas|]. split; [exact HmaxGas|].
    intros ->. destruct spike; reflexivity.
  - cbn [mbind option_bind]. eexists. split; [reflexivity|].
    split.
    { split; cbn; try lia; try (split; [discriminate | lia]). }
    cbn. repeat split; lia.
Qed.

Lemma gas_analytics_stay_consistent_witness :
  exists a',
    updateGasAnalytics
      {[16 := mkGasPriceAnalytics (20 * gwei) (20 * gwei) (20 * gwei) (20 * gwei)
                                  false 120 0 1000 1000 0 1]}
      (50 * gwei) 1010
    = Some (<[blockId 1010 := a']>
              {[16 := mkGasPriceAnalytics (20 * gwei) (20 * gwei) (20 * gwei)
                                          (20 * gwei) false 120 0 1000 1000 0 1]},
            a')
    /\ consistent a'
    /\ minGasPrice a' <= 50 * gwei <= maxGasPrice a'.
Proof.
  destruct (gas_analytics_stay_consistent
              {[16 := mkGasPriceAnalytics (20 * gwei) (20 * gwei) (20 * gwei)
                                          (20 * gwei) false 120 0 1000 1000 0 1]}
              (50 * gwei) 1010)
    as (a' & Hrun & Hconsistent & Hbetween & _).
  - vm_compute. discriminate.
  - intros a Ha. vm_compute in Ha. injection Ha as <-.
    split; [|reflexivity].
    split; cbn; [lia | lia | lia | lia | split; [discriminate | lia]].
  - exists a'. split; [exact Hrun|]. split; [exact Hconsistent | exact Hbetween].
Defined.

Lemma addToRecentTransactions_holds cache t :
  t ∈ addToRecentTransactions cache t.
Proof.
  unfold addToRecentTransactions. cbv zeta.
  destruct cache as [|c cache].
  - cbn. apply elem_of_cons. left. reflexivity.
  - destruct (_ <? _)%nat; cbn [app tail].
    + apply elem_of_app. right. apply elem_of_cons. left. reflexivity.
    + apply elem_of_cons. right. apply elem_of_app. right.
      apply elem_of_cons. left. reflexivity.
Qed.

Lemma same_target_seen_elem cache t x :
  x ∈ cache -> same_target x t = true -> same_target_seen cache t = true.
Proof.
  intros Hin Hsame. induction cache as [|c cache IH]; [inversion Hin|].
  cbn [same_target_seen]. destruct (same_target c t) eqn:Hc; [reflexivity|].
  apply elem_of_cons in Hin as [-> | Hin]; [congruence | exact (IH Hin)].
Qed.

Lemma severity_high score :
  50 < score -> severity score = "HIGH" \/ severity score = "CRITICAL".
Proof.
  intros H. unfold severity.
  destruct (Z.gtb_spec score 75); [right; reflexivity|].
  destruct (Z.gtb_spec score 50); [left; reflexivity | lia].
Qed.

(** X28. The alerts of an analysis. [analyzeMEVPatterns] saves the score
    of [calculateRiskScore] with the transaction, and alerts only for a
    score above 50, so that every alert is of severity HIGH or CRITICAL
    and carries that score. The transaction is in the cache by the time
    the detectors run for the alerts: a transaction with a target whose
    gas price exceeds 115% of the average is reported as FRONTRUN whenever
    its score is above 50, whatever the cache held before, the transaction
    having matched itself. While the three pattern flags of the
    transaction are unset, a POTENTIAL_MEV alert goes with every score
    above 50, next to the specific alerts. *)
Theorem alerts_of_an_analysis :
  forall recentTransactions transaction avgGasPrice blockTimestamp,
    let tx := fields transaction in
    let score :=
      calculateRiskScore recentTransactions tx avgGasPrice blockTimestamp in
    let a := analyzeMEVPatterns recentTransactions transaction avgGasPrice
                                blockTimestamp in
    MevAnalysis.riskScore (saved a) = score
    /\ isMEV (saved a) = (score >? 50)
    /\ cache a = addToRecentTransactions recentTransactions tx
    /\ (score <= 50 -> alerts a = [])
    /\ (forall alert, alert ∈ alerts a ->
          50 < score
          /\ alertRiskScore alert = score
          /\ (alertSeverity alert = "HIGH" \/ alertSeverity alert = "CRITICAL")
          /\ detected alert = true /\ prevented alert = false
          /\ transactionHash alert = hash tx)
    /\ (50 < score ->
        to tx <> None ->
        gasPrice tx > (avgGasPrice * FRONT_RUN_GAS_MULTIPLIER) ÷ 100 ->
        createMEVAlert tx "FRONTRUN" score blockTimestamp ∈ alerts a)
    /\ (50 < score ->
        isPotentialSandwich transaction = false ->
        isPotentialFrontRun transaction = false ->
        isArbitrage transaction = false ->
        createMEVAlert tx "POTENTIAL_MEV" score blockTimestamp ∈ alerts a).
Proof.
  intros recentTransactions transaction avgGasPrice blockTimestamp. cbv zeta.
  unfold analyzeMEVPatterns. cbv zeta.
  cbn [saved cache alerts MevAnalysis.riskScore isMEV isPotentialSandwich
       isPotentialFrontRun isArbitrage].
  set (tx := fields transaction).
  set (score := calculateRiskScore recentTransactions tx avgGasPrice blockTimestamp).
  set (pushed := addToRecentTransactions recentTransactions tx).
  split; [reflexivity|]. split; [reflexivity|]. split; [reflexivity|].
  split.
  { intros Hlow. replace (score >? 50) with false
      by (symmetry; rewrite Z.gtb_ltb; apply Z.ltb_ge; exact Hlow).
    reflexivity. }
  split.
  { intros alert Hin.
    destruct (Z.gtb_spec score 50) as [Hhigh | Hlow]; [|inversion Hin].
    assert (Hmade : exists kind, alert = createMEVAlert tx kind score blockTimestamp).
    { repeat (apply elem_of_app in Hin as [Hin | Hin]);
        match type of Hin with
        | _ ∈ (if ?c then _ else _) =>
            destruct c; [apply list_elem_of_singleton in Hin; eauto
                        | inversion Hin]
        end. }
    destruct Hmade as [kind ->].
    cbn [createMEVAlert alertRiskScore alertSeverity detected prevented
         transactionHash].
    split; [exact Hhigh|]. split; [reflexivity|].
    split; [apply severity_high; exact Hhigh|].
    repeat split; reflexivity. }
  split.
  - intros Hhigh Htarget Hgas.
    replace (score >? 50) with true
      by (symmetry; rewrite Z.gtb_ltb; apply Z.ltb_lt; exact Hhigh).
    assert (Hfront : detectFrontRun pushed tx avgGasPrice = true).
    { unfold detectFrontRun. cbv zeta.
      replace (gasPrice tx >? (avgGasPrice * FRONT_RUN_GAS_MULTIPLIER) ÷ 100)
        with true by (symmetry; rewrite Z.gtb_ltb; apply Z.ltb_lt; lia).
      apply (same_target_seen_elem pushed tx tx).
      - apply addToRecentTransactions_holds.
      - unfold same_target. destruct (to tx) as [target|]; [|congruence].
        apply Z.eqb_refl. }
    rewrite Hfront. apply elem_of_app. right. apply elem_of_app. left.
    apply list_elem_of_singleton. reflexivity.
  - intros Hhigh -> -> ->.
    replace (score >? 50) with true
      by (symmetry; rewrite Z.gtb_ltb; apply Z.ltb_lt; exact Hhigh).
    cbn [negb andb]. rewrite !elem_of_app. right. right. right.
    apply list_elem_of_singleton. reflexivity.
Qed.

Lemma alerts_of_an_analysis_witness :
  detectFrontRun [] (fields whale) (20 * gwei) = false
  /\ calculateRiskScore [] (fields whale) (20 * gwei) 100 = 70
  /\ createMEVAlert (fields whale) "FRONTRUN" 70 100
     ∈ alerts (analyzeMEVPatterns [] whale (20 * gwei) 100)
  /\ createMEVAlert (fields whale) "POTENTIAL_MEV" 70 100
     ∈ alerts (analyzeMEVPatterns [] whale (20 * gwei) 100).
Proof.
  split; [reflexivity|]. split; [vm_compute; reflexivity|].
  pose proof (alerts_of_an_analysis [] whale (20 * gwei) 100) as H.
  cbv zeta in H.
  replace (calculateRiskScore [] (fields whale) (20 * gwei) 100) with 70 in H
    by (vm_compute; reflexivity).
  destruct H as (_ & _ & _ & _ & _ & Hfront & Hgeneric).
  split.
  - apply Hfront; [lia | discriminate | vm_compute; reflexivity].
  - apply Hgeneric; [lia | reflexivity | reflexivity | reflexivity].
Defined.

Lemma gas_points_at_own_price transaction :
  gas_points transaction (gasPrice transaction) = 0.
Proof.
  unfold gas_points.
  destruct (Z.gtb_spec (gasPrice transaction) 0) as [Hpos|]; [|reflexivity].
  rewrite !(Qgt_gasRatio transaction (gasPrice transaction)) by exact Hpos.
  replace (_ >? 2 * _) with false by (symmetry; rewrite Z.gtb_ltb; apply Z.ltb_ge; lia).
  replace (_ >? 3 * _) with false by (symmetry; rewrite Z.gtb_ltb; apply Z.ltb_ge; lia).
  replace (_ >? 6 * _) with false by (symmetry; rewrite Z.gtb_ltb; apply Z.ltb_ge; lia).
  reflexivity.
Qed.

Lemma detectFrontRun_at_own_price recent transaction :
  0 <= gasPrice transaction ->
  detectFrontRun recent transaction (gasPrice transaction) = false.
Proof.
  intros Hgas. unfold detectFrontRun, FRONT_RUN_GAS_MULTIPLIER. cbv zeta.
  replace (_ >? _) with false; [reflexivity|].
  symmetry. rewrite Z.gtb_ltb. apply Z.ltb_ge.
  rewrite Z.quot_div_nonneg by lia.
  apply Z.div_le_lower_bound; lia.
Qed.

(** X29. The first transaction of a minute sets its own baseline.
    [processMEVTransaction] updates the gas statistics before it analyses
    the transaction, and passes the updated average on: for the first
    transaction of a one-minute interval the average is the transaction's
    own gas price, so that the gas-ratio factor adds nothing, the
    front-run detector of the score stays silent and the score is at most
    65, whatever the gas price. *)
Theorem first_of_interval_sets_own_baseline :
  forall store recentTransactions transaction blockTimestamp,
    store !! blockId blockTimestamp = None ->
    0 <= gasPrice (fields transaction) ->
    exists store' a,
      processMEVTransaction store recentTransactions transaction blockTimestamp
      = Some (store', a)
      /\ a = analyzeMEVPatterns recentTransactions transaction
                                (gasPrice (fields transaction)) blockTimestamp
      /\ (exists g, store' !! blockId blockTimestamp = Some g
                    /\ avgGasPrice g = gasPrice (fields transaction)
                    /\ transactionCount g = 1)
      /\ MevAnalysis.riskScore (saved a)
         = value_points (fields transaction)
           + points (detectSandwich recentTransactions (fields transaction)
                                    blockTimestamp) 25
           + points (detectArbitrage (fields transaction) blockTimestamp) 15
      /\ MevAnalysis.riskScore (saved a) <= 65.
Proof.
  intros store recentTransactions transaction blockTimestamp Hnew Hgas.
  unfold processMEVTransaction, updateGasAnalytics. cbv zeta.
  rewrite Hnew. cbn [mbind option_bind avgGasPrice].
  do 2 eexists. split; [reflexivity|]. split; [reflexivity|].
  split.
  { eexists. rewrite lookup_insert_eq. split; [reflexivity|].
    split; reflexivity. }
  unfold analyzeMEVPatterns. cbv zeta. cbn [saved MevAnalysis.riskScore].
  rewrite calculateRiskScore_eq, gas_points_at_own_price,
    detectFrontRun_at_own_price by exact Hgas.
  assert (Hsum : value_points (fields transaction)
                 + points (detectSandwich recentTransactions (fields transaction)
                                          blockTimestamp) 25
                 + points (detectArbitrage (fields transaction) blockTimestamp) 15
                 <= 65).
  { unfold value_points, points.
    destruct (value _ >? 10000000000000000000);
      [|destruct (value _ >? 1000000000000000000)];
      destruct (detectSandwich _ _ _); destruct (detectArbitrage _ _); lia. }
  cbn [points]. rewrite Z.add_0_l, Z.add_0_r.
  rewrite Z.min_l by lia. split; [reflexivity | exact Hsum].
Qed.

Lemma first_of_interval_sets_own_baseline_witness :
  exists store' a,
    processMEVTransaction ∅ [] whale 100 = Some (store', a)
    /\ MevAnalysis.riskScore (saved a) <= 65.
Proof.
  destruct (first_of_interval_sets_own_baseline ∅ [] whale 100)
    as (store' & a & Hrun & _ & _ & _ & Hscore).
  - reflexivity.
  - vm_compute. discriminate.
  - exists store', a. split; [exact Hrun | exact Hscore].
Defined.

End AnalyticsExtras.
